(** * agentman: lifecycle of consul test instances, clusters and their registry

  A shallow embedding of [agentman.go] and [multierr.go].

  Go pointers ([*TestInstance], [*TestCluster]) are locations in a store,
  so that a handle kept by a caller and the entry of a cluster or of the
  registry denote the same mutable object.  The consul test server, the
  api client and the join call are external: their outcomes are given by
  an environment [Env] that may depend on everything that was asked of
  it before (the list of [Event]s), and every call to them is recorded.
  A Go [panic] is a distinct outcome of a computation.  Mutexes are not
  represented: every method runs under its receiver's lock, hence
  atomically; the two goroutines of [AgentMan.Stop] are interleaved
  explicitly. *)

From stdpp Require Import gmap strings list fin_maps pretty.
From Stdlib Require Import ZArith Lia.

Local Open Scope string_scope.
Local Open Scope list_scope.
Local Open Scope Z_scope.

(** ** Machine integers *)

(** Conversion of an [int] to [uint8], and [uint8] arithmetic: wrap-around
  modulo 256. *)
Definition uint8 (z : Z) : Z := z mod 256.

(** [math.MaxUint8] *)
Definition MaxUint8 : Z := 255.

(** [%d] of [fmt.Sprintf] *)
Definition fmt_d (z : Z) : string := pretty z.

(** ** External collaborators: consul's [testutil] and [api] packages *)

Module testutil.

(** The fields of [testutil.TestServerConfig] this package touches. *)
Record TestServerConfig := mkConfig {
  RaftMultiplier : Z;        (* Performance.RaftMultiplier *)
  DisableCheckpoint : bool;
  Bootstrap : bool
}.

(** [testutil.ServerConfigCallback]: in Go it mutates the configuration
    through a pointer; here it returns the updated configuration. *)
Definition ServerConfigCallback := TestServerConfig -> TestServerConfig.

Inductive http_Client := HttpClientOf (addr : string).

Record TestServer := mkServer {
  Config : TestServerConfig;
  HTTPAddr : string;
  HTTPSAddr : string;
  LANAddr : string;
  WANAddr : string;
  HTTPClient : http_Client
}.

End testutil.

Module api.
(** [*api.Client], built from a configuration whose [Address] is set. *)
Inductive Client := ClientOf (Address : string).
End api.

(** ** Errors and panics *)

(** The [error] values of the package.  Each [fmt.Errorf] / [errors.New]
  site is one constructor carrying the arguments of its format string;
  [ErrMulti] is a [*MultiErr] returned as an [error]. *)
#[warnings="-register-all"]
Inductive error :=
| ErrExternal (msg : string)
  (* an error produced by testutil or api *)
| ErrSizeAtLeast1
  (* errors.New("size must be at least 1") *)
| ErrCapacity (name : string) (current n : Z)
  (* "%s is already %d instances long, cannot grow by %d as it would
     breach the max allowed cluster instance size of 255" *)
| ErrGrowCreate (name : string) (offset : Z) (cause : error)
  (* "unable to grow %s, instance %d creation failed: %s" *)
| ErrGrowJoin (name : string) (offset : Z) (cause : error)
  (* "unable to grow %s, instance %d failed to join: %s" *)
| ErrSingleExists (name : string)
  (* "single %s already exists" *)
| ErrClusterExists (name : string)
  (* "cluster %s already exists" *)
| ErrMulti (errs : list error).

(** What a Go [panic] carries. *)
Inductive panic :=
| InstanceDefunct (name : string)
  (* panic(fmt.Sprintf("Instance %s is defunct", ti.name)) *)
| ClusterDefunct (name : string)
  (* panic(fmt.Sprintf("Cluster %s is defunct", cl.name)) *)
| IndexOutOfRange (index len : Z)
  (* runtime error: index out of range [index] with length len *)
| NilDereference.
  (* runtime error: invalid memory address or nil pointer dereference *)

(** ** The store *)

Definition loc := nat.

Record TestInstance := mkInstance {
  ti_name : string;
  ti_server : option testutil.TestServer;
  ti_client : option api.Client
}.

Record TestCluster := mkCluster {
  cl_name : string;
  cl_size : Z;                (* set by NewTestCluster, never read *)
  cl_instances : list loc;
  cl_stopped : bool
}.

(** A call to the external world. *)
Inductive Event :=
| EvNewTestServer (conf : testutil.TestServerConfig)
| EvServerStop (srv : testutil.TestServer)
| EvJoin (c : api.Client) (addr : string) (wan : bool).

Record World := mkWorld {
  instance_store : gmap loc TestInstance;
  cluster_store : gmap loc TestCluster;
  events : list Event
}.

(** What a started server process reports: its four addresses. *)
Record Addresses := mkAddresses {
  http_addr : string;
  https_addr : string;
  lan_addr : string;
  wan_addr : string
}.

(** The behaviour of the external world; the first argument of each
  history-dependent field is the list of calls made so far. *)
Record Env := mkEnv {
  defaultServerConfig : testutil.TestServerConfig;
  startServer : list Event -> testutil.TestServerConfig -> Addresses + error;
  newClient : string -> api.Client + error;
  stopServer : list Event -> testutil.TestServer -> option error;
  agentJoin : list Event -> api.Client -> string -> bool -> option error
}.

(** ** Computations: state passing with panics *)

Inductive Outcome (A : Type) :=
| Returns (a : A) (w : World)
| Panics (p : panic) (w : World).
Arguments Returns {A} a w.
Arguments Panics {A} p w.

Definition M (A : Type) := World -> Outcome A.

Definition ret {A} (a : A) : M A := fun w => Returns a w.

Definition bind {A B} (m : M A) (k : A -> M B) : M B :=
  fun w => match m w with
           | Returns a w' => k a w'
           | Panics p w' => Panics p w'
           end.

Definition raise {A} (p : panic) : M A := fun w => Panics p w.

Notation "x <- m ;; k" := (bind m (fun x => k))
  (at level 100, m at next level, right associativity).
Notation "m ;;; k" := (bind m (fun _ => k))
  (at level 100, right associativity).

Definition record (e : Event) : M unit :=
  fun w => Returns tt (mkWorld (instance_store w) (cluster_store w) (events w ++ [e])).

Definition history : M (list Event) := fun w => Returns (events w) w.

(** Dereference of a [*TestInstance]; a pointer that denotes no object
  behaves as [nil]. *)
Definition get_instance (ti : loc) : M TestInstance :=
  fun w => match instance_store w !! ti with
           | Some i => Returns i w
           | None => Panics NilDereference w
           end.

Definition put_instance (ti : loc) (i : TestInstance) : M unit :=
  fun w => Returns tt (mkWorld (<[ti := i]> (instance_store w)) (cluster_store w) (events w)).

Definition new_instance (i : TestInstance) : M loc :=
  fun w => let ti := fresh (dom (instance_store w)) in
           Returns ti (mkWorld (<[ti := i]> (instance_store w)) (cluster_store w) (events w)).

Definition get_cluster (cl : loc) : M TestCluster :=
  fun w => match cluster_store w !! cl with
           | Some c => Returns c w
           | None => Panics NilDereference w
           end.

Definition put_cluster (cl : loc) (c : TestCluster) : M unit :=
  fun w => Returns tt (mkWorld (instance_store w) (<[cl := c]> (cluster_store w)) (events w)).

Definition new_cluster (c : TestCluster) : M loc :=
  fun w => let cl := fresh (dom (cluster_store w)) in
           Returns cl (mkWorld (instance_store w) (<[cl := c]> (cluster_store w)) (events w)).

(** ** The external calls, recorded *)

Section External.
Context (env : Env).

(** [testutil.NewTestServerConfig(cb)]: applies the callback to the
    default configuration, then starts a server process with it or
    fails; the server keeps the configuration it was started with. *)
Definition NewTestServerConfig (cb : testutil.ServerConfigCallback)
  : M (testutil.TestServer + error) :=
  let conf := cb (defaultServerConfig env) in
  h <- history ;;
  record (EvNewTestServer conf) ;;;
  match startServer env h conf with
  | inl a =>
      ret (inl (testutil.mkServer conf (http_addr a) (https_addr a)
                  (lan_addr a) (wan_addr a) (testutil.HttpClientOf (http_addr a))))
  | inr err => ret (inr err)
  end.

(** [server.Stop()] *)
Definition server_Stop (srv : testutil.TestServer) : M (option error) :=
  h <- history ;;
  record (EvServerStop srv) ;;;
  ret (stopServer env h srv).

(** [api.NewClient(conf)] with [conf.Address = addr]; it only builds a
    value, no call is made. *)
Definition api_NewClient (addr : string) : M (api.Client + error) :=
  ret (newClient env addr).

(** [client.Agent().Join(addr, wan)] *)
Definition Agent_Join (c : api.Client) (addr : string) (wan : bool) : M (option error) :=
  h <- history ;;
  record (EvJoin c addr wan) ;;;
  ret (agentJoin env h c addr wan).

End External.

(** ** multierr.go *)

Module MultiErr.

Record t := mk { errs : list error }.

Definition NewMultiErr : t := mk [].

(** [Size] returns the entire size of this multi error *)
Definition Size (e : t) : Z := Z.of_nat (length (errs e)).

(** [Add] will add an error, ignoring nils *)
Definition Add (e : t) (err : option error) : t :=
  match err with
  | Some x => mk (errs e ++ [x])
  | None => e
  end.

End MultiErr.

(** ** TestInstance *)

Module Instance.
Section WithEnv.
Context (env : Env).

(** [NewTestInstance]: the Go code allocates the struct first and drops
    it on failure; here the object is allocated once it is returned. *)
Definition NewTestInstance (name : string) (cb : testutil.ServerConfigCallback)
  : M (loc + error) :=
  r <- NewTestServerConfig env cb ;;
  match r with
  | inr err => ret (inr err)
  | inl srv =>
      c <- api_NewClient env (testutil.HTTPAddr srv) ;;
      match c with
      | inr err => server_Stop env srv ;;; ret (inr err)
      | inl client =>
          ti <- new_instance (mkInstance name (Some srv) (Some client)) ;;
          ret (inl ti)
      end
  end.

Definition Name (ti : loc) : M string :=
  i <- get_instance ti ;; ret (ti_name i).

(** The body shared by the accessors: panic when [ti.server == nil]. *)
Definition live_server (ti : loc) : M (TestInstance * testutil.TestServer) :=
  i <- get_instance ti ;;
  match ti_server i with
  | None => raise (InstanceDefunct (ti_name i))
  | Some srv => ret (i, srv)
  end.

Definition HTTPAddr (ti : loc) : M string :=
  x <- live_server ti ;; ret (testutil.HTTPAddr (snd x)).

Definition HTTPSAddr (ti : loc) : M string :=
  x <- live_server ti ;; ret (testutil.HTTPSAddr (snd x)).

Definition LANAddr (ti : loc) : M string :=
  x <- live_server ti ;; ret (testutil.LANAddr (snd x)).

Definition WANAddr (ti : loc) : M string :=
  x <- live_server ti ;; ret (testutil.WANAddr (snd x)).

Definition HTTPClient (ti : loc) : M testutil.http_Client :=
  x <- live_server ti ;; ret (testutil.HTTPClient (snd x)).

(** [APIClient] returns [ti.client], which may be [nil]. *)
Definition APIClient (ti : loc) : M (option api.Client) :=
  x <- live_server ti ;; ret (ti_client (fst x)).

Definition Config (ti : loc) : M testutil.TestServerConfig :=
  x <- live_server ti ;; ret (testutil.Config (snd x)).

(** [Stop] attempts to stop the underlying test server and nils both the
    server and the client. *)
Definition Stop (ti : loc) : M (option error) :=
  i <- get_instance ti ;;
  match ti_server i with
  | None => ret None
  | Some srv =>
      err <- server_Stop env srv ;;
      put_instance ti (mkInstance (ti_name i) None None) ;;;
      ret err
  end.

Definition Stopped (ti : loc) : M bool :=
  i <- get_instance ti ;;
  ret (match ti_server i with None => true | Some _ => false end).

End WithEnv.
End Instance.


(** ** TestCluster *)

(** [ClusterServerConfigCallback]: [func(name string, num uint8, conf)] *)
Definition ClusterServerConfigCallback :=
  string -> Z -> testutil.TestServerConfig -> testutil.TestServerConfig.

(** Sets [RaftMultiplier], [DisableCheckpoint] and [Bootstrap]; only
    node 0 bootstraps. *)
Definition DefaultClusterServerConfigCallback : ClusterServerConfigCallback :=
  fun _ num conf =>
    testutil.mkConfig 1 false (if num =? 0 then true else false).

(** [s[i]] on a slice: a runtime panic outside [0 <= i < len(s)]. *)
Definition index (s : list loc) (i : Z) : M loc :=
  if i <? 0 then raise (IndexOutOfRange i (Z.of_nat (length s)))
  else match s !! Z.to_nat i with
       | Some x => ret x
       | None => raise (IndexOutOfRange i (Z.of_nat (length s)))
       end.

Module Cluster.
Section WithEnv.
Context (env : Env).

Definition Name (cl : loc) : M string :=
  c <- get_cluster cl ;; ret (cl_name c).

Definition Size (cl : loc) : M Z :=
  c <- get_cluster cl ;; ret (Z.of_nat (length (cl_instances c))).

Definition Stopped (cl : loc) : M bool :=
  c <- get_cluster cl ;; ret (cl_stopped c).

(** [for i := l - 1; i >= 0; i-- { err.Add(cl.instances[i].Stop()) }],
    entered with [k = i + 1] iterations left. *)
Fixpoint stop_loop (cl : loc) (k : nat) (err : MultiErr.t) : M MultiErr.t :=
  match k with
  | O => ret err
  | S i =>
      c <- get_cluster cl ;;
      ti <- index (cl_instances c) (Z.of_nat i) ;;
      r <- Instance.Stop env ti ;;
      stop_loop cl i (MultiErr.Add err r)
  end.

Definition stop (cl : loc) : M (option error) :=
  c <- get_cluster cl ;;
  let l := Z.of_nat (length (cl_instances c)) in
  if l =? 0 then ret None
  else
    err <- stop_loop cl (Z.to_nat l) MultiErr.NewMultiErr ;;
    c <- get_cluster cl ;;
    put_cluster cl (mkCluster (cl_name c) (cl_size c) (cl_instances c) true) ;;;
    if MultiErr.Size err >? 0 then ret (Some (ErrMulti (MultiErr.errs err)))
    else ret None.

(** [Stop] will attempt to stop the entire cluster.  Once called, the
    cluster is considered defunct and all further interactions will cause
    a panic. *)
Definition Stop (cl : loc) : M (option error) :=
  c <- get_cluster cl ;;
  if cl_stopped c then ret None else stop cl.

(** [Instance] will attempt to return a single instance from this cluster *)
Definition Instance (cl : loc) (num : Z) : M loc :=
  c <- get_cluster cl ;;
  if cl_stopped c then raise (ClusterDefunct (cl_name c))
  else index (cl_instances c) num.

(** One iteration of the loop of [Grow], for the instance at [offset]:
    [Some err] when the iteration executes [return err], [None] when it
    reaches its end. *)
Definition grow_body (cl : loc) (cb : ClusterServerConfigCallback) (offset : Z)
  : M (option error) :=
  c <- get_cluster cl ;;
  r <- Instance.NewTestInstance env
         (cl_name c +:+ "-" +:+ fmt_d offset)
         (fun conf => cb (cl_name c) offset conf) ;;
  match r with
  | inr err => ret (Some (ErrGrowCreate (cl_name c) offset err))
  | inl instance =>
      c <- get_cluster cl ;;
      first <- index (cl_instances c) 0 ;;
      client <- Instance.APIClient first ;;
      addr <- Instance.LANAddr instance ;;
      jr <- match client with
            | Some client => Agent_Join env client addr false
            | None => raise NilDereference
            end ;;
      match jr with
      | Some err =>
          Instance.Stop env instance ;;;
          ret (Some (ErrGrowJoin (cl_name c) offset err))
      | None =>
          c <- get_cluster cl ;;
          put_cluster cl (mkCluster (cl_name c) (cl_size c)
                            (cl_instances c ++ [instance]) (cl_stopped c)) ;;;
          ret None
      end
  end.

(** The loop of [Grow],
    [for i := uint8(0); i < n; i++ { offset := uint8(current) + i; ... }],
    entered with [k = n - i] iterations left. *)
Fixpoint grow_loop (cl : loc) (cb : ClusterServerConfigCallback)
    (current : Z) (k : nat) (i : Z) : M (option error) :=
  match k with
  | O => ret None
  | S k' =>
      r <- grow_body cl cb (uint8 (uint8 current + i)) ;;
      match r with
      | Some err => ret (Some err)
      | None => grow_loop cl cb current k' (uint8 (i + 1))
      end
  end.

(** [Grow] will attempt to add n number of test instances to the cluster *)
Definition Grow (cl : loc) (n : Z) (cb : ClusterServerConfigCallback) : M (option error) :=
  c <- get_cluster cl ;;
  if cl_stopped c then raise (ClusterDefunct (cl_name c))
  else
    let current := Z.of_nat (length (cl_instances c)) in
    if current + n >? MaxUint8 then ret (Some (ErrCapacity (cl_name c) current n))
    else grow_loop cl cb current (Z.to_nat n) (uint8 0).

(** The loop of [Shrink],
    [for i := uint8(l - 1); i > diff; i-- { err.Add(cl.instances[i].Stop()) }].
    Both [i] and [diff] are unsigned: at [i = 0] the test [i > diff] fails,
    so [i--] is only ever executed on a positive [i] and never wraps. *)
Fixpoint shrink_loop (cl : loc) (i : nat) (diff : nat) (err : MultiErr.t) : M MultiErr.t :=
  match i with
  | O => ret err
  | S i' =>
      if (diff <? i)%nat then
        c <- get_cluster cl ;;
        ti <- index (cl_instances c) (Z.of_nat i) ;;
        r <- Instance.Stop env ti ;;
        shrink_loop cl i' diff (MultiErr.Add err r)
      else ret err
  end.

(** [Shrink] will reduce the # of servers in the cluster, starting with
    the most recently added.  In [cl.instances[0:diff]] the bound [diff]
    never exceeds the length (see [Shrink_diff_le]), so the slice
    expression is a prefix. *)
Definition Shrink (cl : loc) (n : Z) : M (option error) :=
  c <- get_cluster cl ;;
  let l := Z.of_nat (length (cl_instances c)) in
  if n >? uint8 l then stop cl
  else
    let diff := uint8 (uint8 l - n) in
    err <- shrink_loop cl (Z.to_nat (uint8 (l - 1))) (Z.to_nat diff) MultiErr.NewMultiErr ;;
    c <- get_cluster cl ;;
    put_cluster cl (mkCluster (cl_name c) (cl_size c)
                      (take (Z.to_nat diff) (cl_instances c)) (cl_stopped c)) ;;;
    if MultiErr.Size err >? 0 then ret (Some (ErrMulti (MultiErr.errs err)))
    else ret None.

(** The unwinding loop of [NewTestCluster],
    [for u := ul - 1; u >= 0; u-- { cl.instances[u].Stop() }],
    entered with [k = u + 1]. *)
Fixpoint unwind_loop (cl : loc) (k : nat) : M unit :=
  match k with
  | O => ret tt
  | S u =>
      c <- get_cluster cl ;;
      ti <- index (cl_instances c) (Z.of_nat u) ;;
      Instance.Stop env ti ;;;
      unwind_loop cl u
  end.

(** [NewTestCluster] will attempt to spin up a cluster of consul test
    servers of the specified size.  The Go code allocates the struct with
    a one-element slice before it creates instance 0 and drops it when
    that fails; here the object is allocated once instance 0 exists. *)
Definition NewTestCluster (name : string) (size : Z)
    (cb : option ClusterServerConfigCallback) : M (loc + error) :=
  if size =? 0 then ret (inr ErrSizeAtLeast1)
  else
    let cb := match cb with
              | Some f => f
              | None => DefaultClusterServerConfigCallback
              end in
    r <- Instance.NewTestInstance env (name +:+ "-" +:+ fmt_d 0)
           (fun conf => cb name 0 conf) ;;
    match r with
    | inr err => ret (inr err)
    | inl first =>
        cl <- new_cluster (mkCluster name size [first] false) ;;
        if size =? 1 then ret (inl cl)
        else
          err <- Grow cl (uint8 (size - 1)) cb ;;
          match err with
          | Some e =>
              c <- get_cluster cl ;;
              unwind_loop cl (length (cl_instances c)) ;;;
              ret (inr e)
          | None => ret (inl cl)
          end
    end.

End WithEnv.
End Cluster.


(** ** AgentMan *)

Module AgentMan.

(** [Singles] and [Clusters] map names to pointers. *)
Record t := mk {
  singles : gmap string loc;
  clusters : gmap string loc
}.

Definition NewAgentMan : t := mk ∅ ∅.

(** The object a registry entry points to: what [AgentMan.Stop] calls
    [Stop()] on. *)
Inductive Handle :=
| HSingle (ti : loc)
| HCluster (cl : loc).

(** The goroutine
    [for _, instance := range am.singles { errs.Add(instance.Stop()) }; wg.Done()]
    between two of its atomic actions: about to take the next entry,
    holding the result of [instance.Stop()] before [errs.Add], or done. *)
Inductive SinglesTask :=
| SNext (todo : list loc)
| SAdd (r : option error) (todo : list loc)
| SDone.

(** The goroutine
    [for _, cluster := range am.clusters { errs.Add(cluster.Stop()) }; wg.Done()].
    [CStopping cl k err todo] is inside [cluster.Stop()], in the loop of
    [stop] with [k] members left to stop and the local [err]. *)
Inductive ClustersTask :=
| CNext (todo : list loc)
| CStopping (cl : loc) (k : nat) (err : MultiErr.t) (todo : list loc)
| CAdd (r : option error) (todo : list loc)
| CDone.

(** The state shared by the two goroutines of [Stop]: the [errs] they
    both add to, where each of them stands, and the calls of [Stop()] on
    handles that have returned so far, with their results. *)
Record StopState := mkStopState {
  st_errs : MultiErr.t;
  st_singles : SinglesTask;
  st_clusters : ClustersTask;
  st_returned : list (Handle * option error)
}.

Section WithEnv.
Context (env : Env).

(** [NewSingle] will attempt to create an un-clustered test instance *)
Definition NewSingle (am : t) (name : string) (cb : testutil.ServerConfigCallback)
  : M ((loc + error) * t) :=
  match singles am !! name with
  | Some _ => ret (inr (ErrSingleExists name), am)
  | None =>
      r <- Instance.NewTestInstance env name cb ;;
      match r with
      | inr err => ret (inr err, am)
      | inl s => ret (inl s, mk (<[name := s]> (singles am)) (clusters am))
      end
  end.

(** [NewCluster] will attempt to create a clustered set of test instances *)
Definition NewCluster (am : t) (name : string) (size : Z)
    (cb : option ClusterServerConfigCallback) : M ((loc + error) * t) :=
  match clusters am !! name with
  | Some _ => ret (inr (ErrClusterExists name), am)
  | None =>
      r <- Cluster.NewTestCluster env name size cb ;;
      match r with
      | inr err => ret (inr err, am)
      | inl cl => ret (inl cl, mk (singles am) (<[name := cl]> (clusters am)))
      end
  end.

Definition Single (am : t) (name : string) : option loc := singles am !! name.

Definition Cluster (am : t) (name : string) : option loc := clusters am !! name.

(** [StopSingle] will attempt to stop a single instance, removing it from
    this manager *)
Definition StopSingle (am : t) (name : string) : M (option error * t) :=
  match singles am !! name with
  | Some s =>
      err <- Instance.Stop env s ;;
      ret (err, mk (delete name (singles am)) (clusters am))
  | None => ret (None, am)
  end.

(** [StopCluster] will attempt to stop a single cluster, removing it from
    this manager *)
Definition StopCluster (am : t) (name : string) : M (option error * t) :=
  match clusters am !! name with
  | Some cl =>
      err <- Cluster.Stop env cl ;;
      ret (err, mk (singles am) (delete name (clusters am)))
  | None => ret (None, am)
  end.

(** One atomic action of the goroutine over the singles. *)
Definition step_singles (st : StopState) : M StopState :=
  match st_singles st with
  | SNext [] =>
      ret (mkStopState (st_errs st) SDone (st_clusters st) (st_returned st))
  | SNext (ti :: todo) =>
      r <- Instance.Stop env ti ;;
      ret (mkStopState (st_errs st) (SAdd r todo) (st_clusters st)
             (st_returned st ++ [(HSingle ti, r)]))
  | SAdd r todo =>
      ret (mkStopState (MultiErr.Add (st_errs st) r) (SNext todo)
             (st_clusters st) (st_returned st))
  | SDone => ret st
  end.

(** One atomic action of the goroutine over the clusters: entering
    [cluster.Stop()] up to the loop of [stop], one iteration of that loop,
    leaving [stop], or [errs.Add]. *)
Definition step_clusters (st : StopState) : M StopState :=
  match st_clusters st with
  | CNext [] =>
      ret (mkStopState (st_errs st) (st_singles st) CDone (st_returned st))
  | CNext (cl :: todo) =>
      c <- get_cluster cl ;;
      if cl_stopped c then
        ret (mkStopState (st_errs st) (st_singles st) (CAdd None todo)
               (st_returned st ++ [(HCluster cl, None)]))
      else
        let l := Z.of_nat (length (cl_instances c)) in
        if l =? 0 then
          ret (mkStopState (st_errs st) (st_singles st) (CAdd None todo)
                 (st_returned st ++ [(HCluster cl, None)]))
        else
          ret (mkStopState (st_errs st) (st_singles st)
                 (CStopping cl (Z.to_nat l) MultiErr.NewMultiErr todo)
                 (st_returned st))
  | CStopping cl (S i) err todo =>
      c <- get_cluster cl ;;
      ti <- index (cl_instances c) (Z.of_nat i) ;;
      r <- Instance.Stop env ti ;;
      ret (mkStopState (st_errs st) (st_singles st)
             (CStopping cl i (MultiErr.Add err r) todo) (st_returned st))
  | CStopping cl O err todo =>
      c <- get_cluster cl ;;
      put_cluster cl (mkCluster (cl_name c) (cl_size c) (cl_instances c) true) ;;;
      let r := if MultiErr.Size err >? 0
               then Some (ErrMulti (MultiErr.errs err)) else None in
      ret (mkStopState (st_errs st) (st_singles st) (CAdd r todo)
             (st_returned st ++ [(HCluster cl, r)]))
  | CAdd r todo =>
      ret (mkStopState (MultiErr.Add (st_errs st) r) (st_singles st)
             (CNext todo) (st_returned st))
  | CDone => ret st
  end.

(** An interleaving of the two goroutines: [true] lets the goroutine over
    the singles take its next action, [false] the one over the clusters.
    A panic in either of them ends the program. *)
Fixpoint run (sched : list bool) (st : StopState) : M StopState :=
  match sched with
  | [] => ret st
  | b :: sched' =>
      st' <- (if b then step_singles st else step_clusters st) ;;
      run sched' st'
  end.

(** [Stop] will attempt to stop all currently running singles and
    clusters, removing all of them from the manager.

    [order_s] and [order_c] are the orders in which [range] visits the two
    maps and [sched] is the interleaving of the goroutines.  The result is
    [None] while [wg.Wait()] has not returned, that is when [sched] ends
    before both goroutines are done. *)
Definition Stop (am : t) (order_s order_c : list (string * loc)) (sched : list bool)
  : M (option (option error * t)) :=
  st <- run sched (mkStopState MultiErr.NewMultiErr
                     (SNext (order_s.*2)) (CNext (order_c.*2)) []) ;;
  match st_singles st, st_clusters st with
  | SDone, CDone =>
      let am' := mk ∅ ∅ in
      if MultiErr.Size (st_errs st) >? 0
      then ret (Some (Some (ErrMulti (MultiErr.errs (st_errs st))), am'))
      else ret (Some (None, am'))
  | _, _ => ret None
  end.

End WithEnv.
End AgentMan.


(** ** The earlier multierr.go, which keeps nil entries *)

Module MultiErrRetaining.

Record t := mk { errs : list (option error) }.

(** [Add] will add an error even if nil *)
Definition Add (e : t) (err : option error) : t := mk (errs e ++ [err]).

Definition NewMultiErr (err : option error) : t := Add (mk []) err.

(** [ErrCount] will return a count of how many of contained errors are
    not nil *)
Definition ErrCount (e : t) : Z :=
  foldl (fun errLen err => match err with
                           | Some _ => errLen + 1
                           | None => errLen
                           end) 0 (errs e).

(** [Size] returns the entire size of this multi error, including nils *)
Definition Size (e : t) : Z := Z.of_nat (length (errs e)).

End MultiErrRetaining.

(** ** Vocabulary of the statements *)

Import AgentMan.

(** An instance pointer denotes an object. *)
Definition allocated (w : World) (ti : loc) : Prop :=
  is_Some (instance_store w !! ti).

(** The object an instance pointer denotes has no server any more. *)
Definition defunct (w : World) (ti : loc) : Prop :=
  exists i, instance_store w !! ti = Some i /\ ti_server i = None.

(** The state after [ti.server.Stop()] and the two assignments of [Stop]. *)
Definition stopped_world (w : World) (ti : loc) (i : TestInstance)
    (srv : testutil.TestServer) : World :=
  mkWorld (<[ti := mkInstance (ti_name i) None None]> (instance_store w))
          (cluster_store w) (events w ++ [EvServerStop srv]).

(** The cluster with [news] appended to its members. *)
Definition grown (c : TestCluster) (news : list loc) : TestCluster :=
  mkCluster (cl_name c) (cl_size c) (cl_instances c ++ news) (cl_stopped c).




(** The error a goroutine holds between [Stop()] and [errs.Add]. *)
Definition held (r : option error) : list error :=
  match r with
  | Some e => [e]
  | None => []
  end.








(** From one state of the store to a later one: objects stay, defunct
    instances stay defunct, member sequences stay as they are, stopped
    clusters stay stopped. *)
Definition advances (w w' : World) : Prop :=
  (forall l, allocated w l -> allocated w' l) /\
  (forall l, defunct w l -> defunct w' l) /\
  (forall cl c, cluster_store w !! cl = Some c ->
     exists c', cluster_store w' !! cl = Some c' /\
                cl_instances c' = cl_instances c /\
                (cl_stopped c = true -> cl_stopped c' = true)).

(** What [Stop()] achieves on a handle. *)
Definition handle_stopped (w : World) (h : Handle) : Prop :=
  match h with
  | HSingle ti => defunct w ti
  | HCluster cl =>
      exists c, cluster_store w !! cl = Some c /\
                (cl_instances c <> [] -> cl_stopped c = true)
  end.

(** A cluster pointer denotes a cluster whose members denote objects. *)
Definition cluster_ok (w : World) (cl : loc) : Prop :=
  exists c, cluster_store w !! cl = Some c /\ Forall (allocated w) (cl_instances c).









(** The server of the object an instance pointer denotes, when it has one. *)
Definition server_of (w : World) (ti : loc) : option testutil.TestServer :=
  match instance_store w !! ti with
  | Some i => ti_server i
  | None => None
  end.

(** The servers of those of the instances [tis] that are live, in the
    order of [tis]. *)
Definition live_servers (w : World) (tis : list loc) : list testutil.TestServer :=
  omap (server_of w) tis.

(** What the environment answers when, after the calls [h], the servers
    [srvs] are stopped one after the other. *)
Fixpoint stop_answers (env : Env) (h : list Event) (srvs : list testutil.TestServer)
  : list (option error) :=
  match srvs with
  | [] => []
  | srv :: srvs =>
      stopServer env h srv :: stop_answers env (h ++ [EvServerStop srv]) srvs
  end.

(** No entry of the registry is a dangling pointer: every single denotes
    an object, every cluster denotes a cluster whose members do. *)
Definition registry_wf (am : AgentMan.t) (w : World) : Prop :=
  (forall name ti, singles am !! name = Some ti -> allocated w ti) /\
  (forall name cl, AgentMan.clusters am !! name = Some cl -> cluster_ok w cl).

(** The external calls of a [Grow] that adds the nodes [news]: for each
    node in turn, the start of its server, then the join of its LAN
    address through [client]. *)
Definition grow_calls (w : World) (client : api.Client) (news : list loc) : list Event :=
  flat_map (fun ti => match server_of w ti with
                      | Some srv => [EvNewTestServer (testutil.Config srv);
                                     EvJoin client (testutil.LANAddr srv) false]
                      | None => []
                      end) news.



#[global] Instance TestServerConfig_eq_dec : EqDecision testutil.TestServerConfig.
Proof. solve_decision. Defined.

#[global] Instance http_Client_eq_dec : EqDecision testutil.http_Client.
Proof. solve_decision. Defined.

#[global] Instance TestServer_eq_dec : EqDecision testutil.TestServer.
Proof. solve_decision. Defined.

(** The server that runs once the environment has let a start with the
    configuration [conf] succeed at the addresses [a]. *)
Definition started_server (conf : testutil.TestServerConfig) (a : Addresses)
  : testutil.TestServer :=
  testutil.mkServer conf (http_addr a) (https_addr a) (lan_addr a) (wan_addr a)
    (testutil.HttpClientOf (http_addr a)).

(** One server less: the first occurrence of [srv] is removed. *)
Fixpoint remove_one (srv : testutil.TestServer) (l : list testutil.TestServer)
  : list testutil.TestServer :=
  match l with
  | [] => []
  | s :: l => if decide (s = srv) then l else s :: remove_one srv l
  end.

(** The servers that run after the calls [rest], made after the calls
    [h], when the servers [acc] ran before them: a start that the
    environment lets succeed adds its server, a stop removes the server
    it names, a join changes nothing. *)
Fixpoint replay (env : Env) (h rest : list Event) (acc : list testutil.TestServer)
  : list testutil.TestServer :=
  match rest with
  | [] => acc
  | ev :: rest =>
      replay env (h ++ [ev]) rest
        match ev with
        | EvNewTestServer conf =>
            match startServer env h conf with
            | inl a => started_server conf a :: acc
            | inr _ => acc
            end
        | EvServerStop srv => remove_one srv acc
        | EvJoin _ _ _ => acc
        end
  end.

(** The servers that run after the history [h] of calls, the most
    recently started first. *)
Definition running (env : Env) (h : list Event) : list testutil.TestServer :=
  replay env [] h [].

(** ** Example environments and states *)

(** Every external call succeeds; a server started after [k] calls
    reports addresses numbered [k]. *)
Definition addresses_of (k : nat) : Addresses :=
  mkAddresses ("http:" +:+ pretty k) ("https:" +:+ pretty k)
              ("lan:" +:+ pretty k) ("wan:" +:+ pretty k).

Definition env_ok : Env :=
  mkEnv (testutil.mkConfig 0 true true)
        (fun h _ => inl (addresses_of (length h)))
        (fun addr => inl (api.ClientOf addr))
        (fun _ _ => None)
        (fun _ _ _ _ => None).

(** Servers start, but stopping one always reports an error. *)
Definition env_stop_fails : Env :=
  mkEnv (testutil.mkConfig 0 true true)
        (fun h _ => inl (addresses_of (length h)))
        (fun addr => inl (api.ClientOf addr))
        (fun _ _ => Some (ErrExternal "exit status 1"))
        (fun _ _ _ _ => None).

(** Joining the server at [addr] fails, every other call succeeds. *)
Definition env_join_fails (addr : string) : Env :=
  mkEnv (testutil.mkConfig 0 true true)
        (fun h _ => inl (addresses_of (length h)))
        (fun a => inl (api.ClientOf a))
        (fun _ _ => None)
        (fun _ _ a _ => if String.eqb a addr then Some (ErrExternal "join refused") else None).

Definition empty_world : World := mkWorld ∅ ∅ [].

(** The state a computation leaves behind. *)
Definition world_after {A} (m : M A) (w : World) : World :=
  match m w with
  | Returns _ w' => w'
  | Panics _ w' => w'
  end.

(** A cluster created with three members; it is the object at location 0
    and its members are at locations 0, 1 and 2. *)
Definition world_c3 : World :=
  world_after (Cluster.NewTestCluster env_ok "c1" 3 None) empty_world.

(** A cluster created with one member and then shrunk by one. *)
Definition world_shrunk_to_zero : World :=
  world_after (Cluster.Shrink env_ok 0%nat 1)
    (world_after (Cluster.NewTestCluster env_ok "c1" 1 None) empty_world).

(** A registry holding the single "s1" and the cluster "c1" of two
    members, in a world where stopping a server fails. *)
Definition registry_example : AgentMan.t * World :=
  match (r1 <- AgentMan.NewSingle env_stop_fails AgentMan.NewAgentMan "s1" (fun c => c) ;;
         AgentMan.NewCluster env_stop_fails (snd r1) "c1" 2 None) empty_world with
  | Returns r w => (snd r, w)
  | Panics _ w => (AgentMan.NewAgentMan, w)
  end.

(** The state right after [NewTestInstance("s1", _)] where stopping of
    servers fails: one live instance at location 0. *)
Definition world_s1 : World :=
  world_after (Instance.NewTestInstance env_stop_fails "s1" (fun c => c)) empty_world.

(** The three-member cluster after [Stop()]. *)
Definition world_c3_stopped : World :=
  world_after (Cluster.Stop env_ok 0%nat) world_c3.

(** A two-member cluster in a world where joining the server at "lan:5"
    is refused: that is the second server started from now on. *)
Definition world_c2_join : World :=
  world_after (Cluster.NewTestCluster (env_join_fails "lan:5") "c1" 2 None) empty_world.


(** Servers start, but no client can be built for them. *)
Definition env_client_fails : Env :=
  mkEnv (testutil.mkConfig 0 true true)
        (fun h _ => inl (addresses_of (length h)))
        (fun _ => inr (ErrExternal "bad address"))
        (fun _ _ => None)
        (fun _ _ _ _ => None).

(** The server asked for after [k] calls does not start, every other
    call succeeds. *)
Definition env_start_fails (k : nat) : Env :=
  mkEnv (testutil.mkConfig 0 true true)
        (fun h _ => if Nat.eqb (length h) k then inr (ErrExternal "no free port")
                    else inl (addresses_of (length h)))
        (fun addr => inl (api.ClientOf addr))
        (fun _ _ => None)
        (fun _ _ _ _ => None).

(** The three-member cluster after its member 0 was stopped through its
    own handle. *)
Definition world_c3_first_stopped : World :=
  world_after (Instance.Stop env_ok 0%nat) world_c3.

(** ** Reasoning about computations *)

Lemma bind_inv {A B} (m : M A) (k : A -> M B) w b w' :
  bind m k w = Returns b w' ->
  exists a w1, m w = Returns a w1 /\ k a w1 = Returns b w'.
Proof.
  unfold bind. destruct (m w) as [a w1|p w1]; [|discriminate].
  intros H. now exists a, w1.
Qed.

Lemma Returns_inj {A} (a b : A) (w w' : World) :
  Returns a w = Returns b w' -> a = b /\ w = w'.
Proof. intros H. injection H as -> ->. split; reflexivity. Qed.

Section InstanceFacts.
Context (env : Env).

Lemma Stop_defunct w ti i :
  instance_store w !! ti = Some i -> ti_server i = None ->
  Instance.Stop env ti w = Returns None w.
Proof.
  intros Hi Hs. unfold Instance.Stop, bind, get_instance.
  now rewrite Hi, Hs.
Qed.

Lemma Stop_live w ti i srv :
  instance_store w !! ti = Some i -> ti_server i = Some srv ->
  Instance.Stop env ti w =
  Returns (stopServer env (events w) srv) (stopped_world w ti i srv).
Proof.
  intros Hi Hs. unfold Instance.Stop, bind, get_instance.
  now rewrite Hi, Hs.
Qed.

Lemma Stopped_spec w ti i :
  instance_store w !! ti = Some i ->
  Instance.Stopped ti w =
  Returns (match ti_server i with None => true | Some _ => false end) w.
Proof.
  intros Hi. unfold Instance.Stopped, bind, get_instance. now rewrite Hi.
Qed.

(** What [Stop] does to the store, whatever the server answers. *)
Lemma Stop_effect w ti :
  allocated w ti ->
  exists r w',
    Instance.Stop env ti w = Returns r w' /\
    cluster_store w' = cluster_store w /\
    defunct w' ti /\
    (forall l, allocated w l -> allocated w' l) /\
    (forall l, defunct w l -> defunct w' l) /\
    (forall l, l <> ti -> instance_store w' !! l = instance_store w !! l).
Proof.
  intros [i Hi]. destruct (ti_server i) as [srv|] eqn:Hs.
  - exists (stopServer env (events w) srv), (stopped_world w ti i srv).
    split; [now apply Stop_live|]. split; [reflexivity|].
    split; [|split; [|split]].
    + eexists. split; [apply lookup_insert_eq|reflexivity].
    + intros l Hl. unfold allocated, stopped_world; simpl.
      destruct (decide (ti = l)) as [->|Hne].
      * rewrite lookup_insert_eq. eauto.
      * now rewrite lookup_insert_ne.
    + intros l [j [Hj Hd]]. unfold defunct, stopped_world; simpl.
      destruct (decide (ti = l)) as [->|Hne].
      * rewrite lookup_insert_eq. eauto.
      * rewrite lookup_insert_ne by assumption. eauto.
    + intros l Hne. simpl. now rewrite lookup_insert_ne.
  - exists None, w. split; [now apply (Stop_defunct w ti i)|].
    split; [reflexivity|]. split; [now exists i|]. auto.
Qed.

End InstanceFacts.

(** ** Reading a cluster *)

Lemma get_cluster_some w cl c :
  cluster_store w !! cl = Some c -> get_cluster cl w = Returns c w.
Proof. intros H. unfold get_cluster. now rewrite H. Qed.

Lemma Cluster_Stopped_inv w cl b w' :
  Cluster.Stopped cl w = Returns b w' ->
  w' = w /\ exists c, cluster_store w !! cl = Some c /\ cl_stopped c = b.
Proof.
  unfold Cluster.Stopped, bind, get_cluster, ret.
  destruct (cluster_store w !! cl) as [c|]; [|discriminate].
  intros H. injection H as <- <-. eauto.
Qed.

Lemma Cluster_Size_inv w cl s w' :
  Cluster.Size cl w = Returns s w' ->
  w' = w /\ exists c, cluster_store w !! cl = Some c /\
                      Z.of_nat (length (cl_instances c)) = s.
Proof.
  unfold Cluster.Size, bind, get_cluster, ret.
  destruct (cluster_store w !! cl) as [c|]; [|discriminate].
  intros H. injection H as <- <-. eauto.
Qed.

Lemma Cluster_Stopped_spec w cl c :
  cluster_store w !! cl = Some c ->
  Cluster.Stopped cl w = Returns (cl_stopped c) w.
Proof. intros H. unfold Cluster.Stopped, bind, get_cluster. now rewrite H. Qed.

Lemma Cluster_Size_spec w cl c :
  cluster_store w !! cl = Some c ->
  Cluster.Size cl w = Returns (Z.of_nat (length (cl_instances c))) w.
Proof. intros H. unfold Cluster.Size, bind, get_cluster. now rewrite H. Qed.

Lemma index_in_range (s : list loc) (i : nat) ti w :
  s !! i = Some ti -> index s (Z.of_nat i) w = Returns ti w.
Proof.
  intros H. unfold index.
  destruct (Z.ltb_spec (Z.of_nat i) 0) as [Hneg|_]; [lia|].
  now rewrite Nat2Z.id, H.
Qed.

Lemma index_out_of_range (s : list loc) (i : Z) w :
  Z.of_nat (length s) <= i ->
  index s i w = Panics (IndexOutOfRange i (Z.of_nat (length s))) w.
Proof.
  intros H. unfold index.
  destruct (Z.ltb_spec i 0) as [Hneg|Hpos]; [reflexivity|].
  rewrite (lookup_ge_None_2 s (Z.to_nat i)) by lia. reflexivity.
Qed.

(** ** Node handles *)

(** C7: [Stop] on a defunct handle returns nil and does nothing at all;
    on a live handle it calls the server's [Stop] once, returns what that
    call returned, and clears server and client whatever it returned; in
    every case [Stop] returns and [Stopped] is true afterwards. *)
Theorem Instance_Stop_once_then_noop (env : Env) (w : World) (ti : loc) (i : TestInstance) :
  instance_store w !! ti = Some i ->
  (ti_server i = None -> Instance.Stop env ti w = Returns None w) /\
  (forall srv, ti_server i = Some srv ->
     exists w',
       Instance.Stop env ti w = Returns (stopServer env (events w) srv) w' /\
       events w' = events w ++ [EvServerStop srv] /\
       instance_store w' !! ti = Some (mkInstance (ti_name i) None None)) /\
  (exists r w',
     Instance.Stop env ti w = Returns r w' /\
     Instance.Stopped ti w' = Returns true w' /\
     Instance.Stop env ti w' = Returns None w').
Proof.
  intros Hi. split; [|split].
  - intros Hs. now apply (Stop_defunct env w ti i).
  - intros srv Hs. exists (stopped_world w ti i srv).
    split; [now apply Stop_live|]. split; [reflexivity|].
    simpl. apply lookup_insert_eq.
  - destruct (ti_server i) as [srv|] eqn:Hs.
    + exists (stopServer env (events w) srv), (stopped_world w ti i srv).
      assert (Hl : instance_store (stopped_world w ti i srv) !! ti
                   = Some (mkInstance (ti_name i) None None))
        by (simpl; apply lookup_insert_eq).
      split; [now apply Stop_live|]. split.
      * now rewrite (Stopped_spec _ _ _ Hl).
      * now apply (Stop_defunct env _ _ _ Hl).
    + exists None, w. split; [now apply (Stop_defunct env w ti i)|]. split.
      * rewrite (Stopped_spec _ _ _ Hi). now rewrite Hs.
      * now apply (Stop_defunct env w ti i).
Qed.

Lemma Instance_Stop_once_then_noop_witness :
  exists i srv,
    instance_store world_s1 !! 0%nat = Some i /\ ti_server i = Some srv /\
    exists w',
      Instance.Stop env_stop_fails 0%nat world_s1
      = Returns (Some (ErrExternal "exit status 1")) w' /\
      events w' = events world_s1 ++ [EvServerStop srv] /\
      instance_store w' !! 0%nat = Some (mkInstance (ti_name i) None None).
Proof.
  eexists. eexists.
  split; [vm_compute; reflexivity|]. split; [reflexivity|].
  eapply (Instance_Stop_once_then_noop env_stop_fails world_s1 0%nat);
    vm_compute; reflexivity.
Defined.

(** C9: on a handle whose [Stopped()] is true every accessor panics with
    the defunct message of that instance, and on a cluster whose
    [Stopped()] is true [Instance(i)] panics with the defunct message of
    that cluster for every index. *)
Theorem defunct_handles_panic :
  (forall w ti,
     Instance.Stopped ti w = Returns true w ->
     exists name,
       Instance.Name ti w = Returns name w /\
       Instance.HTTPAddr ti w = Panics (InstanceDefunct name) w /\
       Instance.HTTPSAddr ti w = Panics (InstanceDefunct name) w /\
       Instance.LANAddr ti w = Panics (InstanceDefunct name) w /\
       Instance.WANAddr ti w = Panics (InstanceDefunct name) w /\
       Instance.HTTPClient ti w = Panics (InstanceDefunct name) w /\
       Instance.APIClient ti w = Panics (InstanceDefunct name) w /\
       Instance.Config ti w = Panics (InstanceDefunct name) w) /\
  (forall w cl,
     Cluster.Stopped cl w = Returns true w ->
     exists name,
       Cluster.Name cl w = Returns name w /\
       forall num, Cluster.Instance cl num w = Panics (ClusterDefunct name) w).
Proof.
  split.
  - intros w ti H. unfold Instance.Stopped, bind, get_instance, ret in H.
    destruct (instance_store w !! ti) as [i|] eqn:Hi; [|discriminate].
    destruct (ti_server i) eqn:Hs; [discriminate|].
    exists (ti_name i).
    unfold Instance.Name, Instance.HTTPAddr, Instance.HTTPSAddr,
      Instance.LANAddr, Instance.WANAddr, Instance.HTTPClient,
      Instance.APIClient, Instance.Config, Instance.live_server,
      bind, get_instance, raise, ret.
    rewrite Hi, Hs. repeat split.
  - intros w cl H. apply Cluster_Stopped_inv in H as [_ [c [Hc Hs]]].
    exists (cl_name c). unfold Cluster.Name, Cluster.Instance, bind, get_cluster, raise, ret.
    rewrite Hc, Hs. split; [reflexivity|]. intros num. reflexivity.
Qed.

Lemma defunct_handles_panic_witness :
  (Instance.Stopped 1%nat world_c3_stopped = Returns true world_c3_stopped /\
   Instance.LANAddr 1%nat world_c3_stopped
   = Panics (InstanceDefunct "c1-1") world_c3_stopped) /\
  (Cluster.Stopped 0%nat world_c3_stopped = Returns true world_c3_stopped /\
   Cluster.Instance 0%nat 0 world_c3_stopped
   = Panics (ClusterDefunct "c1") world_c3_stopped).
Proof.
  assert (Hi : Instance.Stopped 1%nat world_c3_stopped = Returns true world_c3_stopped)
    by (vm_compute; reflexivity).
  assert (Hc : Cluster.Stopped 0%nat world_c3_stopped = Returns true world_c3_stopped)
    by (vm_compute; reflexivity).
  destruct defunct_handles_panic as [HI HC].
  destruct (HI _ _ Hi) as [name [Hn [_ [_ [Hlan _]]]]].
  destruct (HC _ _ Hc) as [cname [Hcn Hinst]].
  assert (E : Instance.Name 1%nat world_c3_stopped = Returns "c1-1" world_c3_stopped)
    by (vm_compute; reflexivity).
  rewrite E in Hn. apply Returns_inj in Hn as [<- _].
  assert (E' : Cluster.Name 0%nat world_c3_stopped = Returns "c1" world_c3_stopped)
    by (vm_compute; reflexivity).
  rewrite E' in Hcn. apply Returns_inj in Hcn as [<- _].
  split; split; [exact Hi|exact Hlan|exact Hc|exact (Hinst 0)].
Defined.

(** ** Clusters: indexing and the capacity bound *)

(** C10: on a cluster that is not stopped, [Instance(num)] indexes the
    member sequence directly: it returns the member at [num] when
    [num < Size()] and is an index-out-of-range panic of the runtime for
    every [num >= Size()]. *)
Theorem Instance_unguarded_index (w : World) (cl : loc) (s num : Z) :
  Cluster.Stopped cl w = Returns false w ->
  Cluster.Size cl w = Returns s w ->
  0 <= num <= 255 ->
  (num < s ->
     exists ti c, cluster_store w !! cl = Some c /\
                  cl_instances c !! Z.to_nat num = Some ti /\
                  Cluster.Instance cl num w = Returns ti w) /\
  (s <= num -> Cluster.Instance cl num w = Panics (IndexOutOfRange num s) w).
Proof.
  intros Hst Hsz Hnum.
  apply Cluster_Stopped_inv in Hst as [_ [c [Hc Hs]]].
  apply Cluster_Size_inv in Hsz as [_ [c' [Hc' Hlen]]].
  rewrite Hc in Hc'. injection Hc' as <-.
  unfold Cluster.Instance, bind. rewrite (get_cluster_some _ _ _ Hc), Hs.
  split.
  - intros Hlt.
    destruct (lookup_lt_is_Some_2 (cl_instances c) (Z.to_nat num)) as [ti Hti]; [lia|].
    exists ti, c. split; [assumption|]. split; [assumption|].
    rewrite <- (Z2Nat.id num) at 1 by lia. now apply index_in_range.
  - intros Hge. rewrite <- Hlen. apply index_out_of_range. lia.
Qed.

Lemma Instance_unguarded_index_witness :
  Cluster.Stopped 0%nat world_c3 = Returns false world_c3 /\
  Cluster.Size 0%nat world_c3 = Returns 3 world_c3 /\
  Cluster.Instance 0%nat 2 world_c3 = Returns 2%nat world_c3 /\
  Cluster.Instance 0%nat 3 world_c3 = Panics (IndexOutOfRange 3 3) world_c3.
Proof.
  assert (Hst : Cluster.Stopped 0%nat world_c3 = Returns false world_c3)
    by (vm_compute; reflexivity).
  assert (Hsz : Cluster.Size 0%nat world_c3 = Returns 3 world_c3)
    by (vm_compute; reflexivity).
  split; [exact Hst|]. split; [exact Hsz|].
  split.
  - vm_compute; reflexivity.
  - apply (Instance_unguarded_index world_c3 0%nat 3 3 Hst Hsz); lia.
Defined.

(** C5: on a cluster that is not stopped, [Grow(n, cb)] with
    [Size() + n > 255] returns the capacity error and the state is the
    one before the call: no member added or removed, no object allocated
    and no call made to the outside. *)
Theorem Grow_over_capacity (env : Env) (w : World) (cl : loc) (s n : Z)
    (cb : ClusterServerConfigCallback) :
  Cluster.Stopped cl w = Returns false w ->
  Cluster.Size cl w = Returns s w ->
  0 <= n <= 255 ->
  s + n > MaxUint8 ->
  exists name,
    Cluster.Name cl w = Returns name w /\
    Cluster.Grow env cl n cb w = Returns (Some (ErrCapacity name s n)) w.
Proof.
  intros Hst Hsz Hn Hover.
  apply Cluster_Stopped_inv in Hst as [_ [c [Hc Hs]]].
  apply Cluster_Size_inv in Hsz as [_ [c' [Hc' Hlen]]].
  rewrite Hc in Hc'. injection Hc' as <-.
  exists (cl_name c). unfold Cluster.Name, Cluster.Grow, bind.
  rewrite (get_cluster_some _ _ _ Hc), Hs, Hlen.
  split; [reflexivity|].
  destruct (Z.gtb_spec (s + n) MaxUint8) as [_|Hle]; [reflexivity|lia].
Qed.

Lemma Grow_over_capacity_witness :
  Cluster.Stopped 0%nat world_c3 = Returns false world_c3 /\
  Cluster.Size 0%nat world_c3 = Returns 3 world_c3 /\
  Cluster.Grow env_ok 0%nat 253 DefaultClusterServerConfigCallback world_c3
  = Returns (Some (ErrCapacity "c1" 3 253)) world_c3.
Proof.
  assert (Hst : Cluster.Stopped 0%nat world_c3 = Returns false world_c3)
    by (vm_compute; reflexivity).
  assert (Hsz : Cluster.Size 0%nat world_c3 = Returns 3 world_c3)
    by (vm_compute; reflexivity).
  split; [exact Hst|]. split; [exact Hsz|].
  destruct (Grow_over_capacity env_ok world_c3 0%nat 3 253
              DefaultClusterServerConfigCallback Hst Hsz) as [name [Hn Hg]];
    [lia|unfold MaxUint8; lia|].
  assert (E : Cluster.Name 0%nat world_c3 = Returns "c1" world_c3)
    by (vm_compute; reflexivity).
  rewrite E in Hn. apply Returns_inj in Hn as [<- _].
  exact Hg.
Defined.

(** ** Stopping the members of a cluster *)

Section ClusterStop.
Context (env : Env).

(** The loop of [stop] returns, leaves the cluster objects alone and
    leaves the first [k] members defunct. *)
Lemma stop_loop_spec (cl : loc) (c : TestCluster) (k : nat) :
  forall (err : MultiErr.t) (w : World),
    cluster_store w !! cl = Some c ->
    (k <= length (cl_instances c))%nat ->
    Forall (allocated w) (cl_instances c) ->
    exists err' w',
      Cluster.stop_loop env cl k err w = Returns err' w' /\
      cluster_store w' = cluster_store w /\
      (forall l, allocated w l -> allocated w' l) /\
      (forall l, defunct w l -> defunct w' l) /\
      (forall i ti, (i < k)%nat -> cl_instances c !! i = Some ti -> defunct w' ti).
Proof.
  induction k as [|i IH]; intros err w Hc Hk Hall.
  - exists err, w. repeat split; auto. intros i ti Hi. lia.
  - destruct (lookup_lt_is_Some_2 (cl_instances c) i) as [ti Hti]; [lia|].
    assert (Hal : allocated w ti).
    { rewrite Forall_forall in Hall. apply Hall.
      apply list_elem_of_lookup. eauto. }
    destruct (Stop_effect env w ti Hal)
      as [r [w1 [Hstop [Hcs [Hdef [Hmono [Hdmono _]]]]]]].
    destruct (IH (MultiErr.Add err r) w1) as [err' [w' [Hloop [Hcs' [Hm' [Hd' Hlow]]]]]].
    + now rewrite Hcs.
    + lia.
    + eapply Forall_impl; [exact Hall|]. auto.
    + exists err', w'. split.
      * simpl. unfold bind at 1. rewrite (get_cluster_some _ _ _ Hc).
        unfold bind at 1. rewrite (index_in_range _ _ _ _ Hti).
        unfold bind at 1. rewrite Hstop. exact Hloop.
      * split; [congruence|]. split; [auto|]. split; [auto|].
        intros j tj Hj Htj. destruct (decide (j = i)) as [->|Hne].
        -- rewrite Hti in Htj. injection Htj as <-. auto.
        -- apply (Hlow j); [lia|assumption].
Qed.

(** [stop] on a cluster with at least one member: every member ends up
    defunct, the flag is set, the member sequence stays as it is. *)
Lemma stop_spec (cl : loc) (c : TestCluster) (w : World) :
  cluster_store w !! cl = Some c ->
  cl_instances c <> [] ->
  Forall (allocated w) (cl_instances c) ->
  exists r w',
    Cluster.stop env cl w = Returns r w' /\
    cluster_store w' !! cl
    = Some (mkCluster (cl_name c) (cl_size c) (cl_instances c) true) /\
    Forall (defunct w') (cl_instances c) /\
    (forall l, allocated w l -> allocated w' l) /\
    (forall l, defunct w l -> defunct w' l).
Proof.
  intros Hc Hne Hall.
  destruct (stop_loop_spec cl c (length (cl_instances c)) MultiErr.NewMultiErr w
              Hc (le_n _) Hall) as [err [w1 [Hloop [Hcs [Hm [Hd Hlow]]]]]].
  assert (Hc1 : cluster_store w1 !! cl = Some c) by now rewrite Hcs.
  set (c' := mkCluster (cl_name c) (cl_size c) (cl_instances c) true).
  set (w' := mkWorld (instance_store w1) (<[cl := c']> (cluster_store w1)) (events w1)).
  exists (if MultiErr.Size err >? 0 then Some (ErrMulti (MultiErr.errs err)) else None), w'.
  split; [|split; [|split; [|split]]].
  - unfold Cluster.stop. unfold bind at 1. rewrite (get_cluster_some _ _ _ Hc).
    destruct (Z.eqb_spec (Z.of_nat (length (cl_instances c))) 0) as [E|_].
    { destruct (cl_instances c); [congruence|simpl in E; lia]. }
    rewrite Nat2Z.id. unfold bind at 1. rewrite Hloop.
    unfold bind at 1. rewrite (get_cluster_some _ _ _ Hc1).
    unfold bind, put_cluster. fold c'. fold w'.
    destruct (MultiErr.Size err >? 0); reflexivity.
  - simpl. apply lookup_insert_eq.
  - rewrite Forall_forall. intros ti Hti.
    apply list_elem_of_lookup in Hti as [i Hi].
    destruct (Hlow i ti) as [j Hj]; [eapply lookup_lt_Some; eauto|assumption|].
    exists j. exact Hj.
  - intros l Hl. apply Hm in Hl. exact Hl.
  - intros l Hl. apply Hd in Hl. exact Hl.
Qed.

(** The loop of [Shrink] started at a valid index returns and leaves the
    cluster objects alone; it stops the members at the indices [j] with
    [diff < j <= i] and touches no instance that is not at one of them. *)
Lemma shrink_loop_spec (cl : loc) (c : TestCluster) (diff : nat) (i : nat) :
  forall (err : MultiErr.t) (w : World),
    cluster_store w !! cl = Some c ->
    (i < length (cl_instances c))%nat ->
    Forall (allocated w) (cl_instances c) ->
    exists err' w',
      Cluster.shrink_loop env cl i diff err w = Returns err' w' /\
      cluster_store w' = cluster_store w /\
      (forall l, allocated w l -> allocated w' l) /\
      (forall l, defunct w l -> defunct w' l) /\
      (forall j ti, (diff < j <= i)%nat -> cl_instances c !! j = Some ti ->
                    defunct w' ti) /\
      (forall ti, (forall j, (diff < j <= i)%nat -> cl_instances c !! j <> Some ti) ->
                  instance_store w' !! ti = instance_store w !! ti).
Proof.
  induction i as [|i IH]; intros err w Hc Hi Hall.
  - exists err, w. repeat split; auto. intros j ti Hj. lia.
  - simpl. destruct (Nat.ltb_spec diff (S i)) as [Hlt|Hge].
    + destruct (lookup_lt_is_Some_2 (cl_instances c) (S i)) as [ti Hti]; [lia|].
      assert (Hal : allocated w ti).
      { rewrite Forall_forall in Hall. apply Hall.
        apply list_elem_of_lookup. eauto. }
      destruct (Stop_effect env w ti Hal)
        as [r [w1 [Hstop [Hcs [Hdef [Hmono [Hdmono Hother]]]]]]].
      destruct (IH (MultiErr.Add err r) w1)
        as [err' [w' [Hloop [Hcs' [Hm' [Hd' [Hlow Huntouched]]]]]]].
      * now rewrite Hcs.
      * lia.
      * eapply Forall_impl; [exact Hall|]. auto.
      * exists err', w'. split.
        -- unfold bind at 1. rewrite (get_cluster_some _ _ _ Hc).
           unfold bind at 1. rewrite (index_in_range _ (S i) _ _ Hti).
           unfold bind at 1. rewrite Hstop. exact Hloop.
        -- split; [congruence|]. split; [auto|]. split; [auto|]. split.
           ++ intros j tj Hj Htj. destruct (decide (j = S i)) as [->|Hne].
              ** rewrite Hti in Htj. injection Htj as <-. auto.
              ** apply (Hlow j); [lia|assumption].
           ++ intros tj Hnot. rewrite Huntouched.
              ** apply Hother. intros ->. apply (Hnot (S i)); [lia|assumption].
              ** intros j Hj. apply Hnot. lia.
    + exists err, w. repeat split; auto. intros j ti Hj. lia.
Qed.

End ClusterStop.

(** ** Stop and Shrink *)

Section ClusterShrink.
Context (env : Env).

Lemma uint8_small (z : Z) : 0 <= z <= 255 -> uint8 z = z.
Proof. intros H. unfold uint8. apply Z.mod_small. lia. Qed.

(** In [Shrink], past the test [n > uint8(l)], the bound [diff] of the
    slice expression is at most the length [l]. *)
Lemma Shrink_diff_le (l n : Z) :
  0 <= l -> 0 <= n -> (n >? uint8 l) = false ->
  0 <= uint8 (uint8 l - n) <= l.
Proof.
  intros Hl Hn Hgt. unfold uint8 in *.
  destruct (Z.gtb_spec n (l mod 256)) as [|Hle]; [discriminate|].
  pose proof (Z.mod_pos_bound l 256 ltac:(lia)) as Hb.
  pose proof (Z.mod_le l 256 Hl ltac:(lia)) as Hm.
  rewrite (Z.mod_small (l mod 256 - n)) by lia. lia.
Qed.

(** [Stop] on a cluster with members that is not stopped yet stops every
    member and sets the flag; calling it again changes nothing. *)
Lemma Cluster_Stop_nonempty (cl : loc) (c : TestCluster) (w : World) :
  cluster_store w !! cl = Some c ->
  cl_stopped c = false ->
  cl_instances c <> [] ->
  Forall (allocated w) (cl_instances c) ->
  exists r w',
    Cluster.Stop env cl w = Returns r w' /\
    Cluster.Stopped cl w' = Returns true w' /\
    Forall (defunct w') (cl_instances c) /\
    Cluster.Stop env cl w' = Returns None w'.
Proof.
  intros Hc Hs Hne Hall.
  destruct (stop_spec env cl c w Hc Hne Hall) as [r [w' [Hstop [Hc' [Hdef _]]]]].
  exists r, w'. split; [|split; [|split]].
  - unfold Cluster.Stop, bind. now rewrite (get_cluster_some _ _ _ Hc), Hs.
  - now rewrite (Cluster_Stopped_spec _ _ _ Hc').
  - exact Hdef.
  - unfold Cluster.Stop, bind. now rewrite (get_cluster_some _ _ _ Hc').
Qed.

(** [Shrink(n)] with [n] above the number of members is [stop]. *)
Lemma Shrink_above_size (cl : loc) (c : TestCluster) (w : World) (n : Z) :
  cluster_store w !! cl = Some c ->
  Z.of_nat (length (cl_instances c)) <= 255 ->
  Z.of_nat (length (cl_instances c)) < n ->
  Cluster.Shrink env cl n w = Cluster.stop env cl w.
Proof.
  intros Hc Hlen Hn. unfold Cluster.Shrink. unfold bind at 1.
  rewrite (get_cluster_some _ _ _ Hc). rewrite uint8_small by lia.
  destruct (Z.gtb_spec n (Z.of_nat (length (cl_instances c)))); [reflexivity|lia].
Qed.

(** [Shrink(n)] with [n] at most the number of members returns and keeps
    the first [len - n] members, whatever the stops of the others
    returned; the flag is not touched, and an instance that is at none of
    the indices above [len - n] is not touched either. *)
Lemma Shrink_truncates (cl : loc) (c : TestCluster) (w : World) (n : Z) :
  cluster_store w !! cl = Some c ->
  1 <= Z.of_nat (length (cl_instances c)) <= 255 ->
  0 <= n <= Z.of_nat (length (cl_instances c)) ->
  Forall (allocated w) (cl_instances c) ->
  let diff := Z.to_nat (Z.of_nat (length (cl_instances c)) - n) in
  exists r w',
    Cluster.Shrink env cl n w = Returns r w' /\
    cluster_store w' !! cl
    = Some (mkCluster (cl_name c) (cl_size c) (take diff (cl_instances c))
              (cl_stopped c)) /\
    (forall ti, (forall j, (diff < j)%nat -> cl_instances c !! j <> Some ti) ->
                instance_store w' !! ti = instance_store w !! ti).
Proof.
  intros Hc Hlen Hn Hall diff.
  set (l := Z.of_nat (length (cl_instances c))) in *.
  assert (Hd : uint8 (l - n) = l - n) by (apply uint8_small; lia).
  assert (Hi : Z.to_nat (uint8 (l - 1)) = (length (cl_instances c) - 1)%nat)
    by (rewrite uint8_small by lia; lia).
  destruct (shrink_loop_spec env cl c diff (length (cl_instances c) - 1)
              MultiErr.NewMultiErr w Hc ltac:(lia) Hall)
    as [err [w1 [Hloop [Hcs [_ [_ [_ Huntouched]]]]]]].
  assert (Hc1 : cluster_store w1 !! cl = Some c) by now rewrite Hcs.
  set (c' := mkCluster (cl_name c) (cl_size c) (take diff (cl_instances c)) (cl_stopped c)).
  set (w' := mkWorld (instance_store w1) (<[cl := c']> (cluster_store w1)) (events w1)).
  exists (if MultiErr.Size err >? 0 then Some (ErrMulti (MultiErr.errs err)) else None), w'.
  split; [|split].
  - unfold Cluster.Shrink. unfold bind at 1. rewrite (get_cluster_some _ _ _ Hc).
    fold l. rewrite (uint8_small l) by lia.
    destruct (Z.gtb_spec n l) as [Hgt|_]; [lia|].
    rewrite Hd, Hi. fold diff. unfold bind at 1. rewrite Hloop.
    unfold bind at 1. rewrite (get_cluster_some _ _ _ Hc1).
    unfold bind, put_cluster. fold c'. fold w'.
    destruct (MultiErr.Size err >? 0); reflexivity.
  - simpl. apply lookup_insert_eq.
  - intros ti Hnot. simpl. apply Huntouched. intros j Hj. apply Hnot. lia.
Qed.

End ClusterShrink.

(** C1 (amended): on a cluster that is not stopped and has [s >= 1]
    members, [Shrink(n)] with [n > s] stops every member and sets the
    stopped flag while [Size()] stays [s]; [Shrink(s)] empties the member
    sequence, so [Size()] is 0, and leaves the flag unset. *)
Theorem Shrink_at_least_size (env : Env) (w : World) (cl : loc) (c : TestCluster)
    (s n : Z) :
  cluster_store w !! cl = Some c ->
  Forall (allocated w) (cl_instances c) ->
  Cluster.Stopped cl w = Returns false w ->
  Cluster.Size cl w = Returns s w ->
  1 <= s <= 255 ->
  s <= n <= 255 ->
  exists r w',
    Cluster.Shrink env cl n w = Returns r w' /\
    (s < n ->
       Cluster.Stopped cl w' = Returns true w' /\
       Cluster.Size cl w' = Returns s w' /\
       Forall (defunct w') (cl_instances c)) /\
    (n = s ->
       Cluster.Stopped cl w' = Returns false w' /\
       Cluster.Size cl w' = Returns 0 w').
Proof.
  intros Hc Hall Hst Hsz Hs Hn.
  apply Cluster_Stopped_inv in Hst as [_ [c1 [Hc1 Hflag]]].
  apply Cluster_Size_inv in Hsz as [_ [c2 [Hc2 Hlen]]].
  rewrite Hc in Hc1, Hc2. injection Hc1 as <-. injection Hc2 as <-.
  destruct (Z.eq_dec n s) as [->|Hne].
  - destruct (Shrink_truncates env cl c w s Hc) as [r [w' [Hshrink [Hc' _]]]];
      [lia|lia|assumption|].
    exists r, w'. split; [assumption|]. split; [lia|]. intros _.
    rewrite (Cluster_Stopped_spec _ _ _ Hc'), (Cluster_Size_spec _ _ _ Hc'). simpl.
    rewrite Hlen, Z.sub_diag, Hflag. simpl. split; reflexivity.
  - assert (Hnonempty : cl_instances c <> []).
    { intros E. rewrite E in Hlen. simpl in Hlen. lia. }
    destruct (stop_spec env cl c w Hc Hnonempty Hall) as [r [w' [Hstop [Hc' [Hdef _]]]]].
    exists r, w'. split.
    + rewrite (Shrink_above_size env cl c w n Hc) by lia. exact Hstop.
    + split; [|lia]. intros _.
      rewrite (Cluster_Stopped_spec _ _ _ Hc'), (Cluster_Size_spec _ _ _ Hc'). simpl.
      rewrite Hlen. repeat split. exact Hdef.
Qed.

Lemma Shrink_at_least_size_witness :
  exists r w',
    Cluster.Shrink env_ok 0%nat 4 world_c3 = Returns r w' /\
    Cluster.Stopped 0%nat w' = Returns true w' /\
    Cluster.Size 0%nat w' = Returns 3 w' /\
    Forall (defunct w') [0; 1; 2]%nat.
Proof.
  destruct (Shrink_at_least_size env_ok world_c3 0%nat
              (mkCluster "c1" 3 [0; 1; 2]%nat false) 3 4)
    as [r [w' [Hshrink [Habove _]]]].
  - vm_compute; reflexivity.
  - repeat constructor; vm_compute; eauto.
  - vm_compute; reflexivity.
  - vm_compute; reflexivity.
  - lia.
  - lia.
  - exists r, w'. split; [exact Hshrink|]. apply Habove. lia.
Defined.

(** C1 as stated fails on the three-member cluster: after [Shrink(4)]
    the cluster is stopped but [Size()] is still 3, and after [Shrink(3)]
    [Size()] is 0 but the cluster is not stopped. *)
Lemma Shrink_at_least_size_counterexample :
  Cluster.Stopped 0%nat world_c3 = Returns false world_c3 /\
  Cluster.Size 0%nat world_c3 = Returns 3 world_c3 /\
  (exists r w',
     Cluster.Shrink env_ok 0%nat 4 world_c3 = Returns r w' /\
     Cluster.Size 0%nat w' = Returns 3 w' /\
     ~ (Cluster.Stopped 0%nat w' = Returns true w' /\
        Cluster.Size 0%nat w' = Returns 0 w')) /\
  (exists r w',
     Cluster.Shrink env_ok 0%nat 3 world_c3 = Returns r w' /\
     Cluster.Stopped 0%nat w' = Returns false w' /\
     ~ (Cluster.Stopped 0%nat w' = Returns true w' /\
        Cluster.Size 0%nat w' = Returns 0 w')).
Proof.
  split; [vm_compute; reflexivity|]. split; [vm_compute; reflexivity|]. split.
  - exists None, (world_after (Cluster.Shrink env_ok 0%nat 4) world_c3).
    assert (Hsz : Cluster.Size 0%nat (world_after (Cluster.Shrink env_ok 0%nat 4) world_c3)
                  = Returns 3 (world_after (Cluster.Shrink env_ok 0%nat 4) world_c3))
      by (vm_compute; reflexivity).
    split; [vm_compute; reflexivity|]. split; [exact Hsz|].
    intros [_ H0]. rewrite Hsz in H0. apply Returns_inj in H0 as [H0 _]. lia.
  - exists None, (world_after (Cluster.Shrink env_ok 0%nat 3) world_c3).
    assert (Hst : Cluster.Stopped 0%nat (world_after (Cluster.Shrink env_ok 0%nat 3) world_c3)
                  = Returns false (world_after (Cluster.Shrink env_ok 0%nat 3) world_c3))
      by (vm_compute; reflexivity).
    split; [vm_compute; reflexivity|]. split; [exact Hst|].
    intros [H1 _]. rewrite Hst in H1. apply Returns_inj in H1 as [H1 _]. discriminate.
Qed.

(** What [Shrink] leaves out, in general: when the members are distinct
    objects and [0 < n < s], the member at index [s - n] is dropped from
    the member sequence but its object is exactly as it was before the
    call; in particular its server was not stopped. *)
Lemma Shrink_skips_first_removed (env : Env) (cl : loc) (c : TestCluster)
    (w : World) (n : Z) (ti : loc) :
  cluster_store w !! cl = Some c ->
  1 <= Z.of_nat (length (cl_instances c)) <= 255 ->
  0 < n < Z.of_nat (length (cl_instances c)) ->
  Forall (allocated w) (cl_instances c) ->
  NoDup (cl_instances c) ->
  cl_instances c !! Z.to_nat (Z.of_nat (length (cl_instances c)) - n) = Some ti ->
  exists r w' c',
    Cluster.Shrink env cl n w = Returns r w' /\
    cluster_store w' !! cl = Some c' /\
    (ti ∉ cl_instances c') /\
    instance_store w' !! ti = instance_store w !! ti.
Proof.
  intros Hc Hlen Hn Hall Hnd Hti.
  destruct (Shrink_truncates env cl c w n Hc Hlen ltac:(lia) Hall)
    as [r [w' [Hshrink [Hc' Huntouched]]]].
  set (diff := Z.to_nat (Z.of_nat (length (cl_instances c)) - n)) in *.
  exists r, w', (mkCluster (cl_name c) (cl_size c) (take diff (cl_instances c)) (cl_stopped c)).
  split; [assumption|]. split; [assumption|]. split.
  - simpl. intros Hin. apply list_elem_of_lookup in Hin as [j Hj].
    apply lookup_take_Some in Hj as [Hj Hlt].
    pose proof (NoDup_lookup _ _ _ _ Hnd Hj Hti). lia.
  - apply Huntouched. intros j Hj Hjt.
    pose proof (NoDup_lookup _ _ _ _ Hnd Hjt Hti). lia.
Qed.

(** C2 (not met by the code): [Shrink(1)] on the three-member cluster
    returns nil and [Size()] becomes 2, but [Stop] was invoked on no
    member: the member that was removed, at location 2, is still running
    and no call was made to the outside. *)
Theorem Shrink_by_one_stops_no_member :
  let w' := world_after (Cluster.Shrink env_ok 0%nat 1) world_c3 in
  Cluster.Stopped 0%nat world_c3 = Returns false world_c3 /\
  Cluster.Size 0%nat world_c3 = Returns 3 world_c3 /\
  Cluster.Instance 0%nat 2 world_c3 = Returns 2%nat world_c3 /\
  Cluster.Shrink env_ok 0%nat 1 world_c3 = Returns None w' /\
  Cluster.Size 0%nat w' = Returns 2 w' /\
  Instance.Stopped 2%nat w' = Returns false w' /\
  events w' = events world_c3.
Proof. repeat split; vm_compute; reflexivity. Qed.

(** C3 (not met by the code): on the cluster that was created with one
    member and shrunk by one, [Stop()] returns nil and changes nothing:
    [Stopped()] is still false afterwards, and the server of the former
    member keeps running. *)
Theorem Stop_on_emptied_cluster_does_nothing :
  Cluster.Size 0%nat world_shrunk_to_zero = Returns 0 world_shrunk_to_zero /\
  Cluster.Stopped 0%nat world_shrunk_to_zero = Returns false world_shrunk_to_zero /\
  Cluster.Stop env_ok 0%nat world_shrunk_to_zero = Returns None world_shrunk_to_zero /\
  Instance.Stopped 0%nat world_shrunk_to_zero = Returns false world_shrunk_to_zero.
Proof. repeat split; vm_compute; reflexivity. Qed.

(** ** Growing a cluster *)

Section ClusterGrow.
Context (env : Env).

(** [NewTestInstance] always returns.  On success the new object is at a
    location that denoted nothing before, it is live, and its server has
    the configuration the callback produced; nothing else changes. *)
Lemma NewTestInstance_inv (name : string) (cb : testutil.ServerConfigCallback)
    (w : World) (r : loc + error) (w1 : World) :
  Instance.NewTestInstance env name cb w = Returns r w1 ->
  cluster_store w1 = cluster_store w /\
  match r with
  | inl ti =>
      ~ allocated w ti /\
      exists srv client,
        testutil.Config srv = cb (defaultServerConfig env) /\
        instance_store w1
        = <[ti := mkInstance name (Some srv) (Some client)]> (instance_store w) /\
        events w1 = events w ++ [EvNewTestServer (cb (defaultServerConfig env))]
  | inr _ => instance_store w1 = instance_store w
  end.
Proof.
  unfold Instance.NewTestInstance, NewTestServerConfig, api_NewClient, server_Stop,
    new_instance, bind, history, record, ret. simpl.
  destruct (startServer env (events w) (cb (defaultServerConfig env))) as [a|e]; simpl.
  - destruct (newClient env (http_addr a)) as [client|e]; simpl.
    + intros H. injection H as <- <-. simpl. split; [reflexivity|]. split.
      * unfold allocated. rewrite <- elem_of_dom. apply is_fresh.
      * eexists. eexists. refine (conj _ (conj eq_refl eq_refl)). reflexivity.
    + intros H. injection H as <- <-. simpl. split; reflexivity.
  - intros H. injection H as <- <-. simpl. split; reflexivity.
Qed.

Lemma NewTestInstance_returns (name : string) (cb : testutil.ServerConfigCallback)
    (w : World) :
  exists r w1, Instance.NewTestInstance env name cb w = Returns r w1.
Proof.
  unfold Instance.NewTestInstance, NewTestServerConfig, api_NewClient, server_Stop,
    new_instance, bind, history, record, ret. simpl.
  destruct (startServer env (events w) (cb (defaultServerConfig env))) as [a|e]; simpl;
    [destruct (newClient env (http_addr a)) as [client|e]; simpl|]; eauto.
Qed.

(** What one iteration of the loop of [Grow] does when it returns. *)
Lemma grow_body_inv (cl : loc) (cb : ClusterServerConfigCallback) (offset : Z)
    (c : TestCluster) (w : World) (r : option error) (w' : World) :
  cluster_store w !! cl = Some c ->
  Cluster.grow_body env cl cb offset w = Returns r w' ->
  (forall l, allocated w l -> instance_store w' !! l = instance_store w !! l) /\
  match r with
  | None =>
      exists ti, ~ allocated w ti /\ allocated w' ti /\
                 cluster_store w' = <[cl := grown c [ti]]> (cluster_store w)
  | Some (ErrGrowJoin nm off e) =>
      nm = cl_name c /\ off = offset /\
      cluster_store w' = cluster_store w /\
      exists ti srv client pre,
        ~ allocated w ti /\
        instance_store w' !! ti
        = Some (mkInstance (cl_name c +:+ "-" +:+ fmt_d offset) None None) /\
        agentJoin env pre client (testutil.LANAddr srv) false = Some e /\
        events w' = pre ++ [EvJoin client (testutil.LANAddr srv) false; EvServerStop srv]
  | Some _ => cluster_store w' = cluster_store w
  end.
Proof.
  intros Hc H. unfold Cluster.grow_body in H.
  unfold bind at 1 in H. rewrite (get_cluster_some _ _ _ Hc) in H.
  apply bind_inv in H as [r1 [w1 [Hnew H]]].
  apply NewTestInstance_inv in Hnew as [Hcs1 Hr1].
  destruct r1 as [ti|e1].
  - destruct Hr1 as [Hfresh [srv [client0 [Hconf [His1 Hev1]]]]].
    assert (Hc1 : cluster_store w1 !! cl = Some c) by now rewrite Hcs1.
    assert (Hti1 : instance_store w1 !! ti
                   = Some (mkInstance (cl_name c +:+ "-" +:+ fmt_d offset)
                             (Some srv) (Some client0)))
      by (rewrite His1; apply lookup_insert_eq).
    assert (Hold1 : forall l, allocated w l -> instance_store w1 !! l = instance_store w !! l).
    { intros l Hl. rewrite His1. apply lookup_insert_ne. intros ->. contradiction. }
    unfold bind at 1 in H. rewrite (get_cluster_some _ _ _ Hc1) in H.
    apply bind_inv in H as [first [w2 [Hidx H]]].
    assert (w2 = w1) as ->.
    { unfold index in Hidx. destruct (0 <? 0); [discriminate|].
      destruct (cl_instances c !! Z.to_nat 0); [|discriminate].
      unfold ret in Hidx. now injection Hidx. }
    apply bind_inv in H as [client [w2 [Hcl H]]].
    assert (w2 = w1) as ->.
    { unfold Instance.APIClient, Instance.live_server, bind, get_instance, raise, ret in Hcl.
      destruct (instance_store w1 !! first) as [i0|]; [|discriminate].
      destruct (ti_server i0); [|discriminate]. now injection Hcl. }
    apply bind_inv in H as [addr [w2 [Haddr H]]].
    unfold Instance.LANAddr, Instance.live_server, bind, get_instance, ret in Haddr.
    rewrite Hti1 in Haddr. simpl in Haddr. injection Haddr as <- <-.
    apply bind_inv in H as [jr [w2 [Hjoin H]]].
    destruct client as [client|]; [|discriminate].
    unfold Agent_Join, bind, history, record, ret in Hjoin. injection Hjoin as <- <-.
    set (w2 := mkWorld (instance_store w1) (cluster_store w1)
                 (events w1 ++ [EvJoin client (testutil.LANAddr srv) false])) in *.
    assert (Hti2 : instance_store w2 !! ti
                   = Some (mkInstance (cl_name c +:+ "-" +:+ fmt_d offset)
                             (Some srv) (Some client0))) by exact Hti1.
    destruct (agentJoin env (events w1) client (testutil.LANAddr srv) false) as [e|] eqn:Hj.
    + apply bind_inv in H as [rs [w3 [Hstop H]]].
      rewrite (Stop_live env w2 ti _ srv Hti2 eq_refl) in Hstop.
      apply Returns_inj in Hstop as [_ <-].
      unfold ret in H. injection H as <- <-. split.
      * intros l Hl. simpl. rewrite lookup_insert_ne by (intros ->; contradiction).
        now apply Hold1.
      * split; [reflexivity|]. split; [reflexivity|]. split; [exact Hcs1|].
        exists ti, srv, client, (events w1). split; [assumption|]. split; [|split].
        -- simpl. apply lookup_insert_eq.
        -- exact Hj.
        -- simpl. now rewrite <- app_assoc.
    + unfold bind at 1 in H.
      assert (Hc2 : cluster_store w2 !! cl = Some c) by exact Hc1.
      rewrite (get_cluster_some _ _ _ Hc2) in H.
      unfold bind, put_cluster, ret in H. injection H as <- <-. split.
      * intros l Hl. simpl. now apply Hold1.
      * exists ti. split; [assumption|]. split.
        -- unfold allocated. simpl. rewrite Hti1. eauto.
        -- simpl. now rewrite Hcs1.
  - unfold ret in H. injection H as <- <-. split.
    + intros l _. now rewrite Hr1.
    + exact Hcs1.
Qed.

End ClusterGrow.

Section ClusterGrowLoop.
Context (env : Env).

Lemma grown_nil (c : TestCluster) : grown c [] = c.
Proof. destruct c. unfold grown. simpl. now rewrite app_nil_r. Qed.

Lemma grown_grown (c : TestCluster) (ti : loc) (news : list loc) :
  grown (grown c [ti]) news = grown c (ti :: news).
Proof. unfold grown. simpl. now rewrite <- app_assoc. Qed.

Lemma allocated_preserved (w w' : World) :
  (forall l, allocated w l -> instance_store w' !! l = instance_store w !! l) ->
  forall l, allocated w l -> allocated w' l.
Proof. intros H l Hl. unfold allocated. rewrite H by assumption. exact Hl. Qed.

(** The loop of [Grow], when it returns: the members it was entered with
    are followed by the instances of the iterations that reached their
    end, and objects that existed before are as they were.  When it
    returns the join error of some offset, that offset is the one of the
    iteration after those, and the instance of that iteration is not a
    member and has been stopped right after the join. *)
Lemma grow_loop_inv (cl : loc) (cb : ClusterServerConfigCallback) (current : Z)
    (k : nat) :
  forall (i : Z) (c : TestCluster) (w : World) (r : option error) (w' : World),
    cluster_store w !! cl = Some c ->
    Forall (allocated w) (cl_instances c) ->
    Z.of_nat (length (cl_instances c)) = current + i ->
    0 <= current -> 0 <= i -> current + i + Z.of_nat k <= 255 ->
    Cluster.grow_loop env cl cb current k i w = Returns r w' ->
    exists news,
      cluster_store w' !! cl = Some (grown c news) /\
      Forall (allocated w') (cl_instances c ++ news) /\
      (forall l, allocated w l -> instance_store w' !! l = instance_store w !! l) /\
      match r with
      | None => length news = k
      | Some (ErrGrowJoin nm off e) =>
          nm = cl_name c /\ (length news < k)%nat /\
          off = current + i + Z.of_nat (length news) /\
          exists ti srv client pre,
            (ti ∉ cl_instances c ++ news) /\
            ~ allocated w ti /\
            instance_store w' !! ti
            = Some (mkInstance (cl_name c +:+ "-" +:+ fmt_d off) None None) /\
            agentJoin env pre client (testutil.LANAddr srv) false = Some e /\
            events w' = pre ++ [EvJoin client (testutil.LANAddr srv) false;
                                EvServerStop srv]
      | Some _ => True
      end.
Proof.
  induction k as [|k IH]; intros i c w r w' Hc Hall Hlen Hcur Hi Hbound H.
  - simpl in H. unfold ret in H. injection H as <- <-.
    exists []. rewrite grown_nil, app_nil_r. repeat split; auto.
  - simpl in H. apply bind_inv in H as [r1 [w1 [Hbody H]]].
    assert (Hoff : uint8 (uint8 current + i) = current + i)
      by (rewrite (uint8_small current) by lia; apply uint8_small; lia).
    rewrite Hoff in Hbody.
    pose proof (grow_body_inv env cl cb _ c w r1 w1 Hc Hbody) as [Hold Hcase].
    pose proof (allocated_preserved w w1 Hold) as Hmono.
    destruct r1 as [err|].
    + unfold ret in H. injection H as <- <-.
      exists []. rewrite grown_nil, app_nil_r.
      assert (Hcs : cluster_store w1 = cluster_store w)
        by (destruct err; try exact Hcase; tauto).
      split; [now rewrite Hcs|].
      split; [eapply Forall_impl; [exact Hall|]; auto|].
      split; [assumption|].
      destruct err; try exact I.
      destruct Hcase as [-> [-> [_ [ti [srv [client [pre [Hfresh [Hti [Hj Hev]]]]]]]]]].
      split; [reflexivity|]. split; [simpl; lia|]. split; [simpl; lia|].
      exists ti, srv, client, pre. split; [|auto].
      intros Hin. apply Hfresh. rewrite Forall_forall in Hall. auto.
    + destruct Hcase as [ti [Hfresh [Hti1 Hcs1]]].
      assert (Hc1 : cluster_store w1 !! cl = Some (grown c [ti]))
        by (rewrite Hcs1; apply lookup_insert_eq).
      rewrite (uint8_small (i + 1)) in H by lia.
      destruct (IH (i + 1) (grown c [ti]) w1 r w' Hc1) as [news [Hc' [Hall' [Hold' Hres]]]];
        try lia; try assumption.
      * simpl. apply Forall_app. split.
        -- eapply Forall_impl; [exact Hall|]; auto.
        -- repeat constructor. assumption.
      * simpl. rewrite length_app. simpl. lia.
      * exists (ti :: news). rewrite grown_grown in Hc'.
        split; [assumption|]. split.
        -- simpl in Hall'. now rewrite <- app_assoc in Hall'.
        -- split.
           ++ intros l Hl. rewrite Hold' by auto. auto.
           ++ destruct r as [err|]; [|simpl; lia].
              destruct err; try exact I.
              destruct Hres as [-> [Hk [-> [tj [srv [client [pre [Hnot [Hfr [Htj [Hj Hev]]]]]]]]]]].
              split; [reflexivity|]. split; [simpl length; lia|].
              split; [simpl length; lia|].
              exists tj, srv, client, pre.
              split; [simpl in Hnot; now rewrite <- app_assoc in Hnot|].
              split; [intros Hl; apply Hfr; auto|].
              split; [exact Htj|]. split; assumption.
Qed.

(** [Grow] on a cluster that is not stopped and fits the bound is its
    loop. *)
Lemma Grow_is_loop (cl : loc) (c : TestCluster) (w : World) (n : Z)
    (cb : ClusterServerConfigCallback) :
  cluster_store w !! cl = Some c ->
  cl_stopped c = false ->
  Z.of_nat (length (cl_instances c)) + n <= 255 ->
  Cluster.Grow env cl n cb w
  = Cluster.grow_loop env cl cb (Z.of_nat (length (cl_instances c))) (Z.to_nat n) 0 w.
Proof.
  intros Hc Hs Hfit. unfold Cluster.Grow. unfold bind at 1.
  rewrite (get_cluster_some _ _ _ Hc), Hs.
  destruct (Z.gtb_spec (Z.of_nat (length (cl_instances c)) + n) MaxUint8) as [Hgt|_];
    [unfold MaxUint8 in Hgt; lia|reflexivity].
Qed.

End ClusterGrowLoop.

Section ClusterGrowJoin.
Context (env : Env).

(** The loop of [Grow] over [k1 + k2] nodes is the loop over the first
    [k1] followed, when none of them failed, by the loop over the rest. *)
Lemma grow_loop_split (cl : loc) (cb : ClusterServerConfigCallback) (current : Z)
    (k1 k2 : nat) :
  forall (i : Z) (w : World),
    0 <= i -> i + Z.of_nat k1 <= 255 ->
    Cluster.grow_loop env cl cb current (k1 + k2) i w
    = match Cluster.grow_loop env cl cb current k1 i w with
      | Returns None w1 => Cluster.grow_loop env cl cb current k2 (i + Z.of_nat k1) w1
      | o => o
      end.
Proof.
  induction k1 as [|k1 IH]; intros i w Hi Hb.
  - simpl. unfold ret. now rewrite Z.add_0_r.
  - cbn [Nat.add Cluster.grow_loop]. unfold bind.
    destruct (Cluster.grow_body env cl cb (uint8 (uint8 current + i)) w)
      as [[err|] w1|p w1]; [reflexivity| |reflexivity].
    rewrite (uint8_small (i + 1)) by lia.
    rewrite IH by lia.
    replace (i + 1 + Z.of_nat k1) with (i + Z.of_nat (S k1)) by lia. reflexivity.
Qed.

(** One iteration of the loop of [Grow] in which the server starts, its
    client is built and member 0, through its client, is refused the
    join: the new instance is stopped and the join error is returned. *)
Lemma grow_body_join_refused (cl : loc) (cb : ClusterServerConfigCallback) (offset : Z)
    (c : TestCluster) (w : World) (first : loc) (i0 : TestInstance)
    (srv0 : testutil.TestServer) (client0 : api.Client) (a : Addresses)
    (client : api.Client) (e : error) :
  cluster_store w !! cl = Some c ->
  cl_instances c !! 0%nat = Some first ->
  instance_store w !! first = Some i0 ->
  ti_server i0 = Some srv0 ->
  ti_client i0 = Some client0 ->
  let conf := cb (cl_name c) offset (defaultServerConfig env) in
  let srv := testutil.mkServer conf (http_addr a) (https_addr a) (lan_addr a) (wan_addr a)
               (testutil.HttpClientOf (http_addr a)) in
  startServer env (events w) conf = inl a ->
  newClient env (http_addr a) = inl client ->
  agentJoin env (events w ++ [EvNewTestServer conf]) client0 (lan_addr a) false = Some e ->
  exists ti w',
    Cluster.grow_body env cl cb offset w
    = Returns (Some (ErrGrowJoin (cl_name c) offset e)) w' /\
    ~ allocated w ti /\
    instance_store w'
    = <[ti := mkInstance (cl_name c +:+ "-" +:+ fmt_d offset) None None]> (instance_store w) /\
    cluster_store w' = cluster_store w /\
    events w' = events w ++ [EvNewTestServer conf; EvJoin client0 (lan_addr a) false;
                             EvServerStop srv].
Proof.
  intros Hc Hfirst Hi0 Hsrv0 Hclient0 conf srv Hstart Hclient Hjoin.
  set (ti := fresh (dom (instance_store w))).
  assert (Hfresh : ~ allocated w ti).
  { unfold allocated. rewrite <- elem_of_dom. apply is_fresh. }
  assert (Hne : ti <> first).
  { intros E. apply Hfresh. rewrite E. unfold allocated. rewrite Hi0. eauto. }
  set (inst := mkInstance (cl_name c +:+ "-" +:+ fmt_d offset) (Some srv) (Some client)).
  set (w1 := mkWorld (<[ti := inst]> (instance_store w)) (cluster_store w)
               (events w ++ [EvNewTestServer conf])).
  assert (Hnew : Instance.NewTestInstance env (cl_name c +:+ "-" +:+ fmt_d offset)
                   (fun conf0 => cb (cl_name c) offset conf0) w = Returns (inl ti) w1).
  { unfold Instance.NewTestInstance, NewTestServerConfig, api_NewClient, new_instance,
      bind, history, record, ret. simpl. fold conf. rewrite Hstart. simpl.
    rewrite Hclient. reflexivity. }
  set (w2 := mkWorld (instance_store w1) (cluster_store w1)
               (events w1 ++ [EvJoin client0 (lan_addr a) false])).
  assert (Hti2 : instance_store w2 !! ti = Some inst) by apply lookup_insert_eq.
  exists ti, (stopped_world w2 ti inst srv).
  split; [|split; [assumption|split; [|split]]].
  - unfold Cluster.grow_body. unfold bind at 1. rewrite (get_cluster_some _ _ _ Hc).
    unfold bind at 1. rewrite Hnew.
    unfold bind at 1. rewrite (get_cluster_some w1 cl c Hc).
    unfold bind at 1. rewrite (index_in_range _ 0%nat _ _ Hfirst).
    assert (Hapi : Instance.APIClient first w1 = Returns (Some client0) w1).
    { unfold Instance.APIClient, Instance.live_server, bind, get_instance, ret. simpl.
      rewrite lookup_insert_ne by assumption. rewrite Hi0, Hsrv0. simpl.
      now rewrite Hclient0. }
    unfold bind at 1. rewrite Hapi.
    assert (Hlan : Instance.LANAddr ti w1 = Returns (lan_addr a) w1).
    { unfold Instance.LANAddr, Instance.live_server, bind, get_instance, ret. simpl.
      now rewrite lookup_insert_eq. }
    unfold bind at 1. rewrite Hlan.
    assert (Hj : Agent_Join env client0 (lan_addr a) false w1 = Returns (Some e) w2).
    { unfold Agent_Join, bind, history, record, ret. simpl. now rewrite Hjoin. }
    unfold bind at 1. rewrite Hj.
    unfold bind at 1. rewrite (Stop_live env w2 ti inst srv Hti2 eq_refl). reflexivity.
  - simpl. apply insert_insert_eq.
  - reflexivity.
  - simpl. rewrite <- !app_assoc. reflexivity.
Qed.

End ClusterGrowJoin.

(** C4: on a cluster of [s] members that is not stopped, with valid
    member pointers, let [Grow(n, cb)] fit the bound and let the join of
    the node at offset [s + i], [0 <= i < n], fail: the [i] nodes before
    it are added (growing by [i] returns nil, in the state [wi]), and
    then the server of the next node starts, its client is built, and
    the environment answers the join of its LAN address through the
    client of member 0 with the error [e].  Then [Grow(n, cb)] returns
    the join error of that offset carrying [e]; [Size()] is [s + i]
    afterwards, the members being those after the [i] additions; the
    node that failed to join is a new object that is not a member and
    was stopped right after the join: its [Stopped()] is true and the
    calls made after the [i] additions are the start of its server, the
    refused join and the stop of its server. *)
Theorem Grow_join_failure (env : Env) (w : World) (cl : loc) (c : TestCluster)
    (s n i : Z) (cb : ClusterServerConfigCallback) (first : loc) (client0 : api.Client)
    (wi : World) (a : Addresses) (client : api.Client) (e : error) :
  cluster_store w !! cl = Some c ->
  Forall (allocated w) (cl_instances c) ->
  Cluster.Stopped cl w = Returns false w ->
  Cluster.Size cl w = Returns s w ->
  0 <= i < n ->
  s + n <= 255 ->
  Cluster.Instance cl 0 w = Returns first w ->
  Instance.APIClient first w = Returns (Some client0) w ->
  Cluster.Grow env cl i cb w = Returns None wi ->
  let conf := cb (cl_name c) (s + i) (defaultServerConfig env) in
  startServer env (events wi) conf = inl a ->
  newClient env (http_addr a) = inl client ->
  agentJoin env (events wi ++ [EvNewTestServer conf]) client0 (lan_addr a) false = Some e ->
  exists w' news ti srv,
    Cluster.Grow env cl n cb w = Returns (Some (ErrGrowJoin (cl_name c) (s + i) e)) w' /\
    Cluster.Size cl w' = Returns (s + i) w' /\
    Z.of_nat (length news) = i /\
    cluster_store wi !! cl = Some (grown c news) /\
    cluster_store w' !! cl = Some (grown c news) /\
    (ti ∉ cl_instances c ++ news) /\
    ~ allocated w ti /\
    Instance.Name ti w' = Returns (cl_name c +:+ "-" +:+ fmt_d (s + i)) w' /\
    Instance.Stopped ti w' = Returns true w' /\
    testutil.Config srv = conf /\
    testutil.LANAddr srv = lan_addr a /\
    events w' = events wi ++ [EvNewTestServer conf; EvJoin client0 (lan_addr a) false;
                              EvServerStop srv].
Proof.
  intros Hc Hall Hst Hsz Hi Hfit Hfirst Hapi Hpre conf Hstart Hclient Hjoin.
  apply Cluster_Stopped_inv in Hst as [_ [c1 [Hc1 Hflag]]].
  apply Cluster_Size_inv in Hsz as [_ [c2 [Hc2 Hlen]]].
  rewrite Hc in Hc1, Hc2. injection Hc1 as <-. injection Hc2 as <-.
  assert (Hfirst0 : cl_instances c !! 0%nat = Some first).
  { unfold Cluster.Instance, bind in Hfirst.
    rewrite (get_cluster_some _ _ _ Hc), Hflag in Hfirst. unfold index in Hfirst.
    change (0 <? 0) with false in Hfirst. change (Z.to_nat 0) with 0%nat in Hfirst.
    cbv iota in Hfirst.
    destruct (cl_instances c !! 0%nat) as [x|]; [|discriminate Hfirst].
    apply Returns_inj in Hfirst as [-> _]. reflexivity. }
  assert (Hi0 : exists i0 srv0, instance_store w !! first = Some i0 /\
                                ti_server i0 = Some srv0 /\ ti_client i0 = Some client0).
  { unfold Instance.APIClient, Instance.live_server, bind, get_instance, raise, ret in Hapi.
    destruct (instance_store w !! first) as [i0|]; [|discriminate Hapi].
    destruct (ti_server i0) as [srv0|] eqn:Hs0; [|discriminate Hapi].
    simpl in Hapi. apply Returns_inj in Hapi as [Hcl0 _]. eauto. }
  destruct Hi0 as [i0 [srv0 [Hi0 [Hsrv0 Hclient0]]]].
  rewrite (Grow_is_loop env cl c w i cb Hc Hflag) in Hpre by lia.
  rewrite Hlen in Hpre.
  destruct (grow_loop_inv env cl cb s (Z.to_nat i) 0 c w None wi Hc Hall
              ltac:(lia) ltac:(lia) ltac:(lia) ltac:(lia) Hpre)
    as [news [Hci [Halli [Hold Hk]]]].
  assert (Hnews : Z.of_nat (length news) = i) by lia.
  assert (Hfirst_i : cl_instances (grown c news) !! 0%nat = Some first).
  { simpl. rewrite lookup_app_l; [assumption|].
    apply lookup_lt_Some in Hfirst0. exact Hfirst0. }
  assert (Hi0_i : instance_store wi !! first = Some i0).
  { rewrite Hold; [assumption|]. unfold allocated. rewrite Hi0. eauto. }
  destruct (grow_body_join_refused env cl cb (s + i) (grown c news) wi first i0 srv0 client0
              a client e Hci Hfirst_i Hi0_i Hsrv0 Hclient0 Hstart Hclient Hjoin)
    as [ti [w' [Hbody [Hfresh [His [Hcs Hev]]]]]].
  simpl in Hbody, His. fold conf in Hev.
  assert (Hc' : cluster_store w' !! cl = Some (grown c news)) by now rewrite Hcs.
  assert (Hti : instance_store w' !! ti
                = Some (mkInstance (cl_name c +:+ "-" +:+ fmt_d (s + i)) None None))
    by (rewrite His; apply lookup_insert_eq).
  exists w', news, ti,
    (testutil.mkServer conf (http_addr a) (https_addr a) (lan_addr a) (wan_addr a)
       (testutil.HttpClientOf (http_addr a))).
  split.
  { rewrite (Grow_is_loop env cl c w n cb Hc Hflag) by lia. rewrite Hlen.
    replace (Z.to_nat n) with (Z.to_nat i + S (Z.to_nat (n - i - 1)))%nat by lia.
    rewrite grow_loop_split by lia. rewrite Hpre.
    cbn [Cluster.grow_loop]. unfold bind.
    rewrite Z.add_0_l, Z2Nat.id by lia.
    rewrite (uint8_small s), (uint8_small (s + i)) by lia.
    rewrite Hbody. reflexivity. }
  split.
  { rewrite (Cluster_Size_spec _ _ _ Hc'). simpl. rewrite length_app. f_equal. lia. }
  split; [assumption|]. split; [assumption|]. split; [assumption|].
  split.
  { intros Hin. apply Hfresh. rewrite Forall_forall in Halli. auto. }
  split.
  { intros Hal. apply Hfresh. unfold allocated. rewrite Hold by assumption. exact Hal. }
  split; [unfold Instance.Name, bind, get_instance; now rewrite Hti|].
  split; [unfold Instance.Stopped, bind, get_instance; now rewrite Hti|].
  split; [reflexivity|]. split; [reflexivity|]. exact Hev.
Qed.

Lemma Grow_join_failure_witness :
  let env := env_join_fails "lan:5" in
  let cb := DefaultClusterServerConfigCallback in
  let wi := world_after (Cluster.Grow env 0%nat 1 cb) world_c2_join in
  exists w',
    Cluster.Grow env 0%nat 3 cb world_c2_join
    = Returns (Some (ErrGrowJoin "c1" (2 + 1) (ErrExternal "join refused"))) w' /\
    Cluster.Size 0%nat w' = Returns (2 + 1) w'.
Proof.
  intros env cb wi.
  destruct (Grow_join_failure env world_c2_join 0%nat (mkCluster "c1" 2 [0; 1]%nat false)
              2 3 1 cb 0%nat (api.ClientOf "http:0") wi (addresses_of 5)
              (api.ClientOf "http:5") (ErrExternal "join refused"))
    as [w' [_ [_ [_ [HG [Hsz _]]]]]].
  - vm_compute; reflexivity.
  - repeat constructor; vm_compute; eauto.
  - vm_compute; reflexivity.
  - vm_compute; reflexivity.
  - lia.
  - lia.
  - vm_compute; reflexivity.
  - vm_compute; reflexivity.
  - vm_compute; reflexivity.
  - vm_compute; reflexivity.
  - vm_compute; reflexivity.
  - vm_compute; reflexivity.
  - exists w'. split; [exact HG|exact Hsz].
Defined.

(** C6: [NewTestCluster] with size 0 returns an error and the state is
    the one before the call; when it succeeds with a size [k >= 1], the
    cluster has [Size() == k] and its member at index 0 is the instance
    named "<name>-0", whose server was configured by the callback applied
    to the cluster name and index 0 (the default callback when none is
    given). *)
Theorem NewTestCluster_size_and_bootstrap (env : Env) (name : string)
    (cb : option ClusterServerConfigCallback) (w : World) :
  Cluster.NewTestCluster env name 0 cb w = Returns (inr ErrSizeAtLeast1) w /\
  forall (size : Z) (cl : loc) (w' : World),
    1 <= size <= 255 ->
    Cluster.NewTestCluster env name size cb w = Returns (inl cl) w' ->
    Cluster.Size cl w' = Returns size w' /\
    exists first,
      Cluster.Instance cl 0 w' = Returns first w' /\
      Instance.Name first w' = Returns (name +:+ "-0") w' /\
      Instance.Config first w'
      = Returns (match cb with
                 | Some f => f
                 | None => DefaultClusterServerConfigCallback
                 end name 0 (defaultServerConfig env)) w'.
Proof.
  split; [reflexivity|].
  intros size cl w' Hsize H.
  set (cb' := match cb with
              | Some f => f
              | None => DefaultClusterServerConfigCallback
              end) in *.
  unfold Cluster.NewTestCluster in H. fold cb' in H.
  destruct (Z.eqb_spec size 0) as [|_]; [lia|].
  apply bind_inv in H as [r1 [w1 [Hnew H]]].
  apply NewTestInstance_inv in Hnew as [Hcs1 Hr1].
  destruct r1 as [first|e1]; [|unfold ret in H; discriminate H].
  destruct Hr1 as [Hfresh [srv [client [Hconf [His1 _]]]]].
  apply bind_inv in H as [cl0 [w2 [Hcl H]]].
  unfold new_cluster in Hcl. injection Hcl as <- <-.
  set (cl0 := fresh (dom (cluster_store w1))) in *.
  set (c0 := mkCluster name size [first] false) in *.
  set (w2 := mkWorld (instance_store w1) (<[cl0 := c0]> (cluster_store w1)) (events w1)) in *.
  assert (Hc2 : cluster_store w2 !! cl0 = Some c0) by apply lookup_insert_eq.
  assert (Hfirst2 : instance_store w2 !! first
                    = Some (mkInstance (name +:+ "-" +:+ fmt_d 0) (Some srv) (Some client)))
    by (simpl; rewrite His1; apply lookup_insert_eq).
  assert (Hfinal : forall news,
             cluster_store w' !! cl = Some (grown c0 news) ->
             Z.of_nat (length news) = size - 1 ->
             instance_store w' !! first = instance_store w2 !! first ->
             Cluster.Size cl w' = Returns size w' /\
             exists first0,
               Cluster.Instance cl 0 w' = Returns first0 w' /\
               Instance.Name first0 w' = Returns (name +:+ "-0") w' /\
               Instance.Config first0 w' = Returns (cb' name 0 (defaultServerConfig env)) w').
  { intros news Hc' Hlen Hkeep. split.
    - rewrite (Cluster_Size_spec _ _ _ Hc'). simpl. f_equal. lia.
    - exists first. split; [|split].
      + unfold Cluster.Instance, bind. rewrite (get_cluster_some _ _ _ Hc'). reflexivity.
      + unfold Instance.Name, bind, get_instance. rewrite Hkeep, Hfirst2. reflexivity.
      + unfold Instance.Config, Instance.live_server, bind, get_instance.
        rewrite Hkeep, Hfirst2. simpl. unfold ret. now rewrite Hconf. }
  destruct (Z.eqb_spec size 1) as [Hone|Hmore].
  - unfold ret in H. injection H as <- <-.
    apply (Hfinal []); [now rewrite grown_nil|simpl; lia|reflexivity].
  - apply bind_inv in H as [err [w3 [Hgrow H]]].
    destruct err as [e|].
    + apply bind_inv in H as [c3 [w4 [_ H]]].
      apply bind_inv in H as [u [w5 [_ H]]].
      unfold ret in H. discriminate H.
    + unfold ret in H. injection H as <- <-.
      rewrite (uint8_small (size - 1)) in Hgrow by lia.
      rewrite (Grow_is_loop env cl0 c0 w2 (size - 1) cb' Hc2 eq_refl) in Hgrow
        by (simpl; lia).
      assert (Hall2 : Forall (allocated w2) (cl_instances c0)).
      { repeat constructor. unfold allocated. rewrite Hfirst2. eauto. }
      destruct (grow_loop_inv env cl0 cb' 1 (Z.to_nat (size - 1)) 0 c0 w2 None w3
                  Hc2 Hall2 eq_refl ltac:(lia) ltac:(lia) ltac:(lia) Hgrow)
        as [news [Hc' [_ [Hold Hlen]]]].
      apply (Hfinal news); [assumption|lia|].
      apply Hold. unfold allocated. rewrite Hfirst2. eauto.
Qed.

Lemma NewTestCluster_size_and_bootstrap_witness :
  let w' := world_c3 in
  Cluster.NewTestCluster env_ok "c1" 3 None empty_world = Returns (inl 0%nat) w' /\
  Cluster.Size 0%nat w' = Returns 3 w'.
Proof.
  intros w'.
  assert (H : Cluster.NewTestCluster env_ok "c1" 3 None empty_world = Returns (inl 0%nat) w')
    by (vm_compute; reflexivity).
  split; [exact H|].
  refine (proj1 (proj2 (NewTestCluster_size_and_bootstrap env_ok "c1" None empty_world)
                   3 0%nat w' _ H)).
  lia.
Defined.

(** ** Stopping everything the registry holds *)

Section StopAllBookkeeping.
Context (env : Env).


Lemma Add_errs (e : MultiErr.t) (r : option error) :
  MultiErr.errs (MultiErr.Add e r) = MultiErr.errs e ++ held r.
Proof. destruct r; simpl; [reflexivity|now rewrite app_nil_r]. Qed.






End StopAllBookkeeping.

(** *** Every interleaving that is long enough completes *)

Section StopAllProgress.
Context (env : Env).

Lemma advances_refl w : advances w w.
Proof. repeat split; auto. intros cl c Hc. exists c. auto. Qed.

Lemma advances_trans w1 w2 w3 : advances w1 w2 -> advances w2 w3 -> advances w1 w3.
Proof.
  intros [Ha [Hd Hc]] [Ha' [Hd' Hc']]. repeat split; auto.
  intros cl c H. destruct (Hc cl c H) as [c2 [H2 [Hi2 Hs2]]].
  destruct (Hc' cl c2 H2) as [c3 [H3 [Hi3 Hs3]]].
  exists c3. split; [assumption|]. split; [congruence|auto].
Qed.

Lemma Stop_advances w ti :
  allocated w ti ->
  exists r w', Instance.Stop env ti w = Returns r w' /\ advances w w' /\ defunct w' ti.
Proof.
  intros Hal. destruct (Stop_effect env w ti Hal) as [r [w' [Hs [Hcs [Hd [Hm [Hdm _]]]]]]].
  exists r, w'. split; [assumption|]. split; [|assumption].
  repeat split; auto. intros cl c Hc. exists c. rewrite Hcs. auto.
Qed.

Lemma mark_stopped_advances w cl c :
  cluster_store w !! cl = Some c ->
  advances w (mkWorld (instance_store w)
                (<[cl := mkCluster (cl_name c) (cl_size c) (cl_instances c) true]>
                   (cluster_store w))
                (events w)).
Proof.
  intros Hc. repeat split; auto. simpl. intros cl' c' Hc'.
  destruct (decide (cl = cl')) as [<-|Hne].
  - rewrite lookup_insert_eq. eexists. split; [reflexivity|].
    rewrite Hc in Hc'. injection Hc' as <-. auto.
  - rewrite lookup_insert_ne by assumption. exists c'. auto.
Qed.


Lemma advances_cluster_ok w w' cl :
  advances w w' -> cluster_ok w cl -> cluster_ok w' cl.
Proof.
  intros Hadv [c [H Hall]]. pose proof Hadv as [Ha [_ Hc]].
  destruct (Hc cl c H) as [c' [H' [Hi _]]].
  exists c'. split; [assumption|]. rewrite Hi. eapply Forall_impl; eauto.
Qed.





End StopAllProgress.

Section StopAllProgressClusters.
Context (env : Env).


End StopAllProgressClusters.

Section StopAllRun.
Context (env : Env).






End StopAllRun.

(** *** The interleaved steps of one cluster are [Cluster.Stop] *)




Section StopAllCluster.
Context (env : Env).




End StopAllCluster.

(** *** The members of a cluster are stopped before it is marked *)

Section StopAllMembers.
Context (env : Env).







End StopAllMembers.



(** * Further properties of the code *)

(** ** The error aggregators *)

Lemma MultiErr_foldl_Add (rs : list (option error)) :
  forall e, MultiErr.errs (foldl MultiErr.Add e rs) = MultiErr.errs e ++ omap id rs.
Proof.
  induction rs as [|r rs IH]; intros e; simpl.
  - now rewrite app_nil_r.
  - rewrite IH, Add_errs. destruct r; simpl; now rewrite <- app_assoc.
Qed.

(** X1: whatever results are added to a fresh [MultiErr], it holds
    exactly the non-nil ones, in the order in which they were added, and
    [Size] is their number: a nil never counts, and [Size] is positive
    exactly when some result was an error. *)
Theorem MultiErr_keeps_failures_in_order (rs : list (option error)) :
  let e := foldl MultiErr.Add MultiErr.NewMultiErr rs in
  MultiErr.errs e = omap id rs /\
  MultiErr.Size e = Z.of_nat (length (omap id rs)) /\
  (MultiErr.Size e > 0 <-> exists x, Some x ∈ rs).
Proof.
  intros e. assert (He : MultiErr.errs e = omap id rs).
  { unfold e. now rewrite MultiErr_foldl_Add. }
  split; [exact He|]. split; [unfold MultiErr.Size; now rewrite He|].
  unfold MultiErr.Size. rewrite He. split.
  - intros Hpos. destruct (omap id rs) as [|x xs] eqn:Hx; [simpl in Hpos; lia|].
    exists x. assert (Hin : x ∈ omap id rs) by (rewrite Hx; left).
    apply list_elem_of_omap in Hin as [r [Hr Hid]]. simpl in Hid. now subst r.
  - intros [x Hin].
    assert (Hx : x ∈ omap id rs) by (apply list_elem_of_omap; exists (Some x); auto).
    destruct (omap id rs); [inversion Hx|simpl; lia].
Qed.

Lemma ErrCount_foldl (rs : list (option error)) :
  forall n,
    foldl (fun errLen err => match err with
                             | Some _ => errLen + 1
                             | None => errLen
                             end) n rs
    = n + Z.of_nat (length (omap id rs)).
Proof.
  induction rs as [|r rs IH]; intros n; [simpl; lia|].
  destruct r as [x|]; cbn [foldl]; rewrite IH.
  - change (omap id (Some x :: rs)) with (x :: omap id rs). cbn [length]. lia.
  - change (omap id (None :: rs)) with (omap id rs). lia.
Qed.

Lemma omap_id_length_le {A} (rs : list (option A)) :
  (length (omap id rs) <= length rs)%nat.
Proof.
  induction rs as [|[x|] rs IH]; [simpl; lia| |].
  - change (omap id (Some x :: rs)) with (x :: omap id rs). cbn [length]. lia.
  - change (omap id (None :: rs)) with (omap id rs). cbn [length]. lia.
Qed.

Lemma Retaining_foldl_Add (rs : list (option error)) :
  forall e,
    MultiErrRetaining.errs (foldl MultiErrRetaining.Add e rs)
    = MultiErrRetaining.errs e ++ rs.
Proof.
  induction rs as [|r rs IH]; intros e; simpl.
  - now rewrite app_nil_r.
  - rewrite IH. simpl. now rewrite <- app_assoc.
Qed.

(** X2: the earlier aggregator, created with [NewMultiErr(r0)] and given
    the results [rs], keeps every entry: its [Size] is the number of
    results, nil or not, so it is never 0; its [ErrCount] lies between 0
    and [Size] and is the [Size] of the present aggregator after the same
    results, and dropping its nil entries gives the entries of the
    present one. *)
Theorem MultiErrRetaining_agrees_on_failures (r0 : option error)
    (rs : list (option error)) :
  let old := foldl MultiErrRetaining.Add (MultiErrRetaining.NewMultiErr r0) rs in
  let new := foldl MultiErr.Add MultiErr.NewMultiErr (r0 :: rs) in
  MultiErrRetaining.Size old = 1 + Z.of_nat (length rs) /\
  0 <= MultiErrRetaining.ErrCount old <= MultiErrRetaining.Size old /\
  MultiErrRetaining.ErrCount old = MultiErr.Size new /\
  omap id (MultiErrRetaining.errs old) = MultiErr.errs new.
Proof.
  intros old new.
  assert (Ho : MultiErrRetaining.errs old = r0 :: rs).
  { unfold old. now rewrite Retaining_foldl_Add. }
  assert (Hn : MultiErr.errs new = omap id (r0 :: rs)).
  { unfold new. now rewrite MultiErr_foldl_Add. }
  assert (Hc : MultiErrRetaining.ErrCount old = Z.of_nat (length (omap id (r0 :: rs)))).
  { unfold MultiErrRetaining.ErrCount. rewrite Ho, ErrCount_foldl. lia. }
  pose proof (omap_id_length_le (r0 :: rs)) as Hle.
  unfold MultiErrRetaining.Size, MultiErr.Size. rewrite Ho, Hn, Hc.
  cbn [length] in *. repeat split; lia.
Qed.

(** ** NewTestInstance *)

(** X3: when [NewTestInstance] returns an error, no object was created,
    and no server is left running: either the server did not start, and
    that is the error, or it started, no client could be built for it,
    which is the error, and the only other call made was the stop of that
    very server. *)
Theorem NewTestInstance_failure_leaves_nothing (env : Env) (name : string)
    (cb : testutil.ServerConfigCallback) (w : World) (e : error) (w' : World) :
  Instance.NewTestInstance env name cb w = Returns (inr e) w' ->
  let conf := cb (defaultServerConfig env) in
  instance_store w' = instance_store w /\
  cluster_store w' = cluster_store w /\
  ((startServer env (events w) conf = inr e /\
    events w' = events w ++ [EvNewTestServer conf]) \/
   (exists a srv,
      startServer env (events w) conf = inl a /\
      newClient env (http_addr a) = inr e /\
      testutil.Config srv = conf /\
      testutil.HTTPAddr srv = http_addr a /\
      events w' = events w ++ [EvNewTestServer conf; EvServerStop srv])).
Proof.
  unfold Instance.NewTestInstance, NewTestServerConfig, api_NewClient, server_Stop,
    new_instance, bind, history, record, ret. simpl.
  destruct (startServer env (events w) (cb (defaultServerConfig env))) as [a|e0] eqn:Hs;
    simpl.
  - destruct (newClient env (http_addr a)) as [client|e0] eqn:Hc; simpl.
    + discriminate.
    + intros H. injection H as <- <-. simpl. split; [reflexivity|]. split; [reflexivity|].
      right. eexists. eexists. split; [reflexivity|]. split; [exact Hc|].
      split; [|split]; [| |now rewrite <- app_assoc]; reflexivity.
  - intros H. injection H as <- <-. simpl. auto.
Qed.

Lemma NewTestInstance_failure_leaves_nothing_witness :
  let w' := world_after (Instance.NewTestInstance env_client_fails "s1" (fun c => c))
              empty_world in
  Instance.NewTestInstance env_client_fails "s1" (fun c => c) empty_world
  = Returns (inr (ErrExternal "bad address")) w' /\
  instance_store w' = instance_store empty_world.
Proof.
  intros w'.
  assert (H : Instance.NewTestInstance env_client_fails "s1" (fun c => c) empty_world
              = Returns (inr (ErrExternal "bad address")) w')
    by (vm_compute; reflexivity).
  split; [exact H|].
  exact (proj1 (NewTestInstance_failure_leaves_nothing env_client_fails "s1"
                  (fun c => c) empty_world _ w' H)).
Defined.

(** X4: when [NewTestInstance] succeeds, the instance is a new object,
    every other object is as before, and the only call made is the start
    of one server.  The instance has the given name, is not stopped, its
    address accessors return what the started server reported, its client
    is the one built for the server's HTTP address, and its configuration
    is the one the callback made of the default; the accessors leave the
    state as it is. *)
Theorem NewTestInstance_success (env : Env) (name : string)
    (cb : testutil.ServerConfigCallback) (w : World) (ti : loc) (w' : World) :
  Instance.NewTestInstance env name cb w = Returns (inl ti) w' ->
  let conf := cb (defaultServerConfig env) in
  ~ allocated w ti /\
  (forall l, l <> ti -> instance_store w' !! l = instance_store w !! l) /\
  cluster_store w' = cluster_store w /\
  events w' = events w ++ [EvNewTestServer conf] /\
  exists a client,
    startServer env (events w) conf = inl a /\
    newClient env (http_addr a) = inl client /\
    Instance.Name ti w' = Returns name w' /\
    Instance.Stopped ti w' = Returns false w' /\
    Instance.HTTPAddr ti w' = Returns (http_addr a) w' /\
    Instance.HTTPSAddr ti w' = Returns (https_addr a) w' /\
    Instance.LANAddr ti w' = Returns (lan_addr a) w' /\
    Instance.WANAddr ti w' = Returns (wan_addr a) w' /\
    Instance.APIClient ti w' = Returns (Some client) w' /\
    Instance.Config ti w' = Returns conf w'.
Proof.
  unfold Instance.NewTestInstance, NewTestServerConfig, api_NewClient, server_Stop,
    new_instance, bind, history, record, ret. simpl.
  destruct (startServer env (events w) (cb (defaultServerConfig env))) as [a|e0] eqn:Hs;
    simpl; [|discriminate].
  destruct (newClient env (http_addr a)) as [client|e0] eqn:Hc; simpl; [|discriminate].
  intros H. injection H as <- <-. simpl.
  split; [unfold allocated; rewrite <- elem_of_dom; apply is_fresh|].
  split; [intros l Hl; now apply lookup_insert_ne|].
  split; [reflexivity|]. split; [reflexivity|].
  exists a, client. split; [reflexivity|]. split; [exact Hc|].
  unfold Instance.Name, Instance.Stopped, Instance.HTTPAddr, Instance.HTTPSAddr,
    Instance.LANAddr, Instance.WANAddr, Instance.APIClient, Instance.Config,
    Instance.live_server, bind, get_instance, ret. simpl.
  rewrite lookup_insert_eq. simpl. repeat split.
Qed.

Lemma NewTestInstance_success_witness :
  Instance.NewTestInstance env_stop_fails "s1" (fun c => c) empty_world
  = Returns (inl 0%nat) world_s1 /\
  Instance.LANAddr 0%nat world_s1 = Returns "lan:0" world_s1.
Proof.
  assert (H : Instance.NewTestInstance env_stop_fails "s1" (fun c => c) empty_world
              = Returns (inl 0%nat) world_s1) by (vm_compute; reflexivity).
  split; [exact H|].
  destruct (NewTestInstance_success env_stop_fails "s1" (fun c => c) empty_world
              0%nat world_s1 H) as [_ [_ [_ [_ [a [client [Ha [_ [_ [_ [_ [_ [Hlan _]]]]]]]]]]]]].
  simpl in Ha. injection Ha as <-. exact Hlan.
Defined.

(** ** The order and the result of a cluster stop *)

Section ClusterStopTrace.
Context (env : Env).

Lemma live_servers_cons w ti tis :
  live_servers w (ti :: tis)
  = match server_of w ti with
    | Some srv => srv :: live_servers w tis
    | None => live_servers w tis
    end.
Proof. unfold live_servers. simpl. destruct (server_of w ti); reflexivity. Qed.

Lemma live_servers_same w w' tis :
  (forall l, l ∈ tis -> instance_store w' !! l = instance_store w !! l) ->
  live_servers w' tis = live_servers w tis.
Proof.
  intros H. unfold live_servers. apply list_omap_ext.
  induction tis as [|ti tis IH]; constructor.
  - unfold server_of. rewrite H by left. reflexivity.
  - apply IH. intros l Hl. apply H. now right.
Qed.

(** The loop of [stop] over the first [k] members, when these are
    distinct objects: the servers of the live ones are stopped from the
    last to the first, and the non-nil answers are added in that order. *)
Lemma stop_loop_trace (cl : loc) (c : TestCluster) (k : nat) :
  forall (err : MultiErr.t) (w : World),
    cluster_store w !! cl = Some c ->
    (k <= length (cl_instances c))%nat ->
    Forall (allocated w) (cl_instances c) ->
    NoDup (cl_instances c) ->
    let srvs := live_servers w (reverse (take k (cl_instances c))) in
    exists w',
      Cluster.stop_loop env cl k err w
      = Returns (foldl MultiErr.Add err (stop_answers env (events w) srvs)) w' /\
      events w' = events w ++ (EvServerStop <$> srvs) /\
      cluster_store w' = cluster_store w.
Proof.
  induction k as [|i IH]; intros err w Hc Hk Hall Hnd srvs.
  - exists w. subst srvs. simpl. rewrite app_nil_r. auto.
  - destruct (lookup_lt_is_Some_2 (cl_instances c) i) as [ti Hti]; [lia|].
    assert (Hal : allocated w ti).
    { rewrite Forall_forall in Hall. apply Hall. apply list_elem_of_lookup. eauto. }
    assert (Hrev : reverse (take (S i) (cl_instances c))
                   = ti :: reverse (take i (cl_instances c))).
    { rewrite (take_S_r _ _ _ Hti), reverse_app. reflexivity. }
    assert (Hnotin : forall l, l ∈ reverse (take i (cl_instances c)) -> l <> ti).
    { intros l Hl ->. rewrite elem_of_reverse in Hl.
      apply list_elem_of_lookup in Hl as [j Hj].
      apply lookup_take_Some in Hj as [Hj Hlt].
      pose proof (NoDup_lookup _ _ _ _ Hnd Hj Hti). lia. }
    subst srvs. rewrite Hrev, live_servers_cons.
    destruct Hal as [inst Hinst].
    assert (Hso : server_of w ti = ti_server inst) by (unfold server_of; now rewrite Hinst).
    rewrite !Hso.
    destruct (ti_server inst) as [srv|] eqn:Hsrv.
    + pose proof (Stop_live env w ti inst srv Hinst Hsrv) as Hstop.
      destruct (IH (MultiErr.Add err (stopServer env (events w) srv))
                  (stopped_world w ti inst srv)) as [w' [Hloop [Hev Hcs]]];
        try assumption; [lia| |].
      * eapply Forall_impl; [exact Hall|]. intros l [x Hx]. unfold allocated. simpl.
        destruct (decide (ti = l)) as [->|Hne];
          [rewrite lookup_insert_eq|rewrite lookup_insert_ne by assumption]; eauto.
      * rewrite (live_servers_same w (stopped_world w ti inst srv)) in Hloop, Hev.
        -- exists w'. split; [|split].
           ++ simpl. unfold bind at 1. rewrite (get_cluster_some _ _ _ Hc).
              unfold bind at 1. rewrite (index_in_range _ _ _ _ Hti).
              unfold bind at 1. rewrite Hstop. exact Hloop.
           ++ rewrite Hev. simpl. now rewrite <- app_assoc.
           ++ exact Hcs.
        -- intros l Hl. simpl. apply lookup_insert_ne. intros <-. now apply (Hnotin ti).
        -- intros l Hl. simpl. apply lookup_insert_ne. intros <-. now apply (Hnotin ti).
    + pose proof (Stop_defunct env w ti inst Hinst Hsrv) as Hstop.
      destruct (IH err w) as [w' [Hloop [Hev Hcs]]]; try assumption; [lia|].
      exists w'. split; [|split]; [|assumption|assumption].
      simpl. unfold bind at 1. rewrite (get_cluster_some _ _ _ Hc).
      unfold bind at 1. rewrite (index_in_range _ _ _ _ Hti).
      unfold bind at 1. rewrite Hstop. exact Hloop.
Qed.

End ClusterStopTrace.

(** X5: [Stop] on a cluster that is not stopped and whose members are
    distinct objects returns and makes exactly these calls: the stop of
    the server of each member that is still live, from the last member
    to the first; a member that was stopped before is not stopped again.
    The result is nil when none of these stops reported an error, and
    otherwise the composite of exactly the errors they reported, in that
    order.  The cluster is marked stopped afterwards when it has at least
    one member; a cluster without members is left as it was, not marked
    stopped, no call being made. *)
Theorem Cluster_Stop_tail_first (env : Env) (w : World) (cl : loc) (c : TestCluster) :
  cluster_store w !! cl = Some c ->
  cl_stopped c = false ->
  Forall (allocated w) (cl_instances c) ->
  NoDup (cl_instances c) ->
  let srvs := live_servers w (reverse (cl_instances c)) in
  let errs := omap id (stop_answers env (events w) srvs) in
  exists w',
    Cluster.Stop env cl w
    = Returns (match errs with [] => None | _ => Some (ErrMulti errs) end) w' /\
    events w' = events w ++ (EvServerStop <$> srvs) /\
    Cluster.Stopped cl w'
    = Returns (match cl_instances c with [] => false | _ => true end) w' /\
    (cl_instances c = [] -> w' = w).
Proof.
  intros Hc Hflag Hall Hnd srvs errs.
  destruct (decide (cl_instances c = [])) as [Hempty|Hne].
  { exists w. subst srvs errs. rewrite Hempty. simpl. rewrite app_nil_r.
    split; [|split; [reflexivity|split; [|reflexivity]]].
    - unfold Cluster.Stop. unfold bind at 1. rewrite (get_cluster_some _ _ _ Hc), Hflag.
      unfold Cluster.stop, bind. now rewrite (get_cluster_some _ _ _ Hc), Hempty.
    - now rewrite (Cluster_Stopped_spec _ _ _ Hc), Hflag. }
  destruct (stop_loop_trace env cl c (length (cl_instances c)) MultiErr.NewMultiErr w
              Hc (le_n _) Hall Hnd) as [w1 [Hloop [Hev Hcs]]].
  rewrite firstn_all in Hloop, Hev. fold srvs in Hloop, Hev.
  assert (Hc1 : cluster_store w1 !! cl = Some c) by now rewrite Hcs.
  set (w' := mkWorld (instance_store w1)
               (<[cl := mkCluster (cl_name c) (cl_size c) (cl_instances c) true]>
                  (cluster_store w1)) (events w1)).
  exists w'. split; [|split; [|split]].
  - unfold Cluster.Stop. unfold bind at 1. rewrite (get_cluster_some _ _ _ Hc), Hflag.
    unfold Cluster.stop. unfold bind at 1. rewrite (get_cluster_some _ _ _ Hc).
    destruct (Z.eqb_spec (Z.of_nat (length (cl_instances c))) 0) as [E|_].
    { destruct (cl_instances c); [congruence|simpl in E; lia]. }
    rewrite Nat2Z.id. unfold bind at 1. rewrite Hloop.
    unfold bind at 1. rewrite (get_cluster_some _ _ _ Hc1).
    unfold bind, put_cluster. fold w'.
    unfold MultiErr.Size. rewrite MultiErr_foldl_Add. simpl. fold errs.
    destruct errs; reflexivity.
  - exact Hev.
  - unfold Cluster.Stopped, bind, get_cluster. simpl. rewrite lookup_insert_eq. simpl.
    destruct (cl_instances c); [congruence|reflexivity].
  - intros E. contradiction.
Qed.

Lemma Cluster_Stop_tail_first_witness :
  let w := snd registry_example in
  let w' := world_after (Cluster.Stop env_stop_fails 0%nat) w in
  Cluster.Stop env_stop_fails 0%nat w
  = Returns (Some (ErrMulti [ErrExternal "exit status 1"; ErrExternal "exit status 1"])) w' /\
  Cluster.Stopped 0%nat w' = Returns true w'.
Proof.
  intros w w'.
  destruct (Cluster_Stop_tail_first env_stop_fails w 0%nat
              (mkCluster "c1" 2 [1; 2]%nat false)) as [w'' [Hstop [_ [Hst _]]]].
  - vm_compute; reflexivity.
  - reflexivity.
  - repeat constructor; eexists; vm_compute; reflexivity.
  - apply (bool_decide_unpack _). vm_compute. exact I.
  - assert (E : Cluster.Stop env_stop_fails 0%nat w
                = Returns (Some (ErrMulti [ErrExternal "exit status 1";
                                           ErrExternal "exit status 1"])) w')
      by (vm_compute; reflexivity).
    rewrite E in Hstop. apply Returns_inj in Hstop as [_ <-].
    split; [exact E|exact Hst].
Defined.

(** ** Growing a cluster, in full *)

Section ClusterGrowFull.
Context (env : Env).

(** One iteration of the loop of [Grow], whatever it returns. *)
Lemma grow_body_full (cl : loc) (cb : ClusterServerConfigCallback) (offset : Z)
    (c : TestCluster) (w : World) (r : option error) (w' : World) :
  cluster_store w !! cl = Some c ->
  Cluster.grow_body env cl cb offset w = Returns r w' ->
  match r with
  | None =>
      exists ti srv client,
        ~ allocated w ti /\
        instance_store w'
        = <[ti := mkInstance (cl_name c +:+ "-" +:+ fmt_d offset) (Some srv) (Some client)]>
            (instance_store w) /\
        testutil.Config srv = cb (cl_name c) offset (defaultServerConfig env) /\
        cluster_store w' = <[cl := grown c [ti]]> (cluster_store w)
  | Some (ErrGrowCreate nm off e) =>
      nm = cl_name c /\ off = offset /\
      instance_store w' = instance_store w /\ cluster_store w' = cluster_store w
  | Some (ErrGrowJoin nm off e) =>
      nm = cl_name c /\ off = offset /\ cluster_store w' = cluster_store w /\
      exists ti,
        ~ allocated w ti /\
        instance_store w'
        = <[ti := mkInstance (cl_name c +:+ "-" +:+ fmt_d offset) None None]>
            (instance_store w)
  | Some _ => False
  end.
Proof.
  intros Hc H. unfold Cluster.grow_body in H.
  unfold bind at 1 in H. rewrite (get_cluster_some _ _ _ Hc) in H.
  apply bind_inv in H as [r1 [w1 [Hnew H]]].
  apply NewTestInstance_inv in Hnew as [Hcs1 Hr1].
  destruct r1 as [ti|e1].
  - destruct Hr1 as [Hfresh [srv [client0 [Hconf [His1 Hev1]]]]].
    assert (Hc1 : cluster_store w1 !! cl = Some c) by now rewrite Hcs1.
    assert (Hti1 : instance_store w1 !! ti
                   = Some (mkInstance (cl_name c +:+ "-" +:+ fmt_d offset)
                             (Some srv) (Some client0)))
      by (rewrite His1; apply lookup_insert_eq).
    unfold bind at 1 in H. rewrite (get_cluster_some _ _ _ Hc1) in H.
    apply bind_inv in H as [first [w2 [Hidx H]]].
    assert (w2 = w1) as ->.
    { unfold index in Hidx. destruct (0 <? 0); [discriminate|].
      destruct (cl_instances c !! Z.to_nat 0); [|discriminate].
      unfold ret in Hidx. now injection Hidx. }
    apply bind_inv in H as [client [w2 [Hcl H]]].
    assert (w2 = w1) as ->.
    { unfold Instance.APIClient, Instance.live_server, bind, get_instance, raise, ret in Hcl.
      destruct (instance_store w1 !! first) as [i0|]; [|discriminate].
      destruct (ti_server i0); [|discriminate]. now injection Hcl. }
    apply bind_inv in H as [addr [w2 [Haddr H]]].
    unfold Instance.LANAddr, Instance.live_server, bind, get_instance, ret in Haddr.
    rewrite Hti1 in Haddr. simpl in Haddr. injection Haddr as <- <-.
    apply bind_inv in H as [jr [w2 [Hjoin H]]].
    destruct client as [client|]; [|discriminate].
    unfold Agent_Join, bind, history, record, ret in Hjoin. injection Hjoin as <- <-.
    set (w2 := mkWorld (instance_store w1) (cluster_store w1)
                 (events w1 ++ [EvJoin client (testutil.LANAddr srv) false])) in *.
    assert (Hti2 : instance_store w2 !! ti
                   = Some (mkInstance (cl_name c +:+ "-" +:+ fmt_d offset)
                             (Some srv) (Some client0))) by exact Hti1.
    destruct (agentJoin env (events w1) client (testutil.LANAddr srv) false) as [e|].
    + apply bind_inv in H as [rs [w3 [Hstop H]]].
      rewrite (Stop_live env w2 ti _ srv Hti2 eq_refl) in Hstop.
      apply Returns_inj in Hstop as [_ <-].
      unfold ret in H. injection H as <- <-.
      split; [reflexivity|]. split; [reflexivity|]. split; [exact Hcs1|].
      exists ti. split; [assumption|]. simpl. rewrite His1. apply insert_insert_eq.
    + unfold bind at 1 in H.
      assert (Hc2 : cluster_store w2 !! cl = Some c) by exact Hc1.
      rewrite (get_cluster_some _ _ _ Hc2) in H.
      unfold bind, put_cluster, ret in H. injection H as <- <-.
      exists ti, srv, client0. split; [assumption|]. split; [exact His1|].
      split; [exact Hconf|]. simpl. now rewrite Hcs1.
  - unfold ret in H. injection H as <- <-. auto.
Qed.

(** The loop of [Grow], whatever it returns: the new members are distinct
    new objects, live, named after their offsets and configured by the
    callback at their offsets; objects that existed are as they were;
    only a node that failed to join is allocated without being a member,
    and it is defunct; the only errors are those of the two failure sites,
    for the offset that follows the last member. *)
Lemma grow_loop_full (cl : loc) (cb : ClusterServerConfigCallback) (current : Z)
    (k : nat) :
  forall (i : Z) (c : TestCluster) (w : World) (r : option error) (w' : World),
    cluster_store w !! cl = Some c ->
    Z.of_nat (length (cl_instances c)) = current + i ->
    0 <= current -> 0 <= i -> current + i + Z.of_nat k <= 255 ->
    Cluster.grow_loop env cl cb current k i w = Returns r w' ->
    exists news,
      cluster_store w' = <[cl := grown c news]> (cluster_store w) /\
      NoDup news /\
      (forall ti, ti ∈ news -> ~ allocated w ti) /\
      (forall l, allocated w l -> instance_store w' !! l = instance_store w !! l) /\
      (forall (j : nat) ti, news !! j = Some ti ->
         exists srv client,
           instance_store w' !! ti
           = Some (mkInstance (cl_name c +:+ "-" +:+ fmt_d (current + i + Z.of_nat j))
                     (Some srv) (Some client)) /\
           testutil.Config srv
           = cb (cl_name c) (current + i + Z.of_nat j) (defaultServerConfig env)) /\
      (length news <= k)%nat /\
      match r with
      | None =>
          length news = k /\
          (forall l, allocated w' l -> allocated w l \/ l ∈ news)
      | Some (ErrGrowCreate nm off e) =>
          nm = cl_name c /\ off = current + i + Z.of_nat (length news) /\
          (length news < k)%nat /\
          (forall l, allocated w' l -> allocated w l \/ l ∈ news)
      | Some (ErrGrowJoin nm off e) =>
          nm = cl_name c /\ off = current + i + Z.of_nat (length news) /\
          (length news < k)%nat /\
          (forall l, allocated w' l -> allocated w l \/ l ∈ news \/ defunct w' l)
      | Some _ => False
      end.
Proof.
  induction k as [|k IH]; intros i c w r w' Hc Hlen Hcur Hi Hbound H.
  - simpl in H. unfold ret in H. injection H as <- <-.
    exists []. rewrite grown_nil, (insert_id _ _ _ Hc).
    split; [reflexivity|]. split; [constructor|].
    split; [intros ti Hin; inversion Hin|]. split; [auto|].
    split; [intros j ti Hj; discriminate|]. split; [simpl; lia|]. split; auto.
  - simpl in H. apply bind_inv in H as [r1 [w1 [Hbody H]]].
    assert (Hoff : uint8 (uint8 current + i) = current + i)
      by (rewrite (uint8_small current) by lia; apply uint8_small; lia).
    rewrite Hoff in Hbody.
    pose proof (grow_body_full cl cb _ c w r1 w1 Hc Hbody) as Hcase.
    destruct r1 as [err|].
    + unfold ret in H. injection H as <- <-.
      exists []. rewrite grown_nil, (insert_id _ _ _ Hc).
      destruct err; try contradiction.
      * destruct Hcase as [-> [-> [His Hcs]]].
        split; [assumption|]. split; [constructor|].
        split; [intros ti Hin; inversion Hin|].
        split; [intros l _; now rewrite His|].
        split; [intros j ti Hj; discriminate|]. split; [simpl; lia|].
        split; [reflexivity|]. split; [simpl; lia|]. split; [simpl; lia|].
        intros l Hl. left. unfold allocated in *. now rewrite <- His.
      * destruct Hcase as [-> [-> [Hcs [ti [Hfresh His]]]]].
        split; [assumption|]. split; [constructor|].
        split; [intros tj Hin; inversion Hin|].
        split.
        { intros l Hl. rewrite His. apply lookup_insert_ne. intros ->. contradiction. }
        split; [intros j tj Hj; discriminate|]. split; [simpl; lia|].
        split; [reflexivity|]. split; [simpl; lia|]. split; [simpl; lia|].
        intros l Hl. destruct (decide (ti = l)) as [<-|Hne].
        -- right. right. unfold defunct. rewrite His, lookup_insert_eq. eauto.
        -- left. unfold allocated in *. rewrite His, lookup_insert_ne in Hl; assumption.
    + destruct Hcase as [ti [srv [client [Hfresh [His1 [Hconf Hcs1]]]]]].
      assert (Hc1 : cluster_store w1 !! cl = Some (grown c [ti]))
        by (rewrite Hcs1; apply lookup_insert_eq).
      assert (Hal1 : forall l, allocated w1 l <-> l = ti \/ allocated w l).
      { intros l. unfold allocated. rewrite His1.
        destruct (decide (ti = l)) as [<-|Hne].
        - rewrite lookup_insert_eq. split; eauto.
        - rewrite lookup_insert_ne by assumption. split; [auto|].
          intros [->|Hl]; [congruence|assumption]. }
      assert (Hold1 : forall l, allocated w l ->
                instance_store w1 !! l = instance_store w !! l).
      { intros l Hl. rewrite His1. apply lookup_insert_ne. intros ->. contradiction. }
      rewrite (uint8_small (i + 1)) in H by lia.
      destruct (IH (i + 1) (grown c [ti]) w1 r w' Hc1)
        as [news [Hcs' [Hnd [Hnew [Hold' [Hnames [Hle Hres]]]]]]]; try lia; try assumption.
      { simpl. rewrite length_app. simpl. lia. }
      assert (Htinot : ti ∉ news).
      { intros Hin. apply (Hnew ti Hin). apply Hal1. now left. }
      exists (ti :: news).
      split.
      { rewrite Hcs', Hcs1, insert_insert_eq, grown_grown. reflexivity. }
      split; [constructor; assumption|].
      split.
      { intros tj Hin. apply elem_of_cons in Hin as [->|Hin]; [assumption|].
        intros Hal. apply (Hnew tj Hin). apply Hal1. now right. }
      split.
      { intros l Hl. rewrite Hold' by (apply Hal1; now right). now apply Hold1. }
      split.
      { intros [|j] tj Hj; simpl in Hj.
        - injection Hj as <-. exists srv, client.
          replace (current + i + Z.of_nat 0%nat) with (current + i) by lia. split.
          + rewrite Hold' by (apply Hal1; now left).
            rewrite His1, lookup_insert_eq. reflexivity.
          + exact Hconf.
        - destruct (Hnames j tj Hj) as [srv' [client' [Hst Hcf]]].
          exists srv', client'. simpl in Hst, Hcf.
          replace (current + i + Z.of_nat (S j)) with (current + (i + 1) + Z.of_nat j)
            by lia.
          auto. }
      split; [simpl; lia|].
      assert (Hsplit : forall l, allocated w1 l \/ l ∈ news ->
                allocated w l \/ l ∈ ti :: news).
      { intros l [Hl|Hl]; [apply Hal1 in Hl as [->|Hl]|]; auto; right;
          [left|now right]. }
      destruct r as [err|].
      * destruct err; try contradiction.
        -- destruct Hres as [-> [-> [Hlt Hall]]]. simpl.
           split; [reflexivity|]. split; [lia|]. split; [lia|].
           intros l Hl. apply Hsplit. auto.
        -- destruct Hres as [-> [-> [Hlt Hall]]]. simpl.
           split; [reflexivity|]. split; [lia|]. split; [lia|].
           intros l Hl. destruct (Hall l Hl) as [H1|[H1|H1]]; [| |auto].
           ++ destruct (Hsplit l (or_introl H1)); auto.
           ++ destruct (Hsplit l (or_intror H1)); auto.
      * destruct Hres as [Hlen' Hall]. simpl. split; [lia|].
        intros l Hl. apply Hsplit. auto.
Qed.

End ClusterGrowFull.

Section ClusterGrowResults.
Context (env : Env).

(** [Grow], when it returns: the cluster is not stopped, and either the
    bound was exceeded and nothing happened, or the result is that of
    the loop. *)
Lemma Grow_returns_inv (cl : loc) (c : TestCluster) (w : World) (n : Z)
    (cb : ClusterServerConfigCallback) (r : option error) (w' : World) :
  cluster_store w !! cl = Some c ->
  Cluster.Grow env cl n cb w = Returns r w' ->
  let s := Z.of_nat (length (cl_instances c)) in
  cl_stopped c = false /\
  ((s + n > 255 /\ r = Some (ErrCapacity (cl_name c) s n) /\ w' = w) \/
   (s + n <= 255 /\
    Cluster.grow_loop env cl cb s (Z.to_nat n) 0 w = Returns r w')).
Proof.
  intros Hc H s. unfold Cluster.Grow in H. unfold bind at 1 in H.
  rewrite (get_cluster_some _ _ _ Hc) in H.
  destruct (cl_stopped c); [discriminate|]. split; [reflexivity|].
  fold s in H. destruct (Z.gtb_spec (s + n) MaxUint8) as [Hgt|Hle].
  - left. unfold ret in H. injection H as <- <-. unfold MaxUint8 in Hgt.
    split; [lia|auto].
  - right. unfold MaxUint8 in Hle. split; [lia|exact H].
Qed.

Lemma Instance_at (cl : loc) (c : TestCluster) (w : World) (j : nat) (ti : loc) :
  cluster_store w !! cl = Some c -> cl_stopped c = false ->
  cl_instances c !! j = Some ti ->
  Cluster.Instance cl (Z.of_nat j) w = Returns ti w.
Proof.
  intros Hc Hs Hj. unfold Cluster.Instance, bind.
  rewrite (get_cluster_some _ _ _ Hc), Hs. now apply index_in_range.
Qed.

End ClusterGrowResults.

(** X6: when [Grow(n, cb)] returns nil, [Size()] has grown by exactly [n]
    and stays within 255; the former members are at their former indices
    and no object that existed was touched; the member at each new index
    [num] is a new object, not stopped, named "<cluster>-<num>", whose
    server was configured by the callback applied to the cluster name and
    [num]. *)
Theorem Grow_success (env : Env) (w : World) (cl : loc) (c : TestCluster) (n : Z)
    (cb : ClusterServerConfigCallback) (w' : World) :
  cluster_store w !! cl = Some c ->
  0 <= n <= 255 ->
  Cluster.Grow env cl n cb w = Returns None w' ->
  let s := Z.of_nat (length (cl_instances c)) in
  Cluster.Size cl w' = Returns (s + n) w' /\
  s + n <= 255 /\
  (forall num, 0 <= num < s ->
     exists ti, Cluster.Instance cl num w = Returns ti w /\
                Cluster.Instance cl num w' = Returns ti w') /\
  (forall l, allocated w l -> instance_store w' !! l = instance_store w !! l) /\
  (forall num, s <= num < s + n ->
     exists ti,
       Cluster.Instance cl num w' = Returns ti w' /\
       ~ allocated w ti /\
       Instance.Name ti w' = Returns (cl_name c +:+ "-" +:+ fmt_d num) w' /\
       Instance.Stopped ti w' = Returns false w' /\
       Instance.Config ti w'
       = Returns (cb (cl_name c) num (defaultServerConfig env)) w').
Proof.
  intros Hc Hn H s.
  destruct (Grow_returns_inv env cl c w n cb None w' Hc H) as [Hflag [[_ [Hr _]]|[Hfit Hloop]]];
    [discriminate|]. fold s in Hfit, Hloop.
  destruct (grow_loop_full env cl cb s (Z.to_nat n) 0 c w None w' Hc)
    as [news [Hcs [Hnd [Hnew [Hold [Hnames [_ [Hlen _]]]]]]]]; try lia; try assumption.
  assert (Hc' : cluster_store w' !! cl = Some (grown c news))
    by (rewrite Hcs; apply lookup_insert_eq).
  split; [|split; [lia|split; [|split; [assumption|]]]].
  - rewrite (Cluster_Size_spec _ _ _ Hc'). simpl. rewrite length_app. f_equal. lia.
  - intros num Hnum.
    destruct (lookup_lt_is_Some_2 (cl_instances c) (Z.to_nat num)) as [ti Hti];
      [unfold s in Hnum; lia|].
    exists ti. rewrite <- (Z2Nat.id num) by lia. split.
    + now apply (Instance_at cl c).
    + apply (Instance_at cl (grown c news)); [assumption|assumption|].
      simpl. now apply lookup_app_l_Some.
  - intros num Hnum.
    destruct (lookup_lt_is_Some_2 news (Z.to_nat (num - s))) as [ti Hti]; [lia|].
    destruct (Hnames _ _ Hti) as [srv [client [Hst Hconf]]].
    replace (s + 0 + Z.of_nat (Z.to_nat (num - s))) with num in Hst, Hconf by lia.
    exists ti. split; [|split].
    + rewrite <- (Z2Nat.id num) by lia.
      apply (Instance_at cl (grown c news)); [assumption|assumption|].
      simpl. rewrite lookup_app_r by (unfold s in Hnum; lia).
      rewrite <- Hti. f_equal. unfold s. lia.
    + apply Hnew. apply list_elem_of_lookup. eauto.
    + unfold Instance.Name, Instance.Stopped, Instance.Config, Instance.live_server,
        bind, get_instance, ret. rewrite Hst. simpl. rewrite Hconf. auto.
Qed.

Lemma Grow_success_witness :
  let w' := world_after (Cluster.Grow env_ok 0%nat 2 DefaultClusterServerConfigCallback)
              world_c3 in
  Cluster.Grow env_ok 0%nat 2 DefaultClusterServerConfigCallback world_c3
  = Returns None w' /\
  Cluster.Size 0%nat w' = Returns (3 + 2) w'.
Proof.
  intros w'.
  assert (H : Cluster.Grow env_ok 0%nat 2 DefaultClusterServerConfigCallback world_c3
              = Returns None w') by (vm_compute; reflexivity).
  split; [exact H|].
  refine (proj1 (Grow_success env_ok world_c3 0%nat (mkCluster "c1" 3 [0; 1; 2]%nat false)
                   2 DefaultClusterServerConfigCallback w' _ _ H)).
  - vm_compute; reflexivity.
  - lia.
Defined.

(** X7: when [Grow(n, cb)] returns the error of a node whose creation
    failed, that node is the one at offset [Size()] after the call, which
    lies between the former size and the former size plus [n]; the nodes
    added before it are members, and nothing else was left behind: every
    object that exists afterwards existed before or is a member. *)
Theorem Grow_creation_failure (env : Env) (w : World) (cl : loc) (c : TestCluster) (n : Z)
    (cb : ClusterServerConfigCallback) (nm : string) (off : Z) (e : error) (w' : World) :
  cluster_store w !! cl = Some c ->
  0 <= n <= 255 ->
  Cluster.Grow env cl n cb w = Returns (Some (ErrGrowCreate nm off e)) w' ->
  let s := Z.of_nat (length (cl_instances c)) in
  nm = cl_name c /\
  s <= off < s + n /\
  Cluster.Size cl w' = Returns off w' /\
  (forall l, allocated w l -> instance_store w' !! l = instance_store w !! l) /\
  (forall l, allocated w' l ->
     allocated w l \/ exists num, Cluster.Instance cl num w' = Returns l w').
Proof.
  intros Hc Hn H s.
  destruct (Grow_returns_inv env cl c w n cb _ w' Hc H) as [Hflag [[_ [Hr _]]|[Hfit Hloop]]];
    [discriminate|]. fold s in Hfit, Hloop.
  destruct (grow_loop_full env cl cb s (Z.to_nat n) 0 c w
              (Some (ErrGrowCreate nm off e)) w' Hc)
    as [news [Hcs [Hnd [Hnew [Hold [Hnames [_ [-> [-> [Hlt Hall]]]]]]]]]];
    try lia; try assumption.
  assert (Hc' : cluster_store w' !! cl = Some (grown c news))
    by (rewrite Hcs; apply lookup_insert_eq).
  split; [reflexivity|]. split; [lia|]. split; [|split; [assumption|]].
  - rewrite (Cluster_Size_spec _ _ _ Hc'). simpl. rewrite length_app. f_equal. unfold s. lia.
  - intros l Hl. destruct (Hall l Hl) as [H1|H1]; [now left|right].
    apply list_elem_of_lookup in H1 as [j Hj].
    exists (Z.of_nat (length (cl_instances c) + j)).
    apply (Instance_at cl (grown c news)); [assumption|assumption|].
    simpl. rewrite lookup_app_r by lia. rewrite <- Hj. f_equal. lia.
Qed.

Lemma Grow_creation_failure_witness :
  let env := env_start_fails 7 in
  let w' := world_after (Cluster.Grow env 0%nat 2 DefaultClusterServerConfigCallback)
              world_c3 in
  Cluster.Grow env 0%nat 2 DefaultClusterServerConfigCallback world_c3
  = Returns (Some (ErrGrowCreate "c1" 4 (ErrExternal "no free port"))) w' /\
  Cluster.Size 0%nat w' = Returns 4 w'.
Proof.
  intros env w'.
  assert (H : Cluster.Grow env 0%nat 2 DefaultClusterServerConfigCallback world_c3
              = Returns (Some (ErrGrowCreate "c1" 4 (ErrExternal "no free port"))) w')
    by (vm_compute; reflexivity).
  split; [exact H|].
  refine (proj1 (proj2 (proj2 (Grow_creation_failure env world_c3 0%nat
                                 (mkCluster "c1" 3 [0; 1; 2]%nat false) 2
                                 DefaultClusterServerConfigCallback "c1" 4
                                 (ErrExternal "no free port") w' _ _ H)))).
  - vm_compute; reflexivity.
  - lia.
Defined.

(** X8: whatever [Grow(n, cb)] returns on a cluster of at most 255
    members, it has only appended: the cluster keeps its name and its
    flag, its former members stay in place followed by at most [n] new
    ones, all [n] of them exactly when the result is nil; [Size()] stays
    within 255; no other cluster and no object that existed is touched;
    and an error is one of the three that [Grow] builds, for this
    cluster. *)
Theorem Grow_only_appends (env : Env) (w : World) (cl : loc) (c : TestCluster) (n : Z)
    (cb : ClusterServerConfigCallback) (r : option error) (w' : World) :
  cluster_store w !! cl = Some c ->
  Z.of_nat (length (cl_instances c)) <= 255 ->
  0 <= n <= 255 ->
  Cluster.Grow env cl n cb w = Returns r w' ->
  let s := Z.of_nat (length (cl_instances c)) in
  exists news,
    cluster_store w' = <[cl := grown c news]> (cluster_store w) /\
    Z.of_nat (length news) <= n /\
    (r = None <-> Z.of_nat (length news) = n) /\
    s + Z.of_nat (length news) <= 255 /\
    (forall l, allocated w l -> instance_store w' !! l = instance_store w !! l) /\
    match r with
    | None => True
    | Some (ErrCapacity nm cur k) => nm = cl_name c /\ cur = s /\ k = n /\ w' = w
    | Some (ErrGrowCreate nm off _) | Some (ErrGrowJoin nm off _) =>
        nm = cl_name c /\ off = s + Z.of_nat (length news)
    | Some _ => False
    end.
Proof.
  intros Hc Hs Hn H s.
  destruct (Grow_returns_inv env cl c w n cb r w' Hc H)
    as [Hflag [[Hover [-> ->]]|[Hfit Hloop]]]; fold s in Hover || fold s in Hfit, Hloop.
  - exists []. rewrite grown_nil, (insert_id _ _ _ Hc). simpl.
    split; [reflexivity|]. split; [lia|]. split; [split; [discriminate|lia]|].
    split; [lia|]. split; auto.
  - destruct (grow_loop_full env cl cb s (Z.to_nat n) 0 c w r w' Hc)
      as [news [Hcs [_ [_ [Hold [_ [Hle Hres]]]]]]]; try lia; try assumption.
    exists news. split; [assumption|]. split; [lia|].
    split; [|split; [lia|split; [assumption|]]].
    + destruct r as [err|].
      * split; [discriminate|]. intros Hlen.
        destruct err; try contradiction; destruct Hres as [_ [_ [Hlt _]]]; lia.
      * destruct Hres as [Hlen _]. split; [lia|reflexivity].
    + destruct r as [err|]; [|exact I].
      destruct err; try contradiction; destruct Hres as [-> [-> _]]; split; auto; lia.
Qed.

Lemma Grow_only_appends_witness :
  let env := env_start_fails 7 in
  let w' := world_after (Cluster.Grow env 0%nat 2 DefaultClusterServerConfigCallback)
              world_c3 in
  exists news,
    cluster_store w'
    = <[0%nat := grown (mkCluster "c1" 3 [0; 1; 2]%nat false) news]>
        (cluster_store world_c3) /\
    Z.of_nat (length news) <= 2.
Proof.
  intros env w'.
  assert (H : Cluster.Grow env 0%nat 2 DefaultClusterServerConfigCallback world_c3
              = Returns (Some (ErrGrowCreate "c1" 4 (ErrExternal "no free port"))) w')
    by (vm_compute; reflexivity).
  destruct (Grow_only_appends env world_c3 0%nat (mkCluster "c1" 3 [0; 1; 2]%nat false)
              2 DefaultClusterServerConfigCallback
              (Some (ErrGrowCreate "c1" 4 (ErrExternal "no free port"))) w')
    as [news [Hcs [Hle _]]].
  - vm_compute; reflexivity.
  - simpl. lia.
  - lia.
  - exact H.
  - exists news. split; assumption.
Defined.

Section GrowLeak.
Context (env : Env).

Lemma NewTestInstance_ok (name : string) (cb : testutil.ServerConfigCallback)
    (w : World) (a : Addresses) (client : api.Client) :
  startServer env (events w) (cb (defaultServerConfig env)) = inl a ->
  newClient env (http_addr a) = inl client ->
  exists ti srv w',
    Instance.NewTestInstance env name cb w = Returns (inl ti) w' /\
    ~ allocated w ti /\
    instance_store w' = <[ti := mkInstance name (Some srv) (Some client)]> (instance_store w) /\
    cluster_store w' = cluster_store w /\
    events w' = events w ++ [EvNewTestServer (cb (defaultServerConfig env))].
Proof.
  intros Hs Hc.
  unfold Instance.NewTestInstance, NewTestServerConfig, api_NewClient, server_Stop,
    new_instance, bind, history, record, ret. simpl. rewrite Hs. simpl. rewrite Hc. simpl.
  eexists. eexists. eexists. split; [reflexivity|]. simpl.
  split; [unfold allocated; rewrite <- elem_of_dom; apply is_fresh|].
  split; [reflexivity|]. split; reflexivity.
Qed.

End GrowLeak.

(** X9: [Grow] creates the next node before it asks member 0 for its
    client.  So on a cluster that is not stopped, within the bound and
    asked to grow by at least one, when the cluster has no member, or when
    member 0 was stopped through its own handle, a server that starts and
    gets its client is started and then [Grow] panics, with an index out
    of range or with the defunct message of member 0: the new instance is
    live and is not a member, the cluster is as it was, and the start of
    that server is the only call made. *)
Theorem Grow_panics_after_starting_a_server (env : Env) (w : World) (cl : loc)
    (c : TestCluster) (n : Z) (cb : ClusterServerConfigCallback)
    (a : Addresses) (client : api.Client) (p : panic) :
  cluster_store w !! cl = Some c ->
  cl_stopped c = false ->
  Forall (allocated w) (cl_instances c) ->
  let s := Z.of_nat (length (cl_instances c)) in
  let conf := cb (cl_name c) s (defaultServerConfig env) in
  1 <= n <= 255 -> s + n <= 255 ->
  startServer env (events w) conf = inl a ->
  newClient env (http_addr a) = inl client ->
  (cl_instances c = [] /\ p = IndexOutOfRange 0 0) \/
  (exists first i0, cl_instances c !! 0%nat = Some first /\
                    instance_store w !! first = Some i0 /\
                    ti_server i0 = None /\ p = InstanceDefunct (ti_name i0)) ->
  exists ti w',
    Cluster.Grow env cl n cb w = Panics p w' /\
    ~ allocated w ti /\
    (ti ∉ cl_instances c) /\
    Instance.Stopped ti w' = Returns false w' /\
    Instance.Name ti w' = Returns (cl_name c +:+ "-" +:+ fmt_d s) w' /\
    cluster_store w' = cluster_store w /\
    events w' = events w ++ [EvNewTestServer conf].
Proof.
  intros Hc Hflag Hall s conf Hn Hfit Hstart Hclient Hbad.
  destruct (NewTestInstance_ok env (cl_name c +:+ "-" +:+ fmt_d s)
              (fun cf => cb (cl_name c) s cf) w a client Hstart Hclient)
    as [ti [srv [w1 [Hnew [Hfresh [His [Hcs Hev]]]]]]].
  assert (Hc1 : cluster_store w1 !! cl = Some c) by now rewrite Hcs.
  exists ti, w1. split; [|split; [assumption|split; [|split; [|split; [|split]]]]].
  - rewrite (Grow_is_loop env cl c w n cb Hc Hflag) by (fold s; lia).
    destruct (Z.to_nat n) as [|k] eqn:Hk; [lia|]. fold s.
    cbn [Cluster.grow_loop].
    assert (Hoff : uint8 (uint8 s + 0) = s).
    { unfold uint8. rewrite Z.add_0_r, Z.mod_mod by lia.
      apply Z.mod_small. unfold s. lia. }
    rewrite Hoff. unfold bind at 1. unfold Cluster.grow_body.
    unfold bind at 1. rewrite (get_cluster_some _ _ _ Hc).
    unfold bind at 1. rewrite Hnew.
    unfold bind at 1. rewrite (get_cluster_some _ _ _ Hc1).
    destruct Hbad as [[Hnil ->]|[first [i0 [H0 [Hi0 [Hsrv ->]]]]]].
    + unfold bind at 1. rewrite Hnil. reflexivity.
    + unfold bind at 1. rewrite (index_in_range _ 0 _ _ H0).
      unfold bind at 1.
      assert (Hf1 : instance_store w1 !! first = Some i0).
      { rewrite His, lookup_insert_ne; [assumption|].
        intros ->. apply Hfresh. unfold allocated. rewrite Hi0. eauto. }
      unfold Instance.APIClient, Instance.live_server, bind, get_instance, raise.
      rewrite Hf1, Hsrv. reflexivity.
  - intros Hin. apply Hfresh. rewrite Forall_forall in Hall. auto.
  - unfold Instance.Stopped, bind, get_instance, ret.
    rewrite His, lookup_insert_eq. reflexivity.
  - unfold Instance.Name, bind, get_instance, ret.
    rewrite His, lookup_insert_eq. reflexivity.
  - exact Hcs.
  - exact Hev.
Qed.

Lemma Grow_panics_after_starting_a_server_witness :
  let w := world_c3_first_stopped in
  let w' := world_after (Cluster.Grow env_ok 0%nat 1 DefaultClusterServerConfigCallback) w in
  Cluster.Grow env_ok 0%nat 1 DefaultClusterServerConfigCallback w
  = Panics (InstanceDefunct "c1-0") w' /\
  Instance.Stopped 3%nat w' = Returns false w'.
Proof.
  intros w w'.
  destruct (Grow_panics_after_starting_a_server env_ok w 0%nat
              (mkCluster "c1" 3 [0; 1; 2]%nat false) 1
              DefaultClusterServerConfigCallback (addresses_of 6)
              (api.ClientOf "http:6") (InstanceDefunct "c1-0"))
    as [ti [w'' [Hgrow [_ [_ [Hst _]]]]]].
  - vm_compute; reflexivity.
  - reflexivity.
  - repeat constructor; eexists; vm_compute; reflexivity.
  - lia.
  - simpl. lia.
  - vm_compute; reflexivity.
  - reflexivity.
  - right. exists 0%nat, (mkInstance "c1-0" None None).
    split; [reflexivity|]. split; [vm_compute; reflexivity|]. split; reflexivity.
  - assert (E : Cluster.Grow env_ok 0%nat 1 DefaultClusterServerConfigCallback w
                = Panics (InstanceDefunct "c1-0") w') by (vm_compute; reflexivity).
    split; [exact E|].
    vm_compute; reflexivity.
Defined.

(** ** Shrinking, in general and at the edges *)

(** X10: on a cluster of [s] members, [1 <= s <= 255], whose members are
    distinct objects, [Shrink(n)] with [0 <= n <= s] returns, whatever
    the stops of the removed members reported and whether or not the
    cluster is stopped: [Size()] becomes [s - n], the flag is as before,
    the first [s - n] members stay at their indices, and none of them is
    touched: a member that survives is never stopped by [Shrink]. *)
Theorem Shrink_keeps_the_first_members (env : Env) (w : World) (cl : loc)
    (c : TestCluster) (n : Z) :
  cluster_store w !! cl = Some c ->
  let s := Z.of_nat (length (cl_instances c)) in
  1 <= s <= 255 ->
  0 <= n <= s ->
  Forall (allocated w) (cl_instances c) ->
  NoDup (cl_instances c) ->
  exists r w' c',
    Cluster.Shrink env cl n w = Returns r w' /\
    cluster_store w' !! cl = Some c' /\
    cl_name c' = cl_name c /\
    Cluster.Size cl w' = Returns (s - n) w' /\
    Cluster.Stopped cl w' = Returns (cl_stopped c) w' /\
    forall (j : nat) ti,
      Z.of_nat j < s - n -> cl_instances c !! j = Some ti ->
      cl_instances c' !! j = Some ti /\
      instance_store w' !! ti = instance_store w !! ti.
Proof.
  intros Hc s Hs Hn Hall Hnd.
  destruct (Shrink_truncates env cl c w n Hc Hs Hn Hall) as [r [w' [Hshrink [Hc' Hkeep]]]].
  fold s in Hc', Hkeep.
  set (c' := mkCluster (cl_name c) (cl_size c)
               (take (Z.to_nat (s - n)) (cl_instances c)) (cl_stopped c)) in *.
  exists r, w', c'. split; [assumption|]. split; [assumption|]. split; [reflexivity|].
  split; [|split].
  - rewrite (Cluster_Size_spec _ _ _ Hc'). simpl. rewrite length_take. f_equal. unfold s. lia.
  - now rewrite (Cluster_Stopped_spec _ _ _ Hc').
  - intros j ti Hj Hti. split.
    + simpl. rewrite lookup_take_lt by lia. assumption.
    + apply Hkeep. intros j' Hj' Hti'.
      pose proof (NoDup_lookup _ _ _ _ Hnd Hti Hti'). lia.
Qed.

Lemma Shrink_keeps_the_first_members_witness :
  exists r w',
    Cluster.Shrink env_ok 0%nat 2 world_c3 = Returns r w' /\
    Cluster.Size 0%nat w' = Returns (3 - 2) w' /\
    instance_store w' !! 0%nat = instance_store world_c3 !! 0%nat.
Proof.
  destruct (Shrink_keeps_the_first_members env_ok world_c3 0%nat
              (mkCluster "c1" 3 [0; 1; 2]%nat false) 2)
    as [r [w' [c' [Hshrink [_ [_ [Hsize [_ Hkeep]]]]]]]].
  - vm_compute; reflexivity.
  - simpl. lia.
  - simpl. lia.
  - repeat constructor; eexists; vm_compute; reflexivity.
  - apply (bool_decide_unpack _). vm_compute. exact I.
  - exists r, w'. split; [exact Hshrink|]. split; [exact Hsize|].
    apply (Hkeep 0%nat 0%nat); [simpl; lia|reflexivity].
Defined.

(** X11: the edges of [Shrink].  On a cluster with no member, [Shrink(0)]
    panics with an index out of range, the index being 255, that is
    [uint8(l - 1)] for [l = 0], while [Shrink(n)] for [n >= 1] returns nil
    and changes nothing.  On a cluster with members, [Shrink(0)] returns
    nil and changes nothing. *)
Theorem Shrink_edges (env : Env) (w : World) (cl : loc) (c : TestCluster) :
  cluster_store w !! cl = Some c ->
  (cl_instances c = [] ->
     Cluster.Shrink env cl 0 w = Panics (IndexOutOfRange 255 0) w /\
     forall n, 1 <= n <= 255 -> Cluster.Shrink env cl n w = Returns None w) /\
  (1 <= Z.of_nat (length (cl_instances c)) <= 255 ->
     Cluster.Shrink env cl 0 w = Returns None w).
Proof.
  intros Hc. split.
  - intros Hnil. split.
    + unfold Cluster.Shrink. unfold bind at 1. rewrite (get_cluster_some _ _ _ Hc), Hnil.
      change (Z.of_nat (length (@nil loc))) with 0.
      change (0 >? uint8 0) with false. cbv iota.
      change (Z.to_nat (uint8 (0 - 1))) with 255%nat.
      change (Z.to_nat (uint8 (uint8 0 - 0))) with 0%nat.
      unfold bind at 1. cbn [Cluster.shrink_loop].
      change (0 <? 255)%nat with true. cbv iota.
      unfold bind at 1. rewrite (get_cluster_some _ _ _ Hc), Hnil. reflexivity.
    + intros n Hn. unfold Cluster.Shrink. unfold bind at 1.
      rewrite (get_cluster_some _ _ _ Hc), Hnil.
      change (Z.of_nat (length (@nil loc))) with 0. change (uint8 0) with 0.
      destruct (Z.gtb_spec n 0) as [_|Hle]; [|lia].
      unfold Cluster.stop, bind. rewrite (get_cluster_some _ _ _ Hc), Hnil. reflexivity.
  - intros Hs. set (l := length (cl_instances c)) in *.
    unfold Cluster.Shrink. unfold bind at 1. rewrite (get_cluster_some _ _ _ Hc). fold l.
    rewrite (uint8_small (Z.of_nat l)) by lia.
    destruct (Z.gtb_spec 0 (Z.of_nat l)) as [Hgt|_]; [lia|].
    rewrite Z.sub_0_r, (uint8_small (Z.of_nat l)), (uint8_small (Z.of_nat l - 1)) by lia.
    rewrite Nat2Z.id.
    assert (Hloop : forall err w0,
               Cluster.shrink_loop env cl (Z.to_nat (Z.of_nat l - 1)) l err w0
               = Returns err w0).
    { intros err w0. destruct (Z.to_nat (Z.of_nat l - 1)) as [|i] eqn:Hi; [reflexivity|].
      cbn [Cluster.shrink_loop].
      destruct (Nat.ltb_spec l (S i)) as [Hlt|_]; [lia|reflexivity]. }
    unfold bind at 1. rewrite Hloop.
    unfold bind at 1. rewrite (get_cluster_some _ _ _ Hc).
    unfold bind, put_cluster, ret. unfold l. rewrite firstn_all.
    destruct (MultiErr.Size MultiErr.NewMultiErr >? 0) eqn:E; [discriminate E|].
    f_equal. destruct w as [ist cst ev]. simpl in *. f_equal.
    apply insert_id. rewrite Hc. destruct c; reflexivity.
Qed.

Lemma Shrink_edges_witness :
  Cluster.Shrink env_ok 0%nat 0 world_shrunk_to_zero
  = Panics (IndexOutOfRange 255 0) world_shrunk_to_zero /\
  Cluster.Shrink env_ok 0%nat 0 world_c3 = Returns None world_c3.
Proof.
  split.
  - apply (Shrink_edges env_ok world_shrunk_to_zero 0%nat (mkCluster "c1" 1 [] false)).
    + vm_compute; reflexivity.
    + reflexivity.
  - apply (Shrink_edges env_ok world_c3 0%nat (mkCluster "c1" 3 [0; 1; 2]%nat false)).
    + vm_compute; reflexivity.
    + simpl. lia.
Defined.

(** ** The whole of [NewTestCluster] *)

Section NewClusterFull.
Context (env : Env).

(** The unwinding loop of [NewTestCluster] stops the first [k] members and
    nothing else. *)
Lemma unwind_loop_spec (cl : loc) (c : TestCluster) (k : nat) :
  forall (w : World),
    cluster_store w !! cl = Some c ->
    (k <= length (cl_instances c))%nat ->
    Forall (allocated w) (cl_instances c) ->
    exists w',
      Cluster.unwind_loop env cl k w = Returns tt w' /\
      cluster_store w' = cluster_store w /\
      (forall l, allocated w' l <-> allocated w l) /\
      (forall l, defunct w l -> defunct w' l) /\
      (forall i ti, (i < k)%nat -> cl_instances c !! i = Some ti -> defunct w' ti) /\
      (forall l, l ∉ cl_instances c -> instance_store w' !! l = instance_store w !! l).
Proof.
  induction k as [|i IH]; intros w Hc Hk Hall.
  - exists w. repeat split; auto. intros i ti Hi. lia.
  - destruct (lookup_lt_is_Some_2 (cl_instances c) i) as [ti Hti]; [lia|].
    assert (Hin : ti ∈ cl_instances c) by (apply list_elem_of_lookup; eauto).
    assert (Hal : allocated w ti) by (rewrite Forall_forall in Hall; auto).
    destruct (Stop_effect env w ti Hal)
      as [r [w1 [Hstop [Hcs [Hdef [Hmono [Hdmono Hother]]]]]]].
    assert (Hback : forall l, allocated w1 l -> allocated w l).
    { intros l Hl. destruct (decide (l = ti)) as [->|Hne]; [assumption|].
      unfold allocated in *. now rewrite <- (Hother l Hne). }
    destruct (IH w1) as [w' [Hloop [Hcs' [Hal' [Hd' [Hlow Hout]]]]]].
    + now rewrite Hcs.
    + lia.
    + eapply Forall_impl; [exact Hall|]. intros l Hl. auto.
    + exists w'. split; [|split; [|split; [|split; [|split]]]].
      * cbn [Cluster.unwind_loop]. unfold bind at 1.
        rewrite (get_cluster_some _ _ _ Hc).
        unfold bind at 1. rewrite (index_in_range _ _ _ _ Hti).
        unfold bind at 1. rewrite Hstop. exact Hloop.
      * now rewrite Hcs', Hcs.
      * intros l. rewrite Hal'. split; auto.
      * auto.
      * intros j tj Hj Htj. destruct (decide (j = i)) as [->|Hne].
        -- rewrite Hti in Htj. injection Htj as <-. auto.
        -- apply (Hlow j); [lia|assumption].
      * intros l Hl. rewrite (Hout l Hl). apply Hother. intros ->. auto.
Qed.

(** What a call of [NewTestCluster] with a size in [1..255] leaves behind,
    on success and on failure. *)
Lemma NewTestCluster_inv (name : string) (size : Z)
    (cb : option ClusterServerConfigCallback) (w : World) (r : loc + error)
    (w' : World) :
  1 <= size <= 255 ->
  Cluster.NewTestCluster env name size cb w = Returns r w' ->
  (forall l, allocated w l -> instance_store w' !! l = instance_store w !! l) /\
  (forall cl c, cluster_store w !! cl = Some c -> cluster_store w' !! cl = Some c) /\
  match r with
  | inl cl =>
      cluster_store w !! cl = None /\
      exists members,
        cluster_store w' = <[cl := mkCluster name size members false]> (cluster_store w) /\
        Z.of_nat (length members) = size /\
        NoDup members /\
        (forall l, allocated w' l <-> allocated w l \/ l ∈ members) /\
        (forall (j : nat) ti, members !! j = Some ti ->
           ~ allocated w ti /\
           exists srv client,
             instance_store w' !! ti
             = Some (mkInstance (name +:+ "-" +:+ fmt_d (Z.of_nat j))
                       (Some srv) (Some client)) /\
             testutil.Config srv
             = match cb with
               | Some f => f
               | None => DefaultClusterServerConfigCallback
               end name (Z.of_nat j) (defaultServerConfig env))
  | inr e =>
      forall l, allocated w' l -> allocated w l \/ defunct w' l
  end.
Proof.
  intros Hsize H.
  set (cb' := match cb with
              | Some f => f
              | None => DefaultClusterServerConfigCallback
              end) in *.
  unfold Cluster.NewTestCluster in H. fold cb' in H.
  destruct (Z.eqb_spec size 0) as [|_]; [lia|].
  apply bind_inv in H as [r1 [w1 [Hnew H]]].
  apply NewTestInstance_inv in Hnew as [Hcs1 Hr1].
  destruct r1 as [first|e1].
  2:{ unfold ret in H. apply Returns_inj in H as [<- <-].
      split; [intros l _; now rewrite Hr1|].
      split; [intros cl c; now rewrite Hcs1|].
      intros l Hl. left. unfold allocated in *. now rewrite <- Hr1. }
  destruct Hr1 as [Hfresh [srv [client [Hconf [His1 _]]]]].
  apply bind_inv in H as [cl0 [w2 [Hcl H]]].
  unfold new_cluster in Hcl. apply Returns_inj in Hcl as [<- <-].
  set (cl0 := fresh (dom (cluster_store w1))) in *.
  set (c0 := mkCluster name size [first] false) in *.
  set (w2 := mkWorld (instance_store w1) (<[cl0 := c0]> (cluster_store w1)) (events w1)) in *.
  assert (Hnewcl : cluster_store w !! cl0 = None).
  { rewrite <- Hcs1. apply not_elem_of_dom. apply is_fresh. }
  assert (Hc2 : cluster_store w2 !! cl0 = Some c0) by apply lookup_insert_eq.
  assert (Hfirst2 : instance_store w2 !! first
                    = Some (mkInstance (name +:+ "-" +:+ fmt_d 0) (Some srv) (Some client)))
    by (simpl; rewrite His1; apply lookup_insert_eq).
  assert (Hne : forall l, allocated w l -> l <> first) by (intros l Hl ->; auto).
  assert (Hold2 : forall l, allocated w l -> instance_store w2 !! l = instance_store w !! l).
  { intros l Hl. simpl. rewrite His1. apply lookup_insert_ne. intros <-. auto. }
  assert (Hal2 : forall l, allocated w2 l <-> allocated w l \/ l = first).
  { intros l. unfold allocated. simpl. rewrite His1.
    rewrite lookup_insert_is_Some. split.
    - intros [<- |[_ Hl]]; auto.
    - intros [Hl| ->]; [|auto]. destruct (decide (first = l)); auto. }
  assert (Hfa2 : allocated w2 first) by (apply Hal2; auto).
  destruct (Z.eqb_spec size 1) as [Hone|Hmore].
  - unfold ret in H. apply Returns_inj in H as [<- <-].
    split; [exact Hold2|].
    split.
    { intros cl c Hc. simpl. rewrite Hcs1, lookup_insert_ne; [assumption|].
      intros <-. rewrite Hnewcl in Hc. discriminate Hc. }
    split; [exact Hnewcl|].
    exists [first]. split; [simpl; now rewrite Hcs1|].
    split; [simpl; lia|]. split; [apply NoDup_singleton|].
    split.
    { intros l. rewrite Hal2. rewrite list_elem_of_singleton. reflexivity. }
    intros j ti Hj. destruct j as [|j]; [|discriminate Hj].
    simpl in Hj. injection Hj as <-. split; [assumption|].
    exists srv, client. split; [exact Hfirst2|exact Hconf].
  - apply bind_inv in H as [err [w3 [Hgrow H]]].
    rewrite (uint8_small (size - 1)) in Hgrow by lia.
    rewrite (Grow_is_loop env cl0 c0 w2 (size - 1) cb' Hc2 eq_refl) in Hgrow
      by (simpl; lia).
    destruct (grow_loop_full env cl0 cb' 1 (Z.to_nat (size - 1)) 0 c0 w2 err w3
                Hc2 eq_refl ltac:(lia) ltac:(lia) ltac:(lia) Hgrow)
      as [news [Hc' [Hnd [Hnew [Hold [Hmem [Hlen Hr]]]]]]].
    assert (Hfirst_news : first ∉ news) by (intros Hin; apply (Hnew _ Hin); exact Hfa2).
    assert (Hold3 : forall l, allocated w l -> instance_store w3 !! l = instance_store w !! l).
    { intros l Hl. rewrite Hold by (apply Hal2; auto). auto. }
    assert (Hcl3 : forall cl c, cluster_store w !! cl = Some c ->
                                cluster_store w3 !! cl = Some c).
    { intros cl c Hc. rewrite Hc'. simpl. rewrite Hcs1.
      assert (cl0 <> cl) by (intros <-; rewrite Hnewcl in Hc; discriminate Hc).
      now rewrite !lookup_insert_ne. }
    assert (Hmem3 : forall l, l ∈ first :: news -> allocated w3 l).
    { intros l Hl. apply elem_of_cons in Hl as [->|Hl].
      - unfold allocated. rewrite (Hold first Hfa2). exact Hfa2.
      - apply list_elem_of_lookup in Hl as [j Hj].
        destruct (Hmem j l Hj) as [s1 [c1 [Hs1 _]]]. unfold allocated. rewrite Hs1. eauto. }
    destruct err as [e|].
    + apply bind_inv in H as [c3 [w4 [Hget H]]].
      rewrite (get_cluster_some w3 cl0 (grown c0 news)) in Hget
        by (rewrite Hc'; apply lookup_insert_eq).
      apply Returns_inj in Hget as [<- <-].
      destruct (unwind_loop_spec cl0 (grown c0 news) (length (cl_instances (grown c0 news))) w3)
        as [w5 [Hunw [Hcs5 [Hal5 [Hd5 [Hlow5 Hout5]]]]]].
      { rewrite Hc'. apply lookup_insert_eq. }
      { lia. }
      { apply Forall_forall. intros l Hl. apply Hmem3. exact Hl. }
      apply bind_inv in H as [u [w6 [Hunw' H]]].
      rewrite Hunw in Hunw'. apply Returns_inj in Hunw' as [_ <-].
      unfold ret in H. apply Returns_inj in H as [<- <-].
      assert (Hout : forall l, allocated w l -> l ∉ first :: news).
      { intros l Hl Hin. apply elem_of_cons in Hin as [->|Hin]; [now apply Hfresh|].
        apply (Hnew _ Hin). apply Hal2. auto. }
      split; [intros l Hl; rewrite (Hout5 l (Hout l Hl)); auto|].
      split; [intros cl c Hc; rewrite Hcs5; auto|].
      intros l Hl. destruct (decide (l ∈ first :: news)) as [Hin|Hnin].
      * right. apply list_elem_of_lookup in Hin as [j Hj].
        apply (Hlow5 j); [|exact Hj]. apply lookup_lt_Some in Hj. exact Hj.
      * apply Hal5 in Hl.
        assert (Hcase : allocated w2 l \/ l ∈ news \/ defunct w3 l).
        { destruct e; try contradiction.
          - destruct Hr as [_ [_ [_ Hr]]]. destruct (Hr l Hl); auto.
          - destruct Hr as [_ [_ [_ Hr]]]. exact (Hr l Hl). }
        destruct Hcase as [Hl2|[Hin|Hdef]].
        -- apply Hal2 in Hl2 as [Hl2| ->]; [auto|].
           exfalso. apply Hnin. left.
        -- exfalso. apply Hnin. right. exact Hin.
        -- right. auto.
    + unfold ret in H. apply Returns_inj in H as [<- <-].
      destruct Hr as [Hlenk Hr].
      split; [exact Hold3|]. split; [exact Hcl3|]. split; [exact Hnewcl|].
      exists (first :: news).
      split.
      { rewrite Hc'. simpl. rewrite Hcs1. now rewrite insert_insert_eq. }
      split; [cbn [length]; lia|].
      split; [apply NoDup_cons; auto|].
      split.
      { intros l. split.
        - intros Hl. destruct (Hr l Hl) as [Hl2|Hin].
          + apply Hal2 in Hl2 as [Hl2| ->]; [auto|right; left].
          + right. right. exact Hin.
        - intros [Hl|Hin]; [|auto].
          unfold allocated. rewrite (Hold3 l Hl). exact Hl. }
      intros j ti Hj. destruct j as [|j].
      * simpl in Hj. injection Hj as <-. split; [assumption|].
        exists srv, client. split; [|exact Hconf].
        rewrite (Hold first Hfa2). exact Hfirst2.
      * simpl in Hj. split.
        { intros Hl. apply (Hnew ti); [apply list_elem_of_lookup; eauto|]. apply Hal2. auto. }
        destruct (Hmem j ti Hj) as [s1 [c1 [Hs1 Hconf1]]].
        exists s1, c1.
        replace (Z.of_nat (S j)) with (1 + 0 + Z.of_nat j) by lia.
        split; [exact Hs1|exact Hconf1].
Qed.

End NewClusterFull.

(** ** The servers a failed [NewTestCluster] leaves running *)

Section RunningServers.
Context (env : Env).

Lemma replay_app (r1 : list Event) :
  forall (h r2 : list Event) (acc : list testutil.TestServer),
    replay env h (r1 ++ r2) acc = replay env (h ++ r1) r2 (replay env h r1 acc).
Proof.
  induction r1 as [|ev r1 IH]; intros h r2 acc.
  - simpl. now rewrite app_nil_r.
  - simpl. rewrite IH, <- app_assoc. reflexivity.
Qed.

Lemma running_app (h calls : list Event) :
  running env (h ++ calls) = replay env h calls (running env h).
Proof. unfold running. now rewrite replay_app. Qed.

Lemma remove_one_head (srv : testutil.TestServer) (l : list testutil.TestServer) :
  remove_one srv (srv :: l) = l.
Proof. simpl. destruct (decide (srv = srv)); [reflexivity|contradiction]. Qed.

(** Stopping, from the most recent one on, the servers that were started
    last leaves those that ran before them. *)
Lemma replay_stops (srvs : list testutil.TestServer) :
  forall (h : list Event) (acc : list testutil.TestServer),
    replay env h (EvServerStop <$> srvs) (srvs ++ acc) = acc.
Proof.
  induction srvs as [|srv srvs IH]; intros h acc; [reflexivity|].
  cbn [fmap list_fmap replay app]. rewrite remove_one_head. apply IH.
Qed.

(** [NewTestInstance] leaves one more server running when it succeeds,
    that of the instance, and none when it fails. *)
Lemma NewTestInstance_running (name : string) (cb : testutil.ServerConfigCallback)
    (w : World) (r : loc + error) (w' : World) :
  Instance.NewTestInstance env name cb w = Returns r w' ->
  match r with
  | inl ti => exists srv, server_of w' ti = Some srv /\
                          running env (events w') = srv :: running env (events w)
  | inr _ => running env (events w') = running env (events w)
  end.
Proof.
  unfold Instance.NewTestInstance, NewTestServerConfig, api_NewClient, server_Stop,
    new_instance, bind, history, record, ret. simpl.
  destruct (startServer env (events w) (cb (defaultServerConfig env))) as [a|e0] eqn:Hs;
    simpl.
  - destruct (newClient env (http_addr a)) as [client|e0]; simpl.
    + intros H. apply Returns_inj in H as [<- <-]. simpl.
      eexists. split; [unfold server_of; simpl; rewrite lookup_insert_eq; reflexivity|].
      rewrite running_app. simpl. rewrite Hs. reflexivity.
    + intros H. apply Returns_inj in H as [<- <-]. simpl.
      rewrite <- app_assoc, running_app. cbn [app replay]. rewrite Hs.
      apply remove_one_head.
  - intros H. apply Returns_inj in H as [<- <-]. simpl.
    rewrite running_app. simpl. now rewrite Hs.
Qed.

(** An iteration of the loop of [Grow] leaves one more server running
    when it adds a member, that member's, and none when it fails. *)
Lemma grow_body_running (cl : loc) (cb : ClusterServerConfigCallback) (offset : Z)
    (c : TestCluster) (w : World) (r : option error) (w' : World) :
  cluster_store w !! cl = Some c ->
  Cluster.grow_body env cl cb offset w = Returns r w' ->
  match r with
  | None =>
      exists ti srv,
        cluster_store w' = <[cl := grown c [ti]]> (cluster_store w) /\
        allocated w' ti /\
        server_of w' ti = Some srv /\
        running env (events w') = srv :: running env (events w)
  | Some _ => running env (events w') = running env (events w)
  end.
Proof.
  intros Hc H. unfold Cluster.grow_body in H.
  unfold bind at 1 in H. rewrite (get_cluster_some _ _ _ Hc) in H.
  apply bind_inv in H as [r1 [w1 [Hnew H]]].
  pose proof (NewTestInstance_running _ _ _ _ _ Hnew) as Hrun1.
  apply NewTestInstance_inv in Hnew as [Hcs1 Hr1].
  destruct r1 as [ti|e1]; [|unfold ret in H; apply Returns_inj in H as [<- <-]; exact Hrun1].
  destruct Hr1 as [Hfresh [srv [client0 [Hconf [His1 Hev1]]]]].
  destruct Hrun1 as [srv' [Hsrv' Hrun1]].
  assert (Hc1 : cluster_store w1 !! cl = Some c) by now rewrite Hcs1.
  assert (Hti1 : instance_store w1 !! ti
                 = Some (mkInstance (cl_name c +:+ "-" +:+ fmt_d offset)
                           (Some srv) (Some client0)))
    by (rewrite His1; apply lookup_insert_eq).
  assert (srv' = srv) as ->.
  { unfold server_of in Hsrv'. rewrite Hti1 in Hsrv'. simpl in Hsrv'. congruence. }
  unfold bind at 1 in H. rewrite (get_cluster_some _ _ _ Hc1) in H.
  apply bind_inv in H as [first [w2 [Hidx H]]].
  assert (w2 = w1) as ->.
  { unfold index in Hidx. destruct (0 <? 0); [discriminate|].
    destruct (cl_instances c !! Z.to_nat 0); [|discriminate].
    unfold ret in Hidx. now apply Returns_inj in Hidx as [_ <-]. }
  apply bind_inv in H as [client [w2 [Hcl H]]].
  assert (w2 = w1) as ->.
  { unfold Instance.APIClient, Instance.live_server, bind, get_instance, raise, ret in Hcl.
    destruct (instance_store w1 !! first) as [i0|]; [|discriminate].
    destruct (ti_server i0); [|discriminate]. now apply Returns_inj in Hcl as [_ <-]. }
  apply bind_inv in H as [addr [w2 [Haddr H]]].
  unfold Instance.LANAddr, Instance.live_server, bind, get_instance, ret in Haddr.
  rewrite Hti1 in Haddr. simpl in Haddr. apply Returns_inj in Haddr as [<- <-].
  apply bind_inv in H as [jr [w2 [Hjoin H]]].
  destruct client as [client|]; [|discriminate].
  unfold Agent_Join, bind, history, record, ret in Hjoin.
  apply Returns_inj in Hjoin as [<- <-].
  set (w2 := mkWorld (instance_store w1) (cluster_store w1)
               (events w1 ++ [EvJoin client (testutil.LANAddr srv) false])) in *.
  assert (Hrun2 : running env (events w2) = srv :: running env (events w)).
  { simpl. rewrite running_app. simpl. exact Hrun1. }
  assert (Hti2 : instance_store w2 !! ti
                 = Some (mkInstance (cl_name c +:+ "-" +:+ fmt_d offset)
                           (Some srv) (Some client0))) by exact Hti1.
  destruct (agentJoin env (events w1) client (testutil.LANAddr srv) false) as [e|].
  - apply bind_inv in H as [rs [w3 [Hstop H]]].
    rewrite (Stop_live env w2 ti _ srv Hti2 eq_refl) in Hstop.
    apply Returns_inj in Hstop as [_ <-].
    unfold ret in H. apply Returns_inj in H as [<- <-].
    unfold stopped_world. cbn [events]. rewrite running_app. cbn [replay].
    rewrite Hrun2. apply remove_one_head.
  - unfold bind at 1 in H.
    assert (Hc2 : cluster_store w2 !! cl = Some c) by exact Hc1.
    rewrite (get_cluster_some _ _ _ Hc2) in H.
    unfold bind, put_cluster, ret in H. apply Returns_inj in H as [<- <-].
    exists ti, srv. cbn [cluster_store instance_store events].
    split; [simpl; now rewrite Hcs1|].
    split; [unfold allocated; simpl; rewrite Hti1; eauto|].
    split; [unfold server_of; simpl; now rewrite Hti1|exact Hrun2].
Qed.

Lemma live_servers_app (w : World) (l1 l2 : list loc) :
  live_servers w (l1 ++ l2) = live_servers w l1 ++ live_servers w l2.
Proof. unfold live_servers. apply omap_app. Qed.

(** The loop of [Grow], whatever it returns, leaves running the servers
    of the members it added, besides those that ran before. *)
Lemma grow_loop_running (cl : loc) (cb : ClusterServerConfigCallback) (current : Z)
    (k : nat) :
  forall (i : Z) (c : TestCluster) (w : World) (r : option error) (w' : World),
    cluster_store w !! cl = Some c ->
    Z.of_nat (length (cl_instances c)) = current + i ->
    0 <= current -> 0 <= i -> current + i + Z.of_nat k <= 255 ->
    Cluster.grow_loop env cl cb current k i w = Returns r w' ->
    exists news,
      cluster_store w' = <[cl := grown c news]> (cluster_store w) /\
      running env (events w')
      = live_servers w' (reverse news) ++ running env (events w).
Proof.
  induction k as [|k IH]; intros i c w r w' Hc Hlen Hcur Hi Hbound H.
  - simpl in H. unfold ret in H. apply Returns_inj in H as [_ <-].
    exists []. rewrite grown_nil, (insert_id _ _ _ Hc). split; reflexivity.
  - simpl in H. apply bind_inv in H as [r1 [w1 [Hbody H]]].
    pose proof (grow_body_running cl cb _ c w r1 w1 Hc Hbody) as Hcase.
    destruct r1 as [err|].
    + unfold ret in H. apply Returns_inj in H as [_ <-].
      exists []. rewrite grown_nil, (insert_id _ _ _ Hc). split; [|exact Hcase].
      assert (Hoff : uint8 (uint8 current + i) = current + i)
        by (rewrite (uint8_small current) by lia; apply uint8_small; lia).
      rewrite Hoff in Hbody.
      pose proof (grow_body_full env cl cb _ c w _ w1 Hc Hbody) as Hfull.
      destruct err; try contradiction; destruct Hfull as [_ [_ Hfull]];
        [apply Hfull|apply (proj1 Hfull)].
    + destruct Hcase as [ti [srv [Hcs1 [Hal1 [Hsrv1 Hrun1]]]]].
      assert (Hc1 : cluster_store w1 !! cl = Some (grown c [ti]))
        by (rewrite Hcs1; apply lookup_insert_eq).
      assert (Hlen1 : Z.of_nat (length (cl_instances (grown c [ti]))) = current + (i + 1))
        by (simpl; rewrite length_app; simpl; lia).
      rewrite (uint8_small (i + 1)) in H by lia.
      destruct (IH (i + 1) (grown c [ti]) w1 r w' Hc1 Hlen1
                  ltac:(lia) ltac:(lia) ltac:(lia) H) as [news [Hcs' Hrun']].
      destruct (grow_loop_full env cl cb current k (i + 1) (grown c [ti]) w1 r w' Hc1 Hlen1
                  ltac:(lia) ltac:(lia) ltac:(lia) H) as [_ [_ [_ [_ [Hold _]]]]].
      exists (ti :: news).
      split; [rewrite Hcs', Hcs1, insert_insert_eq, grown_grown; reflexivity|].
      assert (Hsrv : server_of w' ti = Some srv).
      { unfold server_of in *. now rewrite (Hold ti Hal1). }
      rewrite Hrun', Hrun1, reverse_cons, live_servers_app, <- app_assoc.
      f_equal. unfold live_servers. simpl. now rewrite Hsrv.
Qed.

(** The unwinding loop of [NewTestCluster] over the first [k] members,
    when these are distinct objects: the servers of the live ones are
    stopped, from the last to the first. *)
Lemma unwind_loop_trace (cl : loc) (c : TestCluster) (k : nat) :
  forall (w : World),
    cluster_store w !! cl = Some c ->
    (k <= length (cl_instances c))%nat ->
    Forall (allocated w) (cl_instances c) ->
    NoDup (cl_instances c) ->
    let srvs := live_servers w (reverse (take k (cl_instances c))) in
    exists w',
      Cluster.unwind_loop env cl k w = Returns tt w' /\
      events w' = events w ++ (EvServerStop <$> srvs).
Proof.
  induction k as [|i IH]; intros w Hc Hk Hall Hnd srvs.
  - exists w. subst srvs. simpl. rewrite app_nil_r. auto.
  - destruct (lookup_lt_is_Some_2 (cl_instances c) i) as [ti Hti]; [lia|].
    assert (Hal : allocated w ti).
    { rewrite Forall_forall in Hall. apply Hall. apply list_elem_of_lookup. eauto. }
    assert (Hrev : reverse (take (S i) (cl_instances c))
                   = ti :: reverse (take i (cl_instances c))).
    { rewrite (take_S_r _ _ _ Hti), reverse_app. reflexivity. }
    assert (Hnotin : forall l, l ∈ reverse (take i (cl_instances c)) -> l <> ti).
    { intros l Hl ->. rewrite elem_of_reverse in Hl.
      apply list_elem_of_lookup in Hl as [j Hj].
      apply lookup_take_Some in Hj as [Hj Hlt].
      pose proof (NoDup_lookup _ _ _ _ Hnd Hj Hti). lia. }
    subst srvs. rewrite Hrev, live_servers_cons.
    destruct Hal as [inst Hinst].
    assert (Hso : server_of w ti = ti_server inst) by (unfold server_of; now rewrite Hinst).
    rewrite !Hso.
    destruct (ti_server inst) as [srv|] eqn:Hsrv.
    + pose proof (Stop_live env w ti inst srv Hinst Hsrv) as Hstop.
      destruct (IH (stopped_world w ti inst srv)) as [w' [Hloop Hev]];
        try assumption; [lia| |].
      * eapply Forall_impl; [exact Hall|]. intros l [x Hx]. unfold allocated. simpl.
        destruct (decide (ti = l)) as [->|Hne];
          [rewrite lookup_insert_eq|rewrite lookup_insert_ne by assumption]; eauto.
      * rewrite (live_servers_same w (stopped_world w ti inst srv)) in Hev.
        -- exists w'. split.
           ++ cbn [Cluster.unwind_loop]. unfold bind at 1.
              rewrite (get_cluster_some _ _ _ Hc).
              unfold bind at 1. rewrite (index_in_range _ _ _ _ Hti).
              unfold bind at 1. rewrite Hstop. exact Hloop.
           ++ rewrite Hev. simpl. now rewrite <- app_assoc.
        -- intros l Hl. simpl. apply lookup_insert_ne. intros <-. now apply (Hnotin ti).
    + pose proof (Stop_defunct env w ti inst Hinst Hsrv) as Hstop.
      destruct (IH w) as [w' [Hloop Hev]]; try assumption; [lia|].
      exists w'. split; [|assumption].
      cbn [Cluster.unwind_loop]. unfold bind at 1. rewrite (get_cluster_some _ _ _ Hc).
      unfold bind at 1. rewrite (index_in_range _ _ _ _ Hti).
      unfold bind at 1. rewrite Hstop. exact Hloop.
Qed.

(** A [NewTestCluster] that returns an error leaves running the servers
    that ran before it. *)
Lemma NewTestCluster_failure_running (name : string) (size : Z)
    (cb : option ClusterServerConfigCallback) (w : World) (e : error) (w' : World) :
  0 <= size <= 255 ->
  Cluster.NewTestCluster env name size cb w = Returns (inr e) w' ->
  running env (events w') = running env (events w).
Proof.
  intros Hsize H.
  set (cb' := match cb with
              | Some f => f
              | None => DefaultClusterServerConfigCallback
              end) in *.
  unfold Cluster.NewTestCluster in H. fold cb' in H.
  destruct (Z.eqb_spec size 0) as [|Hnz].
  { unfold ret in H. now apply Returns_inj in H as [_ <-]. }
  apply bind_inv in H as [r1 [w1 [Hnew H]]].
  pose proof (NewTestInstance_running _ _ _ _ _ Hnew) as Hrun1.
  apply NewTestInstance_inv in Hnew as [Hcs1 Hr1].
  destruct r1 as [first|e1];
    [|unfold ret in H; apply Returns_inj in H as [_ <-]; exact Hrun1].
  destruct Hr1 as [Hfresh [srv [client [Hconf [His1 _]]]]].
  destruct Hrun1 as [srv0 [Hsrv0 Hrun1]].
  apply bind_inv in H as [cl0 [w2 [Hcl H]]].
  unfold new_cluster in Hcl. apply Returns_inj in Hcl as [<- <-].
  set (cl0 := fresh (dom (cluster_store w1))) in *.
  set (c0 := mkCluster name size [first] false) in *.
  set (w2 := mkWorld (instance_store w1) (<[cl0 := c0]> (cluster_store w1)) (events w1)) in *.
  assert (Hc2 : cluster_store w2 !! cl0 = Some c0) by apply lookup_insert_eq.
  assert (Hfa2 : allocated w2 first).
  { unfold allocated. simpl. rewrite His1, lookup_insert_eq. eauto. }
  destruct (Z.eqb_spec size 1) as [Hone|Hmore]; [unfold ret in H; discriminate H|].
  apply bind_inv in H as [err [w3 [Hgrow H]]].
  destruct err as [e'|]; [|unfold ret in H; discriminate H].
  rewrite (uint8_small (size - 1)) in Hgrow by lia.
  rewrite (Grow_is_loop env cl0 c0 w2 (size - 1) cb' Hc2 eq_refl) in Hgrow
    by (simpl; lia).
  destruct (grow_loop_full env cl0 cb' 1 (Z.to_nat (size - 1)) 0 c0 w2 _ w3
              Hc2 eq_refl ltac:(lia) ltac:(lia) ltac:(lia) Hgrow)
    as [news [Hc' [Hnd [Hnewl [Hold [Hmem _]]]]]].
  destruct (grow_loop_running cl0 cb' 1 (Z.to_nat (size - 1)) 0 c0 w2 _ w3
              Hc2 eq_refl ltac:(lia) ltac:(lia) ltac:(lia) Hgrow)
    as [news' [Hc'' Hrun3]].
  assert (news' = news) as ->.
  { assert (E : Some (grown c0 news') = Some (grown c0 news)).
    { rewrite <- (lookup_insert_eq (cluster_store w2) cl0 (grown c0 news')), <- Hc'', Hc'.
      apply lookup_insert_eq. }
    injection E as E. exact E. }
  assert (Hc3 : cluster_store w3 !! cl0 = Some (grown c0 news))
    by (rewrite Hc'; apply lookup_insert_eq).
  assert (Hsrv3 : server_of w3 first = Some srv0).
  { unfold server_of in *. now rewrite (Hold first Hfa2). }
  apply bind_inv in H as [c3 [w4 [Hget H]]].
  rewrite (get_cluster_some w3 cl0 (grown c0 news) Hc3) in Hget.
  apply Returns_inj in Hget as [<- <-].
  destruct (unwind_loop_trace cl0 (grown c0 news) (length (cl_instances (grown c0 news))) w3
              Hc3 (le_n _)) as [w5 [Hunw Hev5]].
  { apply Forall_forall. intros l Hl. simpl in Hl.
    apply elem_of_cons in Hl as [->|Hl].
    - unfold allocated. rewrite (Hold first Hfa2). exact Hfa2.
    - apply list_elem_of_lookup in Hl as [j Hj].
      destruct (Hmem j l Hj) as [s1 [c1 [Hs1 _]]]. unfold allocated. rewrite Hs1. eauto. }
  { simpl. apply NoDup_cons. split; [|assumption].
    intros Hin. apply (Hnewl _ Hin). exact Hfa2. }
  apply bind_inv in H as [u [w6 [Hunw' H]]].
  rewrite Hunw in Hunw'. apply Returns_inj in Hunw' as [_ <-].
  unfold ret in H. apply Returns_inj in H as [_ <-].
  rewrite firstn_all in Hev5. cbn [cl_instances grown c0 app] in Hev5.
  rewrite reverse_cons, live_servers_app in Hev5.
  assert (Hlast : live_servers w3 [first] = [srv0])
    by (unfold live_servers; simpl; now rewrite Hsrv3).
  rewrite Hlast in Hev5.
  rewrite Hev5, running_app, Hrun3. cbn [events w2]. rewrite Hrun1.
  replace (live_servers w3 (reverse news) ++ srv0 :: running env (events w))
    with ((live_servers w3 (reverse news) ++ [srv0]) ++ running env (events w))
    by (now rewrite <- app_assoc).
  apply replay_stops.
Qed.

End RunningServers.

(** X12: when [NewTestCluster] returns an error, for a size in [0..255],
    it has unwound.  Count as running, after a history of calls, every
    server whose start the environment let succeed and that was not
    stopped since: the servers running after the failed call are exactly
    those that ran before it, so every server the call started it has
    also stopped.  Every instance that exists afterwards and did not
    exist before has no server any more; the instances and clusters that
    existed before are as they were. *)
Theorem NewTestCluster_failure_leaves_no_server (env : Env) (name : string) (size : Z)
    (cb : option ClusterServerConfigCallback) (w : World) (e : error) (w' : World) :
  0 <= size <= 255 ->
  Cluster.NewTestCluster env name size cb w = Returns (inr e) w' ->
  running env (events w') = running env (events w) /\
  (forall l, allocated w' l -> ~ allocated w l -> defunct w' l) /\
  (forall l i srv,
     instance_store w' !! l = Some i -> ti_server i = Some srv ->
     instance_store w !! l = Some i) /\
  (forall l, allocated w l -> instance_store w' !! l = instance_store w !! l) /\
  (forall cl c, cluster_store w !! cl = Some c -> cluster_store w' !! cl = Some c).
Proof.
  intros Hsize H.
  split; [exact (NewTestCluster_failure_running env name size cb w e w' Hsize H)|].
  assert (Hinv : (forall l, allocated w l -> instance_store w' !! l = instance_store w !! l) /\
                 (forall cl c, cluster_store w !! cl = Some c ->
                               cluster_store w' !! cl = Some c) /\
                 (forall l, allocated w' l -> allocated w l \/ defunct w' l)).
  { destruct (Z.eq_dec size 0) as [->|Hne].
    - unfold Cluster.NewTestCluster in H. simpl in H. unfold ret in H.
      apply Returns_inj in H as [_ <-]. repeat split; auto.
    - apply (NewTestCluster_inv env name size cb w (inr e) w'); [lia|exact H]. }
  destruct Hinv as [Hold [Hcl Hnew]].
  split; [|split; [|split; assumption]].
  - intros l Hl Hnl. destruct (Hnew l Hl); [contradiction|assumption].
  - intros l i srv Hi Hsrv.
    destruct (Hnew l) as [Hl|[i' [Hi' Hnone]]]; [unfold allocated; rewrite Hi; eauto| |].
    + now rewrite <- (Hold l Hl).
    + rewrite Hi in Hi'. injection Hi' as <-. rewrite Hsrv in Hnone. discriminate Hnone.
Qed.

Lemma NewTestCluster_failure_leaves_no_server_witness :
  let env := env_join_fails "lan:3" in
  let w' := world_after (Cluster.NewTestCluster env "c1" 3 None) empty_world in
  Cluster.NewTestCluster env "c1" 3 None empty_world
  = Returns (inr (ErrGrowJoin "c1" 2 (ErrExternal "join refused"))) w' /\
  running env (events w') = [] /\
  allocated w' 2%nat /\
  defunct w' 2%nat.
Proof.
  intros env w'.
  assert (H : Cluster.NewTestCluster env "c1" 3 None empty_world
              = Returns (inr (ErrGrowJoin "c1" 2 (ErrExternal "join refused"))) w')
    by (vm_compute; reflexivity).
  assert (Ha : allocated w' 2%nat) by (eexists; vm_compute; reflexivity).
  destruct (NewTestCluster_failure_leaves_no_server env "c1" 3 None empty_world
              _ w' ltac:(lia) H) as [Hrun [Hdef _]].
  split; [exact H|]. split; [exact Hrun|]. split; [exact Ha|].
  apply (Hdef 2%nat Ha).
  intros [i Hi]. vm_compute in Hi. discriminate Hi.
Defined.

(** X13: when [NewTestCluster] succeeds with a size in [1..255], the
    cluster is a new object with the given name, not stopped, and for
    every [num < size] its member [num] is an instance created by the
    call, running, named "<name>-<num>" and configured by the callback
    applied to the cluster name and [num]; different indices hold
    different instances; the instances that existed before are as they
    were. *)
Theorem NewTestCluster_success_every_member (env : Env) (name : string) (size : Z)
    (cb : option ClusterServerConfigCallback) (w : World) (cl : loc) (w' : World) :
  1 <= size <= 255 ->
  Cluster.NewTestCluster env name size cb w = Returns (inl cl) w' ->
  cluster_store w !! cl = None /\
  Cluster.Name cl w' = Returns name w' /\
  Cluster.Stopped cl w' = Returns false w' /\
  (forall num, 0 <= num < size ->
     exists ti,
       Cluster.Instance cl num w' = Returns ti w' /\
       ~ allocated w ti /\
       Instance.Stopped ti w' = Returns false w' /\
       Instance.Name ti w' = Returns (name +:+ "-" +:+ fmt_d num) w' /\
       Instance.Config ti w'
       = Returns (match cb with
                  | Some f => f
                  | None => DefaultClusterServerConfigCallback
                  end name num (defaultServerConfig env)) w') /\
  (forall n1 n2 ti,
     Cluster.Instance cl n1 w' = Returns ti w' ->
     Cluster.Instance cl n2 w' = Returns ti w' -> n1 = n2) /\
  (forall l, allocated w l -> instance_store w' !! l = instance_store w !! l).
Proof.
  intros Hsize H.
  destruct (NewTestCluster_inv env name size cb w (inl cl) w' Hsize H)
    as [Hold [_ [Hnew [members [Hcs [Hlen [Hnd [_ Hmem]]]]]]]].
  assert (Hc' : cluster_store w' !! cl = Some (mkCluster name size members false))
    by (rewrite Hcs; apply lookup_insert_eq).
  split; [assumption|]. split; [|split; [|split; [|split; [|assumption]]]].
  - unfold Cluster.Name, bind. now rewrite (get_cluster_some _ _ _ Hc').
  - now rewrite (Cluster_Stopped_spec _ _ _ Hc').
  - intros num Hnum.
    destruct (lookup_lt_is_Some_2 members (Z.to_nat num)) as [ti Hti]; [lia|].
    destruct (Hmem _ _ Hti) as [Hfresh [srv [client [Hi Hconf]]]].
    rewrite Z2Nat.id in Hi, Hconf by lia.
    exists ti. split; [|split; [assumption|split; [|split]]].
    + rewrite <- (Z2Nat.id num) by lia.
      now apply (Instance_at cl (mkCluster name size members false)).
    + unfold Instance.Stopped, bind, get_instance. now rewrite Hi.
    + unfold Instance.Name, bind, get_instance. now rewrite Hi.
    + unfold Instance.Config, Instance.live_server, bind, get_instance.
      rewrite Hi. simpl. unfold ret. now rewrite Hconf.
  - assert (Hidx : forall n ti, Cluster.Instance cl n w' = Returns ti w' ->
                                0 <= n /\ members !! Z.to_nat n = Some ti).
    { intros n ti Hn. unfold Cluster.Instance, bind in Hn.
      rewrite (get_cluster_some _ _ _ Hc') in Hn. simpl in Hn. unfold index in Hn.
      destruct (Z.ltb_spec n 0) as [Hneg|Hpos]; [discriminate Hn|].
      destruct (members !! Z.to_nat n) as [x|]; [|discriminate Hn].
      apply Returns_inj in Hn as [-> _]. split; [assumption|reflexivity]. }
    intros n1 n2 ti H1 H2.
    apply Hidx in H1 as [Hp1 H1]. apply Hidx in H2 as [Hp2 H2].
    pose proof (NoDup_lookup _ _ _ _ Hnd H1 H2). lia.
Qed.

Lemma NewTestCluster_success_every_member_witness :
  Cluster.NewTestCluster env_ok "c1" 3 None empty_world = Returns (inl 0%nat) world_c3 /\
  exists ti,
    Cluster.Instance 0%nat 2 world_c3 = Returns ti world_c3 /\
    Instance.Name ti world_c3 = Returns "c1-2" world_c3.
Proof.
  assert (H : Cluster.NewTestCluster env_ok "c1" 3 None empty_world
              = Returns (inl 0%nat) world_c3) by (vm_compute; reflexivity).
  split; [exact H|].
  destruct (NewTestCluster_success_every_member env_ok "c1" 3 None empty_world 0%nat
              world_c3 ltac:(lia) H) as [_ [_ [_ [Hmem _]]]].
  destruct (Hmem 2 ltac:(lia)) as [ti [Hti [_ [_ [Hname _]]]]].
  exists ti. split; [exact Hti|exact Hname].
Defined.

(** X14: a cluster created without a callback ([cb == nil]) has every
    member configured by [DefaultClusterServerConfigCallback]: raft
    multiplier 1, checkpoint not disabled, and [Bootstrap] set on member 0
    and on no other member, whatever the default configuration of the
    test server is. *)
Theorem NewTestCluster_default_only_first_bootstraps (env : Env) (name : string)
    (size : Z) (w : World) (cl : loc) (w' : World) :
  1 <= size <= 255 ->
  Cluster.NewTestCluster env name size None w = Returns (inl cl) w' ->
  forall num, 0 <= num < size ->
    exists ti conf,
      Cluster.Instance cl num w' = Returns ti w' /\
      Instance.Config ti w' = Returns conf w' /\
      testutil.RaftMultiplier conf = 1 /\
      testutil.DisableCheckpoint conf = false /\
      (testutil.Bootstrap conf = true <-> num = 0).
Proof.
  intros Hsize H num Hnum.
  destruct (NewTestCluster_inv env name size None w (inl cl) w' Hsize H)
    as [_ [_ [_ [members [Hcs [Hlen [_ [_ Hmem]]]]]]]].
  assert (Hc' : cluster_store w' !! cl = Some (mkCluster name size members false))
    by (rewrite Hcs; apply lookup_insert_eq).
  destruct (lookup_lt_is_Some_2 members (Z.to_nat num)) as [ti Hti]; [lia|].
  destruct (Hmem _ _ Hti) as [_ [srv [client [Hi Hconf]]]].
  rewrite Z2Nat.id in Hconf by lia.
  exists ti, (testutil.Config srv). split; [|split].
  - rewrite <- (Z2Nat.id num) by lia.
    now apply (Instance_at cl (mkCluster name size members false)).
  - unfold Instance.Config, Instance.live_server, bind, get_instance. now rewrite Hi.
  - rewrite Hconf. unfold DefaultClusterServerConfigCallback. simpl.
    split; [reflexivity|]. split; [reflexivity|].
    destruct (Z.eqb_spec num 0) as [->|Hne]; split; auto; discriminate.
Qed.

Lemma NewTestCluster_default_only_first_bootstraps_witness :
  exists ti conf,
    Cluster.Instance 0%nat 1 world_c3 = Returns ti world_c3 /\
    Instance.Config ti world_c3 = Returns conf world_c3 /\
    testutil.Bootstrap conf <> true.
Proof.
  assert (H : Cluster.NewTestCluster env_ok "c1" 3 None empty_world
              = Returns (inl 0%nat) world_c3) by (vm_compute; reflexivity).
  destruct (NewTestCluster_default_only_first_bootstraps env_ok "c1" 3 empty_world 0%nat
              world_c3 ltac:(lia) H 1 ltac:(lia))
    as [ti [conf [Hti [Hconf [_ [_ Hboot]]]]]].
  exists ti, conf. split; [exact Hti|]. split; [exact Hconf|].
  intros Hb. apply Hboot in Hb. discriminate Hb.
Defined.

(** ** The registry *)

Section RegistryOps.
Context (env : Env).

(** [cl.Stop()] through a valid pointer returns; it keeps every object,
    every member sequence and every other cluster, and touches no
    instance outside the cluster. *)
Lemma Cluster_Stop_advances (cl : loc) (c : TestCluster) (w : World) :
  cluster_store w !! cl = Some c ->
  Forall (allocated w) (cl_instances c) ->
  exists r w',
    Cluster.Stop env cl w = Returns r w' /\
    advances w w' /\
    handle_stopped w' (HCluster cl) /\
    (cl_stopped c = false -> Forall (defunct w') (cl_instances c)) /\
    (forall cl', cl' <> cl -> cluster_store w' !! cl' = cluster_store w !! cl').
Proof.
  intros Hc Hall. unfold Cluster.Stop. unfold bind at 1.
  rewrite (get_cluster_some _ _ _ Hc).
  destruct (cl_stopped c) eqn:Hs.
  - exists None, w. split; [reflexivity|]. split; [apply advances_refl|].
    split; [exists c; auto|]. split; [discriminate|auto].
  - destruct (decide (cl_instances c = [])) as [Hi|Hi].
    + exists None, w. split.
      { unfold Cluster.stop, bind. now rewrite (get_cluster_some _ _ _ Hc), Hi. }
      split; [apply advances_refl|].
      split; [exists c; split; [assumption|]; rewrite Hi; congruence|].
      split; [rewrite Hi; constructor|auto].
    + assert (Hlen : (0 < length (cl_instances c))%nat)
        by (destruct (cl_instances c); [congruence|simpl; lia]).
      destruct (stop_loop_spec env cl c (length (cl_instances c)) MultiErr.NewMultiErr w
                  Hc (le_n _) Hall) as [err [w1 [Hloop [Hcs [Hm [Hd Hlow]]]]]].
      assert (Hc1 : cluster_store w1 !! cl = Some c) by now rewrite Hcs.
      set (c' := mkCluster (cl_name c) (cl_size c) (cl_instances c) true).
      set (w' := mkWorld (instance_store w1) (<[cl := c']> (cluster_store w1)) (events w1)).
      exists (if MultiErr.Size err >? 0 then Some (ErrMulti (MultiErr.errs err)) else None), w'.
      split; [|split; [|split; [|split]]].
      * unfold Cluster.stop. unfold bind at 1. rewrite (get_cluster_some _ _ _ Hc).
        destruct (Z.eqb_spec (Z.of_nat (length (cl_instances c))) 0) as [Hz|_];
          [lia|].
        rewrite Nat2Z.id. unfold bind at 1. rewrite Hloop.
        unfold bind at 1. rewrite (get_cluster_some _ _ _ Hc1).
        unfold bind, put_cluster, ret. fold c'. fold w'.
        destruct (MultiErr.Size err >? 0); reflexivity.
      * apply (advances_trans w w1 w').
        -- repeat split; auto. intros cl0 c0 H0. exists c0. rewrite Hcs. auto.
        -- apply mark_stopped_advances. exact Hc1.
      * exists c'. split; [apply lookup_insert_eq|reflexivity].
      * intros _. apply Forall_forall. intros l Hl.
        apply list_elem_of_lookup in Hl as [j Hj].
        apply (Hlow j); [|exact Hj]. apply lookup_lt_Some in Hj. exact Hj.
      * intros cl' Hne. simpl. rewrite lookup_insert_ne by auto. now rewrite Hcs.
Qed.

Lemma registry_wf_advances (am : AgentMan.t) (w w' : World) :
  advances w w' -> registry_wf am w -> registry_wf am w'.
Proof.
  intros Hadv [Hs Hc]. split.
  - intros name ti H. destruct Hadv as [Ha _]. eauto.
  - intros name cl H. eapply advances_cluster_ok; eauto.
Qed.

(** Creating an instance keeps everything that was there. *)
Lemma NewTestInstance_advances (name : string) (cb : testutil.ServerConfigCallback)
    (w : World) (r : loc + error) (w' : World) :
  Instance.NewTestInstance env name cb w = Returns r w' -> advances w w'.
Proof.
  intros H. apply NewTestInstance_inv in H as [Hcs Hr].
  assert (Hkeep : forall l, allocated w l -> instance_store w' !! l = instance_store w !! l).
  { intros l Hl. destruct r as [ti|e]; [|now rewrite Hr].
    destruct Hr as [Hfresh [srv [client [_ [His _]]]]].
    rewrite His. apply lookup_insert_ne. intros <-. auto. }
  split; [|split].
  - intros l Hl. unfold allocated. now rewrite (Hkeep l Hl).
  - intros l [i [Hi Hnone]]. exists i. split; [|assumption].
    rewrite Hkeep; [assumption|]. unfold allocated. rewrite Hi. eauto.
  - intros cl c Hc. exists c. rewrite Hcs. auto.
Qed.

End RegistryOps.

Section RegistryInvariant.
Context (env : Env).

(** Creating a cluster keeps everything that was there, and a cluster it
    returns has members that exist. *)
Lemma NewTestCluster_advances (name : string) (size : Z)
    (cb : option ClusterServerConfigCallback) (w : World) (r : loc + error) (w' : World) :
  0 <= size <= 255 ->
  Cluster.NewTestCluster env name size cb w = Returns r w' ->
  advances w w' /\
  match r with
  | inl cl => cluster_ok w' cl
  | inr _ => True
  end.
Proof.
  intros Hsize H.
  destruct (Z.eq_dec size 0) as [->|Hne].
  { unfold Cluster.NewTestCluster in H. simpl in H. unfold ret in H.
    apply Returns_inj in H as [<- <-]. split; [apply advances_refl|exact I]. }
  destruct (NewTestCluster_inv env name size cb w r w' ltac:(lia) H) as [Hold [Hcl Hr]].
  split.
  - split; [|split].
    + intros l Hl. unfold allocated. now rewrite (Hold l Hl).
    + intros l [i [Hi Hnone]]. exists i. split; [|assumption].
      rewrite Hold; [assumption|]. unfold allocated. rewrite Hi. eauto.
    + intros cl c Hc. exists c. auto.
  - destruct r as [cl|e]; [|exact I].
    destruct Hr as [_ [members [Hcs [_ [_ [Hal _]]]]]].
    exists (mkCluster name size members false).
    split; [rewrite Hcs; apply lookup_insert_eq|].
    apply Forall_forall. intros l Hl. apply Hal. auto.
Qed.

End RegistryInvariant.

(** X15: [NewSingle] registers the instance it returns and nothing else.
    When it returns an instance, the name was free, the instance is a new
    running object with that name, [Single(name)] finds it, every other
    name and the clusters are as before, and from then on [NewSingle]
    under that name fails with "already exists" without starting a
    server.  When it returns an error, the registry is as before and no
    instance was added. *)
Theorem NewSingle_registers_what_it_returns (env : Env) (am : AgentMan.t) (name : string)
    (cb : testutil.ServerConfigCallback) (w : World) (r : loc + error)
    (am' : AgentMan.t) (w' : World) :
  AgentMan.NewSingle env am name cb w = Returns (r, am') w' ->
  match r with
  | inl s =>
      AgentMan.Single am name = None /\
      ~ allocated w s /\
      AgentMan.Single am' name = Some s /\
      (forall other, other <> name ->
         AgentMan.Single am' other = AgentMan.Single am other) /\
      AgentMan.clusters am' = AgentMan.clusters am /\
      Instance.Name s w' = Returns name w' /\
      Instance.Stopped s w' = Returns false w' /\
      (forall cb2 w2,
         AgentMan.NewSingle env am' name cb2 w2
         = Returns (inr (ErrSingleExists name), am') w2)
  | inr e =>
      am' = am /\
      instance_store w' = instance_store w /\
      cluster_store w' = cluster_store w /\
      (AgentMan.Single am name <> None -> e = ErrSingleExists name /\ w' = w)
  end.
Proof.
  intros H. unfold AgentMan.NewSingle in H. unfold AgentMan.Single.
  destruct (singles am !! name) as [s0|] eqn:Hname.
  - unfold ret in H. apply Returns_inj in H as [Hp <-].
    injection Hp as <- <-. repeat split; reflexivity.
  - apply bind_inv in H as [r1 [w1 [Hnew H]]].
    apply NewTestInstance_inv in Hnew as [Hcs Hr1].
    destruct r1 as [s|e]; unfold ret in H; apply Returns_inj in H as [Hp <-];
      injection Hp as <- <-.
    + destruct Hr1 as [Hfresh [srv [client [_ [His _]]]]].
      assert (Hs : instance_store w1 !! s = Some (mkInstance name (Some srv) (Some client)))
        by (rewrite His; apply lookup_insert_eq).
      split; [reflexivity|]. split; [assumption|]. simpl.
      split; [apply lookup_insert_eq|].
      split; [intros other Hne; apply lookup_insert_ne; auto|].
      split; [reflexivity|].
      split; [unfold Instance.Name, bind, get_instance; now rewrite Hs|].
      split; [unfold Instance.Stopped, bind, get_instance; now rewrite Hs|].
      intros cb2 w2. unfold AgentMan.NewSingle. simpl.
      now rewrite lookup_insert_eq.
    + split; [reflexivity|]. split; [assumption|]. split; [assumption|].
      intros Hc. congruence.
Qed.

Lemma NewSingle_registers_what_it_returns_witness :
  exists am' w',
    AgentMan.NewSingle env_ok AgentMan.NewAgentMan "s1" (fun c => c) empty_world
    = Returns (inl 0%nat, am') w' /\
    AgentMan.Single am' "s1" = Some 0%nat /\
    AgentMan.NewSingle env_ok am' "s1" (fun c => c) w'
    = Returns (inr (ErrSingleExists "s1"), am') w'.
Proof.
  assert (H : exists am' w',
             AgentMan.NewSingle env_ok AgentMan.NewAgentMan "s1" (fun c => c) empty_world
             = Returns (inl 0%nat, am') w')
    by (eexists; eexists; vm_compute; reflexivity).
  destruct H as [am' [w' H]]. exists am', w'. split; [exact H|].
  destruct (NewSingle_registers_what_it_returns env_ok AgentMan.NewAgentMan "s1"
              (fun c => c) empty_world (inl 0%nat) am' w' H)
    as [_ [_ [Hfind [_ [_ [_ [_ Hdup]]]]]]].
  split; [exact Hfind|apply Hdup].
Defined.

(** X16: [StopSingle] under a name that is not registered returns nil and
    changes nothing.  Under a registered name it returns what the
    instance's [Stop()] returned, nil or not, and in both cases the name
    is removed while every other name and the clusters stay; the instance
    is left without a server and no other instance is touched. *)
Theorem StopSingle_removes_the_entry (env : Env) (am : AgentMan.t) (name : string)
    (w : World) :
  (AgentMan.Single am name = None ->
     AgentMan.StopSingle env am name w = Returns (None, am) w) /\
  (forall s, AgentMan.Single am name = Some s -> allocated w s ->
     exists r am' w',
       AgentMan.StopSingle env am name w = Returns (r, am') w' /\
       Instance.Stop env s w = Returns r w' /\
       AgentMan.Single am' name = None /\
       (forall other, other <> name ->
          AgentMan.Single am' other = AgentMan.Single am other) /\
       AgentMan.clusters am' = AgentMan.clusters am /\
       defunct w' s /\
       cluster_store w' = cluster_store w /\
       (forall l, l <> s -> instance_store w' !! l = instance_store w !! l)).
Proof.
  unfold AgentMan.Single, AgentMan.StopSingle. split.
  - intros ->. reflexivity.
  - intros s -> Hal.
    destruct (Stop_effect env w s Hal) as [r [w' [Hstop [Hcs [Hdef [_ [_ Hother]]]]]]].
    exists r, (AgentMan.mk (delete name (singles am)) (AgentMan.clusters am)), w'.
    split; [unfold bind; now rewrite Hstop|].
    split; [assumption|]. simpl.
    split; [apply lookup_delete_eq|].
    split; [intros other Hne; apply lookup_delete_ne; auto|].
    repeat split; assumption.
Qed.

Lemma StopSingle_removes_the_entry_witness :
  let am := fst registry_example in
  let w := snd registry_example in
  exists r am' w',
    AgentMan.StopSingle env_stop_fails am "s1" w = Returns (r, am') w' /\
    AgentMan.Single am' "s1" = None /\
    defunct w' 0%nat.
Proof.
  intros am w.
  destruct (proj2 (StopSingle_removes_the_entry env_stop_fails am "s1" w) 0%nat)
    as [r [am' [w' [H [_ [Hgone [_ [_ [Hdef _]]]]]]]]].
  - vm_compute; reflexivity.
  - eexists; vm_compute; reflexivity.
  - exists r, am', w'. split; [exact H|]. split; [exact Hgone|exact Hdef].
Defined.

(** X17: [StopCluster] under a name that is not registered returns nil
    and changes nothing.  Under a registered name, whose cluster and
    members exist, it returns what the cluster's [Stop()] returned, nil or
    not, and in both cases the name is removed while every other name and
    the singles stay; a cluster that was not stopped has all its members
    without a server afterwards and, when it had members, is marked
    stopped; every other cluster is as before. *)
Theorem StopCluster_removes_the_entry (env : Env) (am : AgentMan.t) (name : string)
    (w : World) :
  (AgentMan.Cluster am name = None ->
     AgentMan.StopCluster env am name w = Returns (None, am) w) /\
  (forall cl c, AgentMan.Cluster am name = Some cl ->
     cluster_store w !! cl = Some c ->
     Forall (allocated w) (cl_instances c) ->
     exists r am' w',
       AgentMan.StopCluster env am name w = Returns (r, am') w' /\
       Cluster.Stop env cl w = Returns r w' /\
       AgentMan.Cluster am' name = None /\
       (forall other, other <> name ->
          AgentMan.Cluster am' other = AgentMan.Cluster am other) /\
       singles am' = singles am /\
       (cl_stopped c = false -> Forall (defunct w') (cl_instances c)) /\
       (cl_instances c <> [] -> Cluster.Stopped cl w' = Returns true w') /\
       (forall cl', cl' <> cl -> cluster_store w' !! cl' = cluster_store w !! cl')).
Proof.
  unfold AgentMan.Cluster, AgentMan.StopCluster. split.
  - intros ->. reflexivity.
  - intros cl c -> Hc Hall.
    destruct (Cluster_Stop_advances env cl c w Hc Hall)
      as [r [w' [Hstop [Hadv [[c' [Hc' Hmark]] [Hdef Hother]]]]]].
    exists r, (AgentMan.mk (singles am) (delete name (AgentMan.clusters am))), w'.
    split; [unfold bind; now rewrite Hstop|].
    split; [assumption|]. simpl.
    split; [apply lookup_delete_eq|].
    split; [intros other Hne; apply lookup_delete_ne; auto|].
    split; [reflexivity|]. split; [assumption|]. split; [|assumption].
    intros Hne. rewrite (Cluster_Stopped_spec _ _ _ Hc'). f_equal.
    apply Hmark. destruct Hadv as [_ [_ Hk]].
    destruct (Hk cl c Hc) as [c2 [Hc2 [Hi2 _]]].
    rewrite Hc' in Hc2. injection Hc2 as <-. now rewrite Hi2.
Qed.

Lemma StopCluster_removes_the_entry_witness :
  let am := fst registry_example in
  let w := snd registry_example in
  exists r am' w',
    AgentMan.StopCluster env_stop_fails am "c1" w = Returns (r, am') w' /\
    AgentMan.Cluster am' "c1" = None /\
    Cluster.Stopped 0%nat w' = Returns true w'.
Proof.
  intros am w.
  destruct (proj2 (StopCluster_removes_the_entry env_stop_fails am "c1" w) 0%nat
              (mkCluster "c1" 2 [1; 2]%nat false))
    as [r [am' [w' [H [_ [Hgone [_ [_ [_ [Hst _]]]]]]]]]].
  - vm_compute; reflexivity.
  - vm_compute; reflexivity.
  - repeat constructor; eexists; vm_compute; reflexivity.
  - exists r, am', w'. split; [exact H|]. split; [exact Hgone|].
    apply Hst. discriminate.
Defined.

(** X18: [NewCluster] registers the cluster it returns and nothing else.
    When it returns a cluster, for a size in [1..255], the name was free
    among the clusters, the cluster is a new object of [size] members,
    [Cluster(name)] finds it, every other name and the singles are as
    before, and from then on [NewCluster] under that name fails with
    "already exists" without starting a server.  When it returns an error,
    for a size in [0..255], the registry is as before and every instance
    the call created has no server any more. *)
Theorem NewCluster_registers_what_it_returns (env : Env) (am : AgentMan.t) (name : string)
    (size : Z) (cb : option ClusterServerConfigCallback) (w : World) (r : loc + error)
    (am' : AgentMan.t) (w' : World) :
  0 <= size <= 255 ->
  AgentMan.NewCluster env am name size cb w = Returns (r, am') w' ->
  match r with
  | inl cl =>
      AgentMan.Cluster am name = None /\
      cluster_store w !! cl = None /\
      AgentMan.Cluster am' name = Some cl /\
      (forall other, other <> name ->
         AgentMan.Cluster am' other = AgentMan.Cluster am other) /\
      singles am' = singles am /\
      Cluster.Size cl w' = Returns size w' /\
      (forall size2 cb2 w2,
         AgentMan.NewCluster env am' name size2 cb2 w2
         = Returns (inr (ErrClusterExists name), am') w2)
  | inr e =>
      am' = am /\
      (forall l, allocated w' l -> ~ allocated w l -> defunct w' l) /\
      (forall l, allocated w l -> instance_store w' !! l = instance_store w !! l) /\
      (AgentMan.Cluster am name <> None -> e = ErrClusterExists name /\ w' = w)
  end.
Proof.
  intros Hsize H. unfold AgentMan.NewCluster in H. unfold AgentMan.Cluster.
  destruct (AgentMan.clusters am !! name) as [cl0|] eqn:Hname.
  - unfold ret in H. apply Returns_inj in H as [Hp <-].
    injection Hp as <- <-. split; [reflexivity|].
    split; [intros l Hl Hnl; contradiction|]. split; [reflexivity|].
    intros _. split; reflexivity.
  - apply bind_inv in H as [r1 [w1 [Hnew H]]].
    destruct r1 as [cl|e]; unfold ret in H; apply Returns_inj in H as [Hp <-];
      injection Hp as <- <-.
    + assert (Hpos : 1 <= size <= 255).
      { destruct (Z.eq_dec size 0) as [->|Hne]; [|lia].
        unfold Cluster.NewTestCluster in Hnew. simpl in Hnew. discriminate Hnew. }
      destruct (NewTestCluster_inv env name size cb w (inl cl) w1 Hpos Hnew)
        as [_ [_ [Hfresh [members [Hcs [Hlen _]]]]]].
      assert (Hc' : cluster_store w1 !! cl = Some (mkCluster name size members false))
        by (rewrite Hcs; apply lookup_insert_eq).
      split; [reflexivity|]. split; [assumption|]. simpl.
      split; [apply lookup_insert_eq|].
      split; [intros other Hne; apply lookup_insert_ne; auto|].
      split; [reflexivity|].
      split; [rewrite (Cluster_Size_spec _ _ _ Hc'); simpl; now rewrite Hlen|].
      intros size2 cb2 w2. unfold AgentMan.NewCluster. simpl.
      now rewrite lookup_insert_eq.
    + split; [reflexivity|].
      assert (Hinv : (forall l, allocated w l ->
                                instance_store w1 !! l = instance_store w !! l) /\
                     (forall l, allocated w1 l -> allocated w l \/ defunct w1 l)).
      { destruct (Z.eq_dec size 0) as [->|Hne].
        - unfold Cluster.NewTestCluster in Hnew. simpl in Hnew. unfold ret in Hnew.
          apply Returns_inj in Hnew as [_ <-]. split; auto.
        - destruct (NewTestCluster_inv env name size cb w (inr e) w1 ltac:(lia) Hnew)
            as [Hold [_ Hr]]. split; assumption. }
      destruct Hinv as [Hold Hr].
      split; [intros l Hl Hnl; destruct (Hr l Hl); [contradiction|assumption]|].
      split; [assumption|]. intros Hc. congruence.
Qed.

Lemma NewCluster_registers_what_it_returns_witness :
  exists am' w',
    AgentMan.NewCluster env_ok AgentMan.NewAgentMan "c1" 3 None empty_world
    = Returns (inl 0%nat, am') w' /\
    AgentMan.Cluster am' "c1" = Some 0%nat /\
    Cluster.Size 0%nat w' = Returns 3 w'.
Proof.
  assert (H : exists am' w',
             AgentMan.NewCluster env_ok AgentMan.NewAgentMan "c1" 3 None empty_world
             = Returns (inl 0%nat, am') w')
    by (eexists; eexists; vm_compute; reflexivity).
  destruct H as [am' [w' H]]. exists am', w'. split; [exact H|].
  destruct (NewCluster_registers_what_it_returns env_ok AgentMan.NewAgentMan "c1" 3 None
              empty_world (inl 0%nat) am' w' ltac:(lia) H)
    as [_ [_ [Hfind [_ [_ [Hsz _]]]]]].
  split; [exact Hfind|exact Hsz].
Defined.

(** X19: the registry never holds a dangling pointer.  The empty registry
    of [NewAgentMan] is well formed in every state, and whenever
    [NewSingle], [NewCluster] (size in [0..255]), [StopSingle] or
    [StopCluster] is called on a well-formed registry and returns, the
    registry it leaves is well formed in the state it leaves; moreover
    [StopSingle] and [StopCluster] always return on a well-formed
    registry. *)
Theorem registry_stays_well_formed (env : Env) (am : AgentMan.t) (w : World) :
  registry_wf am w ->
  registry_wf AgentMan.NewAgentMan w /\
  (forall name cb r am' w',
     AgentMan.NewSingle env am name cb w = Returns (r, am') w' -> registry_wf am' w') /\
  (forall name size cb r am' w',
     0 <= size <= 255 ->
     AgentMan.NewCluster env am name size cb w = Returns (r, am') w' ->
     registry_wf am' w') /\
  (forall name, exists r am' w',
     AgentMan.StopSingle env am name w = Returns (r, am') w' /\ registry_wf am' w') /\
  (forall name, exists r am' w',
     AgentMan.StopCluster env am name w = Returns (r, am') w' /\ registry_wf am' w').
Proof.
  intros Hwf. split; [|split; [|split; [|split]]].
  - split; intros name x H; simpl in H; rewrite lookup_empty in H; discriminate H.
  - intros name cb r am' w' H. unfold AgentMan.NewSingle in H.
    destruct (singles am !! name) as [s0|] eqn:Hname.
    + unfold ret in H. apply Returns_inj in H as [Hp <-]. injection Hp as <- <-. exact Hwf.
    + apply bind_inv in H as [r1 [w1 [Hnew H]]].
      pose proof (NewTestInstance_advances env _ _ _ _ _ Hnew) as Hadv.
      apply (registry_wf_advances am w w1 Hadv) in Hwf.
      destruct r1 as [s|e]; unfold ret in H; apply Returns_inj in H as [Hp <-];
        injection Hp as <- <-; [|exact Hwf].
      destruct Hwf as [Hs Hc]. split; [|exact Hc]. simpl.
      intros other ti Hl. apply lookup_insert_Some in Hl as [[_ <-]|[_ Hl]]; [|eauto].
      apply NewTestInstance_inv in Hnew as [_ [_ [srv [client [_ [His _]]]]]].
      unfold allocated. rewrite His, lookup_insert_eq. eauto.
  - intros name size cb r am' w' Hsize H. unfold AgentMan.NewCluster in H.
    destruct (AgentMan.clusters am !! name) as [cl0|] eqn:Hname.
    + unfold ret in H. apply Returns_inj in H as [Hp <-]. injection Hp as <- <-. exact Hwf.
    + apply bind_inv in H as [r1 [w1 [Hnew H]]].
      destruct (NewTestCluster_advances env _ _ _ _ _ _ Hsize Hnew) as [Hadv Hok].
      apply (registry_wf_advances am w w1 Hadv) in Hwf.
      destruct r1 as [cl|e]; unfold ret in H; apply Returns_inj in H as [Hp <-];
        injection Hp as <- <-; [|exact Hwf].
      destruct Hwf as [Hs Hc]. split; [exact Hs|]. simpl.
      intros other cl' Hl. apply lookup_insert_Some in Hl as [[_ <-]|[_ Hl]]; eauto.
  - intros name. unfold AgentMan.StopSingle.
    destruct (singles am !! name) as [s|] eqn:Hname.
    + destruct (Stop_advances env w s) as [r [w' [Hstop [Hadv _]]]];
        [destruct Hwf as [Hs _]; eauto|].
      exists r, (AgentMan.mk (delete name (singles am)) (AgentMan.clusters am)), w'.
      split; [unfold bind; now rewrite Hstop|].
      apply (registry_wf_advances am w w' Hadv) in Hwf. destruct Hwf as [Hs Hc].
      split; [|exact Hc]. simpl. intros other ti Hl.
      apply lookup_delete_Some in Hl as [_ Hl]. eauto.
    + exists None, am, w. split; [reflexivity|exact Hwf].
  - intros name. unfold AgentMan.StopCluster.
    destruct (AgentMan.clusters am !! name) as [cl|] eqn:Hname.
    + destruct Hwf as [Hs Hc]. destruct (Hc name cl Hname) as [c [Hcl Hall]].
      destruct (Cluster_Stop_advances env cl c w Hcl Hall) as [r [w' [Hstop [Hadv _]]]].
      exists r, (AgentMan.mk (singles am) (delete name (AgentMan.clusters am))), w'.
      split; [unfold bind; now rewrite Hstop|].
      destruct (registry_wf_advances am w w' Hadv (conj Hs Hc)) as [Hs' Hc'].
      split; [exact Hs'|]. simpl. intros other cl' Hl.
      apply lookup_delete_Some in Hl as [_ Hl]. eauto.
    + exists None, am, w. split; [reflexivity|exact Hwf].
Qed.

Lemma registry_stays_well_formed_witness :
  let am := fst registry_example in
  let w := snd registry_example in
  registry_wf am w /\
  exists r am' w',
    AgentMan.StopCluster env_stop_fails am "c1" w = Returns (r, am') w' /\
    registry_wf am' w'.
Proof.
  intros am w.
  assert (Hs : singles am = {[ "s1" := 0%nat ]}) by (vm_compute; reflexivity).
  assert (Hc : AgentMan.clusters am = {[ "c1" := 0%nat ]}) by (vm_compute; reflexivity).
  assert (Hwf : registry_wf am w).
  { split.
    - intros name ti H. rewrite Hs in H. apply lookup_singleton_Some in H as [_ <-].
      eexists; vm_compute; reflexivity.
    - intros name cl H. rewrite Hc in H. apply lookup_singleton_Some in H as [_ <-].
      exists (mkCluster "c1" 2 [1; 2]%nat false). split; [vm_compute; reflexivity|].
      repeat constructor; eexists; vm_compute; reflexivity. }
  split; [exact Hwf|].
  exact (proj2 (proj2 (proj2 (proj2
           (registry_stays_well_formed env_stop_fails am w Hwf)))) "c1").
Defined.

(** ** The calls [Grow] makes *)

Section ClusterGrowTrace.
Context (env : Env).

(** An iteration of the loop of [Grow] that reaches its end has started
    one server and joined it through the client of member 0. *)
Lemma grow_body_trace (cl : loc) (cb : ClusterServerConfigCallback) (offset : Z)
    (c : TestCluster) (w : World) (w' : World) (first : loc) (i0 : TestInstance) :
  cluster_store w !! cl = Some c ->
  cl_instances c !! 0%nat = Some first ->
  instance_store w !! first = Some i0 ->
  Cluster.grow_body env cl cb offset w = Returns None w' ->
  exists client ti srv c0,
    ti_client i0 = Some client /\
    ~ allocated w ti /\
    instance_store w'
    = <[ti := mkInstance (cl_name c +:+ "-" +:+ fmt_d offset) (Some srv) (Some c0)]>
        (instance_store w) /\
    cluster_store w' = <[cl := grown c [ti]]> (cluster_store w) /\
    events w' = events w ++ [EvNewTestServer (testutil.Config srv);
                             EvJoin client (testutil.LANAddr srv) false].
Proof.
  intros Hc Hfirst Hi0 H. unfold Cluster.grow_body in H.
  unfold bind at 1 in H. rewrite (get_cluster_some _ _ _ Hc) in H.
  apply bind_inv in H as [r1 [w1 [Hnew H]]].
  apply NewTestInstance_inv in Hnew as [Hcs1 Hr1].
  destruct r1 as [ti|e1]; [|unfold ret in H; discriminate H].
  destruct Hr1 as [Hfresh [srv [client0 [Hconf [His1 Hev1]]]]].
  assert (Hc1 : cluster_store w1 !! cl = Some c) by now rewrite Hcs1.
  assert (Hti1 : instance_store w1 !! ti
                 = Some (mkInstance (cl_name c +:+ "-" +:+ fmt_d offset)
                           (Some srv) (Some client0)))
    by (rewrite His1; apply lookup_insert_eq).
  assert (Hf1 : instance_store w1 !! first = Some i0).
  { rewrite His1, lookup_insert_ne; [assumption|].
    intros ->. apply Hfresh. unfold allocated. rewrite Hi0. eauto. }
  unfold bind at 1 in H. rewrite (get_cluster_some _ _ _ Hc1) in H.
  unfold bind at 1 in H. rewrite (index_in_range _ 0%nat _ _ Hfirst) in H.
  apply bind_inv in H as [client [w2 [Hcl H]]].
  unfold Instance.APIClient, Instance.live_server, bind, get_instance, raise, ret in Hcl.
  rewrite Hf1 in Hcl. destruct (ti_server i0) as [srv0|]; [|discriminate Hcl].
  simpl in Hcl. apply Returns_inj in Hcl as [<- <-].
  apply bind_inv in H as [addr [w2 [Haddr H]]].
  unfold Instance.LANAddr, Instance.live_server, bind, get_instance, ret in Haddr.
  rewrite Hti1 in Haddr. simpl in Haddr. apply Returns_inj in Haddr as [<- <-].
  apply bind_inv in H as [jr [w2 [Hjoin H]]].
  destruct (ti_client i0) as [client|]; [|discriminate Hjoin].
  unfold Agent_Join, bind, history, record, ret in Hjoin.
  apply Returns_inj in Hjoin as [<- <-].
  destruct (agentJoin env (events w1) client (testutil.LANAddr srv) false) as [e|].
  - apply bind_inv in H as [rs [w3 [_ H]]]. unfold ret in H. discriminate H.
  - unfold bind at 1 in H. unfold get_cluster in H. simpl in H. rewrite Hc1 in H.
    unfold bind, put_cluster, ret in H. apply Returns_inj in H as [_ <-]. simpl.
    exists client, ti, srv, client0. split; [reflexivity|]. split; [assumption|].
    split; [exact His1|]. split; [now rewrite Hcs1|].
    rewrite Hev1, Hconf, <- app_assoc. reflexivity.
Qed.

(** The calls of the loop of [Grow], when it runs to its end. *)
Lemma grow_loop_trace (cl : loc) (cb : ClusterServerConfigCallback) (current : Z)
    (k : nat) :
  forall (i : Z) (c : TestCluster) (w : World) (w' : World) (first : loc)
         (i0 : TestInstance) (client : api.Client),
    cluster_store w !! cl = Some c ->
    Z.of_nat (length (cl_instances c)) = current + i ->
    0 <= current -> 0 <= i -> current + i + Z.of_nat k <= 255 ->
    cl_instances c !! 0%nat = Some first ->
    instance_store w !! first = Some i0 ->
    ti_client i0 = Some client ->
    Cluster.grow_loop env cl cb current k i w = Returns None w' ->
    exists news,
      cluster_store w' = <[cl := grown c news]> (cluster_store w) /\
      length news = k /\
      events w' = events w ++ grow_calls w' client news.
Proof.
  induction k as [|k IH]; intros i c w w' first i0 client Hc Hlen Hcur Hi Hbound
                                 Hfirst Hi0 Hclient H.
  - simpl in H. unfold ret in H. apply Returns_inj in H as [_ <-].
    exists []. rewrite grown_nil, (insert_id _ _ _ Hc).
    split; [reflexivity|]. split; [reflexivity|]. simpl. now rewrite app_nil_r.
  - simpl in H. apply bind_inv in H as [r1 [w1 [Hbody H]]].
    destruct r1 as [err|]; [unfold ret in H; discriminate H|].
    destruct (grow_body_trace cl cb _ c w w1 first i0 Hc Hfirst Hi0 Hbody)
      as [client' [ti [srv [c0 [Hclient' [Hfresh [His1 [Hcs1 Hev1]]]]]]]].
    rewrite Hclient in Hclient'. injection Hclient' as <-.
    assert (Hc1 : cluster_store w1 !! cl = Some (grown c [ti]))
      by (rewrite Hcs1; apply lookup_insert_eq).
    assert (Hne : first <> ti).
    { intros ->. apply Hfresh. unfold allocated. rewrite Hi0. eauto. }
    assert (Hti1 : allocated w1 ti).
    { unfold allocated. rewrite His1, lookup_insert_eq. eauto. }
    rewrite (uint8_small (i + 1)) in H by lia.
    assert (Hlen1 : Z.of_nat (length (cl_instances (grown c [ti]))) = current + (i + 1))
      by (simpl; rewrite length_app; simpl; lia).
    assert (Hfirst1 : cl_instances (grown c [ti]) !! 0%nat = Some first).
    { simpl. rewrite lookup_app_l; [assumption|].
      apply lookup_lt_Some in Hfirst. exact Hfirst. }
    assert (Hi01 : instance_store w1 !! first = Some i0)
      by (rewrite His1, lookup_insert_ne; auto).
    destruct (IH (i + 1) (grown c [ti]) w1 w' first i0 client Hc1 Hlen1
                ltac:(lia) ltac:(lia) ltac:(lia) Hfirst1 Hi01 Hclient H)
      as [news [Hcs' [Hlen' Hev']]].
    destruct (grow_loop_full env cl cb current k (i + 1) (grown c [ti]) w1 None w' Hc1 Hlen1
                ltac:(lia) ltac:(lia) ltac:(lia) H) as [_ [_ [_ [_ [Hold _]]]]].
    exists (ti :: news).
    split; [rewrite Hcs', Hcs1, insert_insert_eq, grown_grown; reflexivity|].
    split; [simpl; now rewrite Hlen'|].
    assert (Hsrv : server_of w' ti = Some srv).
    { unfold server_of. rewrite (Hold ti Hti1), His1, lookup_insert_eq. reflexivity. }
    unfold grow_calls in *. cbn [flat_map]. rewrite Hsrv, Hev', Hev1, <- !app_assoc.
    reflexivity.
Qed.

End ClusterGrowTrace.

(** X20: the external calls of a [Grow(n, cb)] that returns nil, on a
    cluster whose member 0 exists: for each node it added, in the order
    of the new members, it started that node's server with that node's
    configuration and then joined that node's LAN address, not as a WAN
    join, through the client of member 0; it made no other call, so it
    stopped no server.  With [n >= 1] member 0 has a client, else [Grow]
    would not have returned. *)
Theorem Grow_joins_each_node_to_member_0 (env : Env) (w : World) (cl : loc)
    (c : TestCluster) (n : Z) (cb : ClusterServerConfigCallback) (w' : World)
    (first : loc) (i0 : TestInstance) :
  cluster_store w !! cl = Some c ->
  cl_instances c !! 0%nat = Some first ->
  instance_store w !! first = Some i0 ->
  0 <= n <= 255 ->
  Cluster.Grow env cl n cb w = Returns None w' ->
  exists news,
    cluster_store w' !! cl = Some (grown c news) /\
    Z.of_nat (length news) = n /\
    match ti_client i0 with
    | Some client => events w' = events w ++ grow_calls w' client news
    | None => n = 0 /\ events w' = events w
    end.
Proof.
  intros Hc Hfirst Hi0 Hn H.
  destruct (Grow_returns_inv env cl c w n cb None w' Hc H)
    as [Hflag [[_ [Hr _]]|[Hfit Hloop]]]; [discriminate|].
  set (s := Z.of_nat (length (cl_instances c))) in *.
  destruct (ti_client i0) as [client|] eqn:Hclient.
  - destruct (grow_loop_trace env cl cb s (Z.to_nat n) 0 c w w' first i0 client Hc)
      as [news [Hcs [Hlen Hev]]]; try lia; try assumption.
    exists news. split; [rewrite Hcs; apply lookup_insert_eq|]. split; [lia|assumption].
  - destruct (Z.to_nat n) as [|k] eqn:Hk.
    + simpl in Hloop. unfold ret in Hloop. apply Returns_inj in Hloop as [_ <-].
      exists []. split; [now rewrite grown_nil|]. split; [simpl; lia|].
      split; [lia|reflexivity].
    + exfalso. simpl in Hloop. apply bind_inv in Hloop as [r1 [w1 [Hbody Hloop]]].
      destruct r1 as [err|]; [unfold ret in Hloop; discriminate Hloop|].
      destruct (grow_body_trace env cl cb _ c w w1 first i0 Hc Hfirst Hi0 Hbody)
        as [client [_ [_ [_ [Hcl _]]]]].
      rewrite Hclient in Hcl. discriminate Hcl.
Qed.

Lemma Grow_joins_each_node_to_member_0_witness :
  let w' := world_after (Cluster.Grow env_ok 0%nat 1 DefaultClusterServerConfigCallback)
              world_c3 in
  exists news,
    cluster_store w' !! 0%nat = Some (grown (mkCluster "c1" 3 [0; 1; 2]%nat false) news) /\
    events w' = events world_c3 ++ grow_calls w' (api.ClientOf "http:0") news.
Proof.
  intros w'.
  destruct (Grow_joins_each_node_to_member_0 env_ok world_c3 0%nat
              (mkCluster "c1" 3 [0; 1; 2]%nat false) 1 DefaultClusterServerConfigCallback w'
              0%nat
              (mkInstance "c1-0"
                 (Some (testutil.mkServer (testutil.mkConfig 1 false true)
                          "http:0" "https:0" "lan:0" "wan:0"
                          (testutil.HttpClientOf "http:0")))
                 (Some (api.ClientOf "http:0"))))
    as [news [Hc [_ Hev]]].
  - vm_compute; reflexivity.
  - reflexivity.
  - vm_compute; reflexivity.
  - lia.
  - vm_compute; reflexivity.
  - exists news. split; [exact Hc|exact Hev].
Defined.
